(** * The prediction engine of [predictor/ml_utils.py]

    A shallow embedding of [PropertyPricePredictor] (feature engineering,
    categorical encoding, weighted ensemble, confidence estimation and
    explanation) and of the request dictionary built by the HTTP view
    [PredictionViewSet.predict], followed by the properties the
    specification states about them.

    Python numbers are kept abstract behind the class [Num], with two
    instances: IEEE-754 binary64 ([float], what CPython and numpy compute
    with; executable) and the real numbers ([R], exact arithmetic, in which
    the order-theoretic properties are proved). *)

From Stdlib Require Import Floats ZArith Reals Lra.
From stdpp Require Import base strings list sorting gmap pretty.

Set Warnings "-inexact-float".

(** ** Numbers *)

Class Num (F : Type) : Type := {
  of_Z : Z → F;                 (* float(n) for a Python int n *)
  fadd : F → F → F;
  fsub : F → F → F;
  fmul : F → F → F;
  fdiv : F → F → F;             (* numpy division: no exception *)
  fsqrt : F → F;
  fltb : F → F → bool;          (* x < y *)
  feqb : F → F → bool           (* x == y *)
}.

Declare Scope num_scope.
Delimit Scope num_scope with num.
Infix "+" := fadd : num_scope.
Infix "-" := fsub : num_scope.
Infix "*" := fmul : num_scope.
Infix "/" := fdiv : num_scope.
Infix "<?" := fltb : num_scope.
Infix "=?" := feqb : num_scope.

(** A decimal literal [n/d] with [n] and [d] small integers: in binary64 the
    quotient of two exactly represented integers is the correctly rounded
    value, which is what the Python parser yields for [0.5], [0.3], [0.2]
    and [1.96] (see [float_literals] below). *)
Definition dec `{Num F} (n d : Z) : F := (of_Z n / of_Z d)%num.

#[export] Instance R_Num : Num R := {|
  of_Z := IZR;
  fadd := Rplus;
  fsub := Rminus;
  fmul := Rmult;
  fdiv := Rdiv;
  fsqrt := sqrt;
  fltb x y := if Rlt_dec x y then true else false;
  feqb x y := if Req_dec_T x y then true else false
|}.

(** Conversion of an integer to the nearest binary64 (ties to even). Python
    raises [OverflowError] beyond the range of binary64; the integers of the
    engine are room counts and category codes. *)
Definition Z_to_float (z : Z) : float :=
  SF2Prim (binary_normalize prec emax z 0 false).

#[export] Instance float_Num : Num float := {|
  of_Z := Z_to_float;
  fadd := PrimFloat.add;
  fsub := PrimFloat.sub;
  fmul := PrimFloat.mul;
  fdiv := PrimFloat.div;
  fsqrt := PrimFloat.sqrt;
  fltb := PrimFloat.ltb;
  feqb := PrimFloat.eqb
|}.

(** ** Python values, exceptions and dictionaries *)

Inductive pyval (F : Type) : Type :=
  | VNone
  | VInt (n : Z)
  | VFloat (x : F)
  | VStr (s : string).
Arguments VNone {F}.
Arguments VInt {F} n.
Arguments VFloat {F} x.
Arguments VStr {F} s.

(** The exception classes the engine can raise; their messages are not
    modelled. *)
Inductive exn : Type :=
  | KeyError
  | ZeroDivisionError
  | TypeError
  | ValueError.

Definition class_name (e : exn) : string :=
  match e with
  | KeyError => "KeyError"
  | ZeroDivisionError => "ZeroDivisionError"
  | TypeError => "TypeError"
  | ValueError => "ValueError"
  end.

#[export] Instance exn_eq_dec : EqDecision exn.
Proof. solve_decision. Defined.

(** The outcome of a Python expression or call. *)
Inductive outcome (A : Type) : Type :=
  | Return (a : A)
  | Raise (e : exn).
Arguments Return {A} a.
Arguments Raise {A} e.

#[export] Instance outcome_ret : MRet outcome := λ A a, Return a.
#[export] Instance outcome_bind : MBind outcome := λ A B k m,
  match m with
  | Return a => k a
  | Raise e => Raise e
  end.

(** [for x in l: ... f(x) ...], stopping at the first exception. *)
Fixpoint for_each {A B : Type} (f : A → outcome B) (l : list A)
  : outcome (list B) :=
  match l with
  | [] => Return []
  | x :: l' => y ← f x; ys ← for_each f l'; Return (y :: ys)
  end.

(** A dictionary with string keys, where the order of the keys is not
    observed. *)
Abbreviation dict F := (gmap string (pyval F)).

Section Python.
Context {F : Type} `{Num F}.
Local Open Scope num_scope.

(** [d[k]] *)
Definition py_getitem {V : Type} (d : gmap string V) (k : string)
  : outcome V :=
  match d !! k with
  | Some v => Return v
  | None => Raise KeyError
  end.

(** [d.get(k, default)] *)
Definition py_get {V : Type} (d : gmap string V) (k : string) (default : V)
  : V :=
  match d !! k with
  | Some v => v
  | None => default
  end.

(** [d.get(k)], whose default is [None] *)
Definition py_get_none (d : dict F) (k : string) : pyval F :=
  py_get d k VNone.

(** Truth value of an object, as [if v:] tests it. *)
Definition py_truthy (v : pyval F) : bool :=
  match v with
  | VNone => false
  | VInt n => negb (n =? 0)%Z
  | VFloat x => negb (x =? of_Z 0)
  | VStr s => negb (String.eqb s "")
  end.

(** [a / b]: true division of Python numbers. A zero divisor raises, for
    ints and floats alike; the quotient of two ints is the quotient of their
    conversions, which is Python's correctly rounded result for ints that
    binary64 represents exactly. For an int beyond the range of binary64
    Python raises [OverflowError], a class this embedding does not have:
    the statements that conclude a result from the request bound the ints
    ([plain_number] below). *)
Definition py_truediv (a b : pyval F) : outcome (pyval F) :=
  match a, b with
  | VInt m, VInt n =>
      if (n =? 0)%Z then Raise ZeroDivisionError
      else Return (VFloat (of_Z m / of_Z n))
  | VInt m, VFloat y =>
      if y =? of_Z 0 then Raise ZeroDivisionError
      else Return (VFloat (of_Z m / y))
  | VFloat x, VInt n =>
      if (n =? 0)%Z then Raise ZeroDivisionError
      else Return (VFloat (x / of_Z n))
  | VFloat x, VFloat y =>
      if y =? of_Z 0 then Raise ZeroDivisionError
      else Return (VFloat (x / y))
  | _, _ => Raise TypeError
  end.

(** [a + b] *)
Definition py_add (a b : pyval F) : outcome (pyval F) :=
  match a, b with
  | VInt m, VInt n => Return (VInt (m + n)%Z)
  | VInt m, VFloat y => Return (VFloat (of_Z m + y))
  | VFloat x, VInt n => Return (VFloat (x + of_Z n))
  | VFloat x, VFloat y => Return (VFloat (x + y))
  | VStr s, VStr t => Return (VStr (s ++ t))
  | _, _ => Raise TypeError
  end.

(** [max(a, b)] and [min(a, b)]: the first argument is kept unless the
    second is strictly greater (smaller). *)
Definition py_max (a b : F) : F := if a <? b then b else a.
Definition py_min (a b : F) : F := if b <? a then b else a.

(** *** numpy reductions over a one-dimensional array

    The entries are added from left to right, as numpy adds those of a short
    array (it sums arrays of eight entries or more in blocks, which is the
    same sum over [R] and may round differently in binary64). *)

Definition np_sum (l : list F) : F :=
  match l with
  | [] => of_Z 0
  | x :: l' => foldl fadd x l'
  end.

Definition np_mean (l : list F) : F :=
  np_sum l / of_Z (Z.of_nat (length l)).

(** [np.std] with its default [ddof=0]: the population standard
    deviation. *)
Definition np_std (l : list F) : F :=
  let arrmean := np_mean l in
  let x := (λ a, a - arrmean) <$> l in
  let x := (λ a, a * a) <$> x in
  fsqrt (np_sum x / of_Z (Z.of_nat (length l))).

(** What scikit-learn's input validation makes of a one-row frame: the
    row as floats, [ValueError] on an entry that is no number. The further
    checks of the library (no NaN, no infinity, no value beyond the range of
    float32, the number of features the model was fitted on) are not
    modelled, so a frame accepted here may be rejected there: no statement
    below concludes from the request alone that the models answer. *)
Definition check_array (X : list (pyval F)) : outcome (list F) :=
  for_each (λ v, match v with
                 | VInt n => Return (of_Z n)
                 | VFloat x => Return x
                 | VStr _ | VNone => Raise ValueError
                 end) X.
End Python.

(** ** Logging

    [logger.error(f"<prefix>: {str(e)}")] appends a record to the process
    log; the log is the only state a prediction writes. *)

Record log_record : Type := LogError { log_prefix : string; log_exn : exn }.

Definition world : Type := list log_record.

(** Computations that may log and may raise. *)
Definition M (A : Type) : Type := world → outcome A * world.

#[export] Instance M_ret : MRet M := λ A a w, (Return a, w).
#[export] Instance M_bind : MBind M := λ A B k m w,
  match m w with
  | (Return a, w') => k a w'
  | (Raise e, w') => (Raise e, w')
  end.

(** A call that neither logs nor reads the log. *)
Definition lift {A : Type} (o : outcome A) : M A := λ w, (o, w).

Definition raise {A : Type} (e : exn) : M A := lift (Raise e).

Definition logger_error (prefix : string) (e : exn) : M unit :=
  λ w, (Return (), w ++ [LogError prefix e]).

(** [try: body  except <classes> as e: handler(e)] *)
Definition try_except {A : Type} (body : M A) (catches : exn → bool)
    (handler : exn → M A) : M A := λ w,
  match body w with
  | (Return a, w') => (Return a, w')
  | (Raise e, w') => if catches e then handler e w' else (Raise e, w')
  end.

(** ** The loaded artefacts *)

Section Artefacts.
Context {F : Type}.

(** A fitted [LabelEncoder]: its sorted vocabulary. *)
Record LabelEncoder : Type := { classes_ : list string }.

(** A fitted [RandomForestRegressor], applied to one row. *)
Record RandomForest : Type := {
  rf_predict : list F → F;
  estimators_ : list (list F → F);
  feature_importances_ : list F
}.

(** [property_models.pkl]: the dictionary with keys ['scaler'], ['rf'],
    ['gb'] and ['ridge']. Each [predict] is applied to a one-row frame and
    its one result is taken ([...predict(X)[0]]). What a fitted estimator
    computes is code of scikit-learn: here it is any function of the row,
    and that the estimators are such functions is taken for granted, not
    shown. *)
Record Models : Type := {
  scaler_transform : list F → list F;
  rf : RandomForest;
  gb_predict : list F → F;
  ridge_predict : list F → F
}.

(** [model_stats.pkl]: a dictionary in which each of the four keys may be
    missing. *)
Record Stats : Type := {
  stats_location_premium : option (gmap string F);
  stats_property_premium : option (gmap string F);
  stats_median_values : option (gmap string F);
  stats_metrics : option (gmap string F)
}.

(** The attributes of [PropertyPricePredictor] once [load_models] has run.
    No method below assigns to them. *)
Record PropertyPricePredictor : Type := {
  models : Models;
  le_property : LabelEncoder;
  le_location : LabelEncoder;
  feature_names : list string;
  stats : Stats
}.

(** What [predict_with_confidence] returns; [feature_importance] is a
    dictionary whose insertion order [explain_prediction] observes. *)
Record PredictionResult : Type := {
  predicted_price : F;
  confidence_score : F;
  price_range_min : F;
  price_range_max : F;
  feature_importance : list (string * F);
  model_metrics : gmap string F
}.
End Artefacts.
Arguments RandomForest F : clear implicits.
Arguments Models F : clear implicits.
Arguments Stats F : clear implicits.
Arguments PropertyPricePredictor F : clear implicits.
Arguments PredictionResult F : clear implicits.

(** [le.transform([v])[0]]: the position of [v] in the vocabulary;
    scikit-learn raises [ValueError] on a label it has not seen. *)
Definition transform {F : Type} (le : LabelEncoder) (v : pyval F)
  : outcome (pyval F) :=
  match v with
  | VStr s =>
      match list_find (λ c, c = s) (classes_ le) with
      | Some (i, _) => Return (VInt (Z.of_nat i))
      | None => Raise ValueError
      end
  | _ => Raise ValueError
  end.

(** [d[k] = v] on an insertion-ordered dictionary: a key already present
    keeps its position. *)
Fixpoint odict_set {V : Type} (d : list (string * V)) (k : string) (v : V)
  : list (string * V) :=
  match d with
  | [] => [(k, v)]
  | (k', v') :: d' =>
      if String.eqb k' k then (k, v) :: d' else (k', v') :: odict_set d' k v
  end.

(** [{k: v for k, v in pairs}] *)
Definition odict_of_pairs {V : Type} (pairs : list (string * V))
  : list (string * V) :=
  foldl (λ d kv, odict_set d kv.1 kv.2) [] pairs.

(** ** [PropertyPricePredictor] *)

Section Engine.
Context {F : Type} `{Num F}.
Local Open Scope num_scope.

Implicit Types (self : PropertyPricePredictor F) (data : dict F).

(** [{c: table.get(c, 0) for c in le.classes_}], where [table] is
    [self.stats.get(<name>, {})]. *)
Definition premiums (table : option (gmap string F)) (le : LabelEncoder)
  : dict F :=
  foldl (λ d c, <[c := match default ∅ table !! c with
                       | Some p => VFloat p
                       | None => VInt 0
                       end]> d) ∅ (classes_ le).

(** [table.get(key, 0)] for a key that is any Python value: only a string
    can be among the keys. *)
Definition premium_of (table : dict F) (key : pyval F) : pyval F :=
  match key with
  | VStr s => py_get table s (VInt 0)
  | _ => VInt 0
  end.

Definition engineer_features self data : outcome (dict F) :=
  (* data['bath_bed_ratio'] = data['bathroom'] / data['Bedroom'] *)
  bathroom ← py_getitem data "bathroom";
  Bedroom ← py_getitem data "Bedroom";
  bath_bed_ratio ← py_truediv bathroom Bedroom;
  let data := <["bath_bed_ratio" := bath_bed_ratio]> data in
  (* data['total_area'] = data.get('House size', 0) + data.get('Land size', 0) *)
  total_area ← py_add (py_get data "House size" (VInt 0))
                      (py_get data "Land size" (VInt 0));
  let data := <["total_area" := total_area]> data in
  let location_premiums :=
    premiums (stats_location_premium (stats self)) (le_location self) in
  let property_premiums :=
    premiums (stats_property_premium (stats self)) (le_property self) in
  Location ← py_getitem data "Location";
  let data := <["location_premium" := premium_of location_premiums Location]> data in
  propertyType ← py_getitem data "propertyType";
  let data := <["property_premium" := premium_of property_premiums propertyType]> data in
  Return data.

(** [self.stats['median_values'][field]] *)
Definition median_value self (field : string) : outcome (pyval F) :=
  match stats_median_values (stats self) with
  | None => Raise KeyError
  | Some medians => m ← py_getitem medians field; Return (VFloat m)
  end.

Definition is_ValueError (e : exn) : bool := bool_decide (e = ValueError).

(** Returns the one-row frame [df[self.feature_names]] as the list of its
    entries. The default of each [.get] is evaluated before the call. *)
Definition prepare_input self (property_data : dict F)
  : M (list (pyval F)) :=
  (* Map input to feature format *)
  data ← lift (
    propertyType ← py_getitem property_data "property_type";
    Location ← py_getitem property_data "location";
    Bedroom ← py_getitem property_data "bedrooms";
    bathroom ← py_getitem property_data "bathrooms";
    median_house ← median_value self "House size";
    let House_size := py_get property_data "house_size" median_house in
    median_land ← median_value self "Land size";
    let Land_size := py_get property_data "land_size" median_land in
    Return (list_to_map [
      ("propertyType", propertyType);
      ("Location", Location);
      ("Bedroom", Bedroom);
      ("bathroom", bathroom);
      ("House size", House_size);
      ("Land size", Land_size) ] : dict F));
  (* Engineer features *)
  data ← lift (engineer_features self data);
  (* df = pd.DataFrame([data]) *)
  let df := data in
  (* Encode categorical variables *)
  df ← try_except
         (lift (
            propertyType ← py_getitem data "propertyType";
            code ← transform (le_property self) propertyType;
            let df := <["propertyType" := code]> df in
            Location ← py_getitem data "Location";
            code ← transform (le_location self) Location;
            let df := <["Location" := code]> df in
            Return df))
         is_ValueError
         (λ e, _ ← logger_error "Encoding error" e; raise ValueError);
  (* df = df[self.feature_names] *)
  lift (for_each (py_getitem df) (feature_names self)).

(** A scikit-learn call on the frame [X]. *)
Definition sk {A : Type} (f : list F → A) (X : list (pyval F))
  : outcome A :=
  row ← check_array X; Return (f row).

Definition ensemble_predict self (X : list (pyval F)) : outcome F :=
  let scaler := scaler_transform (models self) in
  X_scaled ← sk scaler X;
  rf_pred ← sk (rf_predict (rf (models self))) X;
  gb_pred ← sk (gb_predict (models self)) X;
  let ridge_pred := ridge_predict (models self) X_scaled in
  let ensemble_pred :=
    dec 5 10 * rf_pred + dec 3 10 * gb_pred + dec 2 10 * ridge_pred in
  Return ensemble_pred.

(** [self.stats['metrics']] *)
Definition stats_metrics_item self : outcome (gmap string F) :=
  match stats_metrics (stats self) with
  | Some m => Return m
  | None => Raise KeyError
  end.

Definition predict_with_confidence self (property_data : dict F)
  : M (PredictionResult F) :=
  try_except
    ((* Prepare input *)
     X ← prepare_input self property_data;
     lift (
       (* Get ensemble prediction *)
       predicted_price ← ensemble_predict self X;
       rf_pred ← sk (rf_predict (rf (models self))) X;
       gb_pred ← sk (gb_predict (models self)) X;
       (* Calculate confidence based on model agreement *)
       let predictions := [rf_pred; gb_pred; predicted_price] in
       let std_dev := np_std predictions in
       let mean_pred := np_mean predictions in
       let cv :=
         if of_Z 0 <? mean_pred then std_dev / mean_pred else of_Z 1 in
       let confidence_score :=
         py_max (of_Z 0) (py_min (of_Z 1) (of_Z 1 - cv)) in
       (* Calculate prediction interval *)
       tree_predictions ← for_each (λ tree, sk tree X)
                             (estimators_ (rf (models self)));
       let std_error := np_std tree_predictions in
       let margin := dec 196 100 * std_error in
       let price_range_min := py_max (of_Z 0) (predicted_price - margin) in
       let price_range_max := predicted_price + margin in
       let feature_importance :=
         odict_of_pairs
           (zip (feature_names self)
                (feature_importances_ (rf (models self)))) in
       model_metrics ← stats_metrics_item self;
       Return {| predicted_price := predicted_price;
                 confidence_score := confidence_score;
                 price_range_min := price_range_min;
                 price_range_max := price_range_max;
                 feature_importance := feature_importance;
                 model_metrics := model_metrics |}))
    (λ _, true)
    (λ e, _ ← logger_error "Prediction error" e; raise e).

(** *** The request of the HTTP view

    [PredictionViewSet.predict] (and [batch_predict]) copy the validated
    fields into [property_data]; the two sizes are read with
    [validated_data.get], so an omitted size becomes an explicit [None]. *)
Definition view_property_data (validated_data : dict F) : outcome (dict F) :=
  property_type ← py_getitem validated_data "property_type";
  location ← py_getitem validated_data "location";
  bedrooms ← py_getitem validated_data "bedrooms";
  bathrooms ← py_getitem validated_data "bathrooms";
  Return (list_to_map [
    ("property_type", property_type);
    ("location", location);
    ("bedrooms", bedrooms);
    ("bathrooms", bathrooms);
    ("house_size", py_get_none validated_data "house_size");
    ("land_size", py_get_none validated_data "land_size") ]).
End Engine.

(** ** [explain_prediction] *)

Section Explanation.
Context {F : Type} `{Num F}.
Local Open Scope num_scope.

(** Python's two renderings of a float, [str(x)] and [format(x, '.0f')],
    are built-ins of the interpreter. *)
Variable str_float : F → string.
Variable format_0f : F → string.

(** [f"{v}"] *)
Definition py_str (v : pyval F) : string :=
  match v with
  | VNone => "None"
  | VInt n => pretty n
  | VFloat x => str_float x
  | VStr s => s
  end.

(** [f"{v:.0f}"] *)
Definition py_format_0f (v : pyval F) : outcome string :=
  match v with
  | VInt n => Return (format_0f (of_Z n))
  | VFloat x => Return (format_0f x)
  | VStr _ => Raise ValueError
  | VNone => Raise TypeError
  end.

(** [sorted(items, key=lambda x: x[1])]: stable, comparing with [<]
    only. *)
Fixpoint insert_by_value (x : string * F) (l : list (string * F))
  : list (string * F) :=
  match l with
  | [] => [x]
  | y :: l' => if x.2 <? y.2 then x :: l else y :: insert_by_value x l'
  end.

Definition sorted_by_value (items : list (string * F))
  : list (string * F) :=
  foldl (λ acc x, insert_by_value x acc) [] items.

(** [sorted(items, key=lambda x: x[1], reverse=True)]: the items are
    reversed, sorted and reversed again, which keeps items of equal value
    in their original order. *)
Definition sorted_by_value_reverse (items : list (string * F))
  : list (string * F) :=
  reverse (sorted_by_value (reverse items)).

Definition location_sentence (location : pyval F) : string :=
  "Location (" +:+ py_str location
    +:+ "): Premium area with high property values".

Definition property_type_sentence (prop_type : pyval F) : string :=
  "Property Type (" +:+ py_str prop_type
    +:+ "): Influences base price significantly".

Definition house_size_sentence (size : string) : string :=
  "House Size: " +:+ size +:+ " mÂ² contributes to overall value".

Definition rooms_sentence (bedrooms bathrooms : pyval F) : string :=
  "Rooms: " +:+ py_str bedrooms +:+ " bedrooms and "
    +:+ py_str bathrooms +:+ " bathrooms affect pricing".

Definition key_factors_sentence (top_features : list (string * F))
  : string :=
  "Key factors: " +:+ String.concat ", " (top_features.*1).

Definition explain_prediction (property_data : dict F)
    (prediction_result : PredictionResult F) : outcome (list string) :=
  let explanations := [] in
  (* Location impact *)
  location ← py_getitem property_data "location";
  let explanations := explanations ++ [location_sentence location] in
  (* Property type impact *)
  prop_type ← py_getitem property_data "property_type";
  let explanations := explanations ++ [property_type_sentence prop_type] in
  (* Size impact *)
  explanations ←
    (if py_truthy (py_get_none property_data "house_size") then
       house_size ← py_getitem property_data "house_size";
       size ← py_format_0f house_size;
       Return (explanations ++ [house_size_sentence size])
     else Return explanations);
  (* Bedrooms/Bathrooms *)
  bedrooms ← py_getitem property_data "bedrooms";
  bathrooms ← py_getitem property_data "bathrooms";
  let explanations := explanations ++ [rooms_sentence bedrooms bathrooms] in
  (* Top contributing features *)
  let top_features :=
    take 3 (sorted_by_value_reverse (feature_importance prediction_result)) in
  Return (explanations ++ [key_factors_sentence top_features]).
End Explanation.

(** ** A stub model bank and the request of the specification's scenario *)

Section Stub.
Context {F : Type} `{Num F}.

(** Models that return fixed predictions whatever the row, behind an
    identity scaler; [trees] are the per-tree predictions. *)
Definition stub_models (rf_pred gb_pred ridge_pred : F) (trees : list F)
  : Models F := {|
  scaler_transform := λ X, X;
  rf := {| rf_predict := λ _, rf_pred;
           estimators_ := (λ t, λ _, t) <$> trees;
           feature_importances_ :=
             [dec 5 100; dec 30 100; dec 5 100; dec 5 100; dec 20 100;
              dec 10 100; dec 5 100; dec 20 100; of_Z 0; of_Z 0] |};
  gb_predict := λ _, gb_pred;
  ridge_predict := λ _, ridge_pred
|}.

(** The vocabularies are the choices of [predictor/models.py], sorted as
    [LabelEncoder.fit] sorts them. *)
Definition stub_predictor (m : Models F) : PropertyPricePredictor F := {|
  models := m;
  le_property := {| classes_ :=
    ["Apartment"; "Commercial Property"; "Industrial Property";
     "Townhouse"; "Vacant Land"] |};
  le_location := {| classes_ :=
    ["Kabete"; "Karen"; "Kiambu Road"; "Kileleshwa"; "Kilimani";
     "Kitisuru"; "Kyuna"; "Lavington"; "Loresho"; "Lower Kabete";
     "Mombasa Rd"; "Muthaiga"; "Muthaiga North"; "Nairobi West";
     "Ngong Rd"; "Nyari"; "Ongata Rongai"; "Parklands"; "Riverside";
     "Rosslyn"; "Runda"; "Syokimau"; "Thigiri"; "Thome"; "Waithaka";
     "Westlands"] |};
  feature_names :=
    ["propertyType"; "Location"; "Bedroom"; "bathroom"; "House size";
     "Land size"; "bath_bed_ratio"; "total_area"; "location_premium";
     "property_premium"];
  stats := {|
    stats_location_premium := Some {[ "Kilimani" := of_Z 1500000 ]};
    stats_property_premium := Some {[ "Apartment" := of_Z 250000 ]};
    stats_median_values :=
      Some {[ "House size" := of_Z 150; "Land size" := of_Z 500 ]};
    stats_metrics := Some {[ "r2" := dec 95 100 ]} |}
|}.

(** A request as a caller of the engine builds it: a key is present only
    when its value is given. *)
Definition request (property_type location : string)
    (bedrooms bathrooms : Z) (house_size land_size : option F) : dict F :=
  let d : dict F :=
    {[ "property_type" := VStr property_type;
       "location" := VStr location;
       "bedrooms" := VInt bedrooms;
       "bathrooms" := VInt bathrooms ]} in
  let d := match house_size with
           | Some x => <["house_size" := VFloat x]> d
           | None => d
           end in
  match land_size with
  | Some x => <["land_size" := VFloat x]> d
  | None => d
  end.

(** {type="Apartment", location="Kilimani", bedrooms=3, bathrooms=2,
    house_size=150, land_size=0} *)
Definition kilimani_apartment : dict F :=
  request "Apartment" "Kilimani" 3 2 (Some (of_Z 150)) (Some (of_Z 0)).

(** rf=2.0e7, gb=2.1e7, ridge=1.9e7, scaler=identity *)
Definition scenario_predictor : PropertyPricePredictor F :=
  stub_predictor
    (stub_models (of_Z 20000000) (of_Z 21000000) (of_Z 19000000)
       [of_Z 19000000; of_Z 20000000; of_Z 21000000]).
End Stub.


(** ** Definitions used in the statements

    The two inline blocks of [prepare_input] under names of their own
    ([prepare_input_steps] below shows that they are the blocks of the
    definition above), and the vocabulary of the statements. *)

Section Statements.
Context {F : Type} `{Num F}.
Local Open Scope num_scope.
Implicit Types (self : PropertyPricePredictor F) (pd data : dict F).
Implicit Types (w : world) (X : list (pyval F)).

(** "Map input to feature format" *)
Definition map_input self pd : outcome (dict F) :=
  propertyType ← py_getitem pd "property_type";
  Location ← py_getitem pd "location";
  Bedroom ← py_getitem pd "bedrooms";
  bathroom ← py_getitem pd "bathrooms";
  median_house ← median_value self "House size";
  let House_size := py_get pd "house_size" median_house in
  median_land ← median_value self "Land size";
  let Land_size := py_get pd "land_size" median_land in
  Return (list_to_map [
    ("propertyType", propertyType);
    ("Location", Location);
    ("Bedroom", Bedroom);
    ("bathroom", bathroom);
    ("House size", House_size);
    ("Land size", Land_size) ] : dict F).

(** "Encode categorical variables" *)
Definition encode self data : outcome (dict F) :=
  propertyType ← py_getitem data "propertyType";
  code ← transform (le_property self) propertyType;
  let df := <["propertyType" := code]> data in
  Location ← py_getitem data "Location";
  code ← transform (le_location self) Location;
  let df := <["Location" := code]> df in
  Return df.

(** The request passes feature engineering, with [data] the engineered
    record. *)
Definition engineered self pd data : Prop :=
  map_input self pd ≫= engineer_features self = Return data.

(** Every column of the frame [X] that [names] calls [name] holds [v]. *)
Definition column (names : list string) X (name : string) (v : pyval F)
  : Prop :=
  ∀ i : nat, names !! i = Some name → X !! i = Some v.

(** [v] is a label of the encoder's vocabulary. *)
Definition in_vocabulary (le : LabelEncoder) (v : pyval F) : Prop :=
  ∃ s, v = VStr s ∧ s ∈ classes_ le.

(** The same predictor around another dictionary of models. *)
Definition with_models (m : Models F) self : PropertyPricePredictor F :=
  {| models := m;
     le_property := le_property self;
     le_location := le_location self;
     feature_names := feature_names self;
     stats := stats self |}.

Definition is_number (v : pyval F) : bool :=
  match v with
  | VInt _ | VFloat _ => true
  | VNone | VStr _ => false
  end.

(** The total area as the specification words it: the sum of the two sizes
    of the request, a missing one counting as 0. *)
Definition spec_total_area pd : outcome (pyval F) :=
  py_add (py_get pd "house_size" (VInt 0)) (py_get pd "land_size" (VInt 0)).
End Statements.

(** [m] returns the same outcome and appends the same records whatever the
    log it starts from. *)
Definition logs_only {A : Type} (m : M A) : Prop :=
  ∃ (o : outcome A) (l : list log_record), ∀ w, m w = (o, w ++ l).

(** *** The statistics of the specification, over the reals *)

#[export] Instance R_eq_dec : EqDecision R := Req_dec_T.

Section RealStatements.
Local Open Scope R_scope.

(** Arithmetic mean. *)
Definition mean (l : list R) : R := foldr Rplus 0 l / INR (length l).

(** Population standard deviation: the root of the mean squared deviation
    from the mean. *)
Definition population_std (l : list R) : R :=
  sqrt (mean ((λ x, (x - mean l) * (x - mean l)) <$> l)).

(** [cv = std/mean], and 1 when the mean is not positive. *)
Definition coefficient_of_variation (l : list R) : R :=
  if Rle_dec (mean l) 0 then 1 else population_std l / mean l.

Definition clamp (x lo hi : R) : R := Rmax lo (Rmin hi x).

(** [l] lists [items] by value in descending order, items of equal value
    in the order they have in [items]. *)
Definition ranked (items l : list (string * R)) : Prop :=
  l ≡ₚ items ∧
  StronglySorted (λ x y, y.2 <= x.2) l ∧
  ∀ v : R, filter (λ x, x.2 = v) l = filter (λ x, x.2 = v) items.

Definition ascending (l : list (string * R)) : Prop :=
  StronglySorted (λ x y, x.2 <= y.2) l.
End RealStatements.

(** *** Further fixtures *)

(** A bank whose linear model extrapolates below zero: rf = gb = 1.0e6 and
    ridge = -1.0e7 give the price -1.2e6, below the floored lower bound. *)
Definition negative_predictor {F : Type} `{Num F} : PropertyPricePredictor F :=
  stub_predictor
    (stub_models (of_Z 1000000) (of_Z 1000000) (of_Z (-10000000))
       [of_Z 1000000; of_Z 1000000]).

(** A result whose second and third weights tie. *)
Definition tied_result : PredictionResult R := {|
  predicted_price := 20100000%R;
  confidence_score := 1%R;
  price_range_min := 20000000%R;
  price_range_max := 20200000%R;
  feature_importance :=
    [("Bedroom", 0.1%R); ("Location", 0.4%R); ("House size", 0.25%R);
     ("total_area", 0.25%R)];
  model_metrics := ∅
|}.

(** * The HTTP views of [predictor/views.py]

    The engine above is the module-level [predictor] of [ml_utils.py]. What
    the views call in Django and the REST framework is kept abstract: the
    validation of [PredictionInputSerializer], the insertion of a row, and
    the renderings of floats. *)

(** An exception caught by a view: one of the engine, or one raised by the
    framework (the ORM, the access to the request). *)
Inductive view_exn : Type :=
  | EngineError (e : exn)
  | FrameworkError.

(** A record of the logger of [views.py], which is another logger than that
    of [ml_utils.py]. *)
Record view_log_record : Type :=
  ViewLogError { view_log_prefix : string; view_log_exn : view_exn }.

(** [Response(body, status=...)] with the three statuses the views use. For
    a server error, [error] is the fixed text of the body and [details] the
    exception that [predict] adds to it. *)
Inductive Response (E B : Type) : Type :=
  | HTTP_200_OK (body : B)
  | HTTP_400_BAD_REQUEST (errors : E)
  | HTTP_500_INTERNAL_SERVER_ERROR (error : string) (details : option view_exn).
Arguments HTTP_200_OK {E B} body.
Arguments HTTP_400_BAD_REQUEST {E B} errors.
Arguments HTTP_500_INTERNAL_SERVER_ERROR {E B} error details.

Definition status_code {E B : Type} (r : Response E B) : Z :=
  match r with
  | HTTP_200_OK _ => 200
  | HTTP_400_BAD_REQUEST _ => 400
  | HTTP_500_INTERNAL_SERVER_ERROR _ _ => 500
  end.

(** What a request can change: the two logs and the table of
    [PredictionRequest]. *)
Record server (T : Type) : Type := {
  ml_log : world;
  views_log : list view_log_record;
  table : T
}.
Arguments ml_log {T} _.
Arguments views_log {T} _.
Arguments table {T} _.

(** The character [','] (code 44). *)
Definition comma : Ascii.ascii := Eval cbv in Ascii.ascii_of_nat 44.

(** [s.split(',')[0]]: the text before the first comma. *)
Fixpoint before_comma (s : string) : string :=
  match s with
  | EmptyString => EmptyString
  | String c s' =>
      if Ascii.eqb c comma then EmptyString else String c (before_comma s')
  end.

(** [PredictionViewSet.get_client_ip], on [request.META]. *)
Definition get_client_ip (META : gmap string string) : option string :=
  match META !! "HTTP_X_FORWARDED_FOR" with
  | Some x_forwarded_for =>
      if String.eqb x_forwarded_for "" then META !! "REMOTE_ADDR"
      else Some (before_comma x_forwarded_for)
  | None => META !! "REMOTE_ADDR"
  end.

(** The request: its parsed body, [request.META] and
    [request.session.session_key]. *)
Record HttpRequest (Raw : Type) : Type := {
  data : Raw;
  META : gmap string string;
  session_key : option string
}.
Arguments data {Raw} _.
Arguments META {Raw} _.
Arguments session_key {Raw} _.

Section Views.
Context {F : Type} `{Num F}.
Local Open Scope num_scope.

(** The keyword arguments of [PredictionRequest.objects.create]. *)
Record PredictionRow : Type := {
  row_property_type : pyval F;
  row_location : pyval F;
  row_bedrooms : pyval F;
  row_bathrooms : pyval F;
  row_house_size : pyval F;
  row_land_size : pyval F;
  row_predicted_price : F;
  row_confidence_score : F;
  row_price_range_min : F;
  row_price_range_max : F;
  row_ip_address : option string;
  row_session_id : option string
}.

(** The body of the answer of [predict]. *)
Record PredictionBody : Type := {
  body_prediction_id : Z;
  body_predicted_price : F;
  body_predicted_price_formatted : string;
  body_confidence_score : F;
  body_confidence_percentage : string;
  body_price_range_min : F;
  body_price_range_max : F;
  body_price_range_min_formatted : string;
  body_price_range_max_formatted : string;
  body_explanations : list string;
  body_model_metrics : gmap string F;
  body_input_features : dict F
}.

(** An entry of the [results] of [batch_predict]. *)
Record BatchResult : Type := {
  batch_input : dict F;
  batch_prediction : F;
  batch_confidence : F
}.

(** The framework, as the views use it. *)
Variables Raw Errors Table : Type.

(** [PredictionInputSerializer(data=d)]: its [errors] when [is_valid()] is
    false, its [validated_data] otherwise. *)
Variable serializer : Raw → Errors + dict F.

(** [PredictionRequest.objects.create] with the keywords [row], on the table: the primary key
    of the new row and the table with it, or nothing when the ORM raises. *)
Variable objects_create : PredictionRow → Table → option (Z * Table).

(** [request.data.get('predictions', [])] as the [for] loop receives it: the
    items, none when the key is missing; nothing when the access or the
    iteration raises. *)
Variable get_predictions : Raw → option (list Raw).

(** [str(x)], [f"{x:.0f}"], [f"{x:,.0f}"] and [f"{x:.1f}"] on a float. *)
Variables str_float format_0f format_grouped_0f format_1f : F → string.

(** The module-level [predictor]. *)
Variable predictor : PropertyPricePredictor F.

(** The [except Exception] clause of [predict]. *)
Definition predict_failed (e : view_exn) (w : world) (s : server Table)
  : Response Errors PredictionBody * server Table :=
  (HTTP_500_INTERNAL_SERVER_ERROR "Prediction failed" (Some e),
   {| ml_log := w;
      views_log := views_log s ++ [ViewLogError "Prediction error" e];
      table := table s |}).

(** [PredictionViewSet.predict]. The arguments of [create] are evaluated
    before the ORM is called. *)
Definition predict (request : HttpRequest Raw) (s : server Table)
  : Response Errors PredictionBody * server Table :=
  (* Validate input *)
  match serializer (data request) with
  | inl errors => (HTTP_400_BAD_REQUEST errors, s)
  | inr validated_data =>
      match
        ((* Prepare data for prediction *)
         property_data ← lift (view_property_data validated_data);
         (* Make prediction *)
         result ← predict_with_confidence predictor property_data;
         (* Get explanation *)
         explanations ← lift (explain_prediction str_float format_0f
                                property_data result);
         (* Save prediction to database *)
         property_type ← lift (py_getitem property_data "property_type");
         location ← lift (py_getitem property_data "location");
         bedrooms ← lift (py_getitem property_data "bedrooms");
         bathrooms ← lift (py_getitem property_data "bathrooms");
         mret (property_data, result, explanations,
               {| row_property_type := property_type;
                  row_location := location;
                  row_bedrooms := bedrooms;
                  row_bathrooms := bathrooms;
                  row_house_size := py_get_none property_data "house_size";
                  row_land_size := py_get_none property_data "land_size";
                  row_predicted_price := predicted_price result;
                  row_confidence_score := confidence_score result;
                  row_price_range_min := price_range_min result;
                  row_price_range_max := price_range_max result;
                  row_ip_address := get_client_ip (META request);
                  row_session_id := session_key request |}))
          (ml_log s)
      with
      | (Raise e, w) => predict_failed (EngineError e) w s
      | (Return (property_data, result, explanations, row), w) =>
          match objects_create row (table s) with
          | None => predict_failed FrameworkError w s
          | Some (id, table') =>
              (* Prepare response *)
              (HTTP_200_OK
                 {| body_prediction_id := id;
                    body_predicted_price := predicted_price result;
                    body_predicted_price_formatted :=
                      "KSh " +:+ format_grouped_0f (predicted_price result);
                    body_confidence_score := confidence_score result;
                    body_confidence_percentage :=
                      format_1f (confidence_score result * of_Z 100) +:+ "%";
                    body_price_range_min := price_range_min result;
                    body_price_range_max := price_range_max result;
                    body_price_range_min_formatted :=
                      "KSh " +:+ format_grouped_0f (price_range_min result);
                    body_price_range_max_formatted :=
                      "KSh " +:+ format_grouped_0f (price_range_max result);
                    body_explanations := explanations;
                    body_model_metrics := model_metrics result;
                    body_input_features := property_data |},
               {| ml_log := w; views_log := views_log s; table := table' |})
          end
      end
  end.

(** The [for] loop of [batch_predict]: an item that is not valid is passed
    over, a valid one is predicted and appended to [results]. *)
Fixpoint batch_loop (predictions_data : list Raw) (results : list BatchResult)
  : M (list BatchResult) :=
  match predictions_data with
  | [] => mret results
  | prop_data :: predictions_data' =>
      match serializer prop_data with
      | inl _ => batch_loop predictions_data' results
      | inr validated_data =>
          property_data ← lift (view_property_data validated_data);
          result ← predict_with_confidence predictor property_data;
          batch_loop predictions_data'
            (results ++ [{| batch_input := property_data;
                            batch_prediction := predicted_price result;
                            batch_confidence := confidence_score result |}])
      end
  end.

(** The [except Exception] clause of [batch_predict]. *)
Definition batch_failed (e : view_exn) (w : world) (s : server Table)
  : Response Errors (list BatchResult) * server Table :=
  (HTTP_500_INTERNAL_SERVER_ERROR "Batch prediction failed" None,
   {| ml_log := w;
      views_log := views_log s ++ [ViewLogError "Batch prediction error" e];
      table := table s |}).

(** [batch_predict] *)
Definition batch_predict (request : HttpRequest Raw) (s : server Table)
  : Response Errors (list BatchResult) * server Table :=
  match get_predictions (data request) with
  | None => batch_failed FrameworkError (ml_log s) s
  | Some predictions_data =>
      match batch_loop predictions_data [] (ml_log s) with
      | (Raise e, w) => batch_failed (EngineError e) w s
      | (Return results, w) =>
          (HTTP_200_OK results,
           {| ml_log := w; views_log := views_log s; table := table s |})
      end
  end.
End Views.
Arguments PredictionRow F : clear implicits.
Arguments PredictionBody F : clear implicits.
Arguments BatchResult F : clear implicits.
Arguments predict_failed {F Errors Table} e w s.
Arguments predict {F _ Raw Errors Table} serializer objects_create
  str_float format_0f format_grouped_0f format_1f predictor request s.
Arguments batch_loop {F _ Raw Errors} serializer predictor
  predictions_data results _.
Arguments batch_failed {F Errors Table} e w s.
Arguments batch_predict {F _ Raw Errors Table} serializer get_predictions
  predictor request s.

(** * Definitions used in the further statements *)

Section FurtherStatements.
Context {F : Type} `{Num F}.
Local Open Scope num_scope.
Implicit Types (self : PropertyPricePredictor F) (pd : dict F).

(** The keys of the record that [prepare_input] turns into a frame: the six
    of its dictionary and the four that [engineer_features] adds. *)
Definition feature_columns : list string :=
  ["propertyType"; "Location"; "Bedroom"; "bathroom"; "House size";
   "Land size"; "bath_bed_ratio"; "total_area"; "location_premium";
   "property_premium"].

(** The artefacts hold what a prediction reads: both medians, the metrics,
    and feature names that are columns of the frame. *)
Definition well_formed self : Prop :=
  (∃ medians, stats_median_values (stats self) = Some medians ∧
              is_Some (medians !! "House size") ∧
              is_Some (medians !! "Land size")) ∧
  is_Some (stats_metrics (stats self)) ∧
  feature_names self ⊆ feature_columns.

(** A number on which Python's arithmetic raises no [OverflowError]: a
    float, or an int that binary64 represents exactly. *)
Definition plain_number (v : pyval F) : Prop :=
  match v with
  | VFloat _ => True
  | VInt n => (- 2 ^ 53 ≤ n ≤ 2 ^ 53)%Z
  | VNone | VStr _ => False
  end.

(** A size of the request: absent, or a plain number. *)
Definition optional_number pd (k : string) : Prop :=
  ∀ v, pd !! k = Some v → plain_number v.

(** A request that [prepare_input] can evaluate: categories of the
    vocabulary, a number of bedrooms that is not zero, a number of
    bathrooms, sizes that are numbers when present. *)
Definition well_typed self pd : Prop :=
  (∃ t, pd !! "property_type" = Some t ∧ in_vocabulary (le_property self) t) ∧
  (∃ l, pd !! "location" = Some l ∧ in_vocabulary (le_location self) l) ∧
  (∃ b, pd !! "bedrooms" = Some b ∧ plain_number b ∧ py_truthy b = true) ∧
  (∃ b, pd !! "bathrooms" = Some b ∧ plain_number b) ∧
  optional_number pd "house_size" ∧
  optional_number pd "land_size".

(** The row that [predict] creates for the request [pd] of the view and
    the result [res]; the request of the view has all its six keys. *)
Definition view_row {Raw : Type} (request : HttpRequest Raw) pd
    (res : PredictionResult F) : PredictionRow F :=
  {| row_property_type := py_get_none pd "property_type";
     row_location := py_get_none pd "location";
     row_bedrooms := py_get_none pd "bedrooms";
     row_bathrooms := py_get_none pd "bathrooms";
     row_house_size := py_get_none pd "house_size";
     row_land_size := py_get_none pd "land_size";
     row_predicted_price := predicted_price res;
     row_confidence_score := confidence_score res;
     row_price_range_min := price_range_min res;
     row_price_range_max := price_range_max res;
     row_ip_address := get_client_ip (META request);
     row_session_id := session_key request |}.

(** The validated items of a batch, in the order of the request. *)
Definition valid_items {Raw Errors : Type} (serializer : Raw → Errors + dict F)
    (items : list Raw) : list (dict F) :=
  omap (λ item, match serializer item with
                | inr validated_data => Some validated_data
                | inl _ => None
                end) items.

(** The entry of the batch results for a validated item: the request of
    the view and the price and confidence of its prediction, made from the
    log [w] and leaving it as it is. *)
Definition batch_entry self (w : world) (validated_data : dict F)
    (r : BatchResult F) : Prop :=
  ∃ res,
    view_property_data validated_data = Return (batch_input r) ∧
    predict_with_confidence self (batch_input r) w = (Return res, w) ∧
    batch_prediction r = predicted_price res ∧
    batch_confidence r = confidence_score res.

End FurtherStatements.



(** No character of [s] is a comma. *)
Fixpoint comma_free (s : string) : bool :=
  match s with
  | EmptyString => true
  | String c s' => negb (Ascii.eqb c comma) && comma_free s'
  end.

(** *** A stub framework

    A serializer that asks for the four required fields only, and a table
    that is the list of its rows, numbered from 1. *)
Definition stub_serializer {F : Type} (d : dict F) : string + dict F :=
  if decide (is_Some (d !! "property_type") ∧ is_Some (d !! "location") ∧
             is_Some (d !! "bedrooms") ∧ is_Some (d !! "bathrooms"))
  then inr d else inl "This field is required.".

Definition stub_create {F : Type} (row : PredictionRow F)
    (t : list (PredictionRow F)) : option (Z * list (PredictionRow F)) :=
  Some (Z.of_nat (S (length t)), t ++ [row]).

(** The same predictor around other statistics, and statistics that lack
    the key ['median_values']. *)
Definition with_stats {F : Type} (st : Stats F)
    (self : PropertyPricePredictor F) : PropertyPricePredictor F :=
  {| models := models self;
     le_property := le_property self;
     le_location := le_location self;
     feature_names := feature_names self;
     stats := st |}.

Definition without_medians {F : Type} (st : Stats F) : Stats F :=
  {| stats_location_premium := stats_location_premium st;
     stats_property_premium := stats_property_premium st;
     stats_median_values := None;
     stats_metrics := stats_metrics st |}.

(** A bank whose models all answer -1.0e6: the mean of the candidates is
    negative. *)
Definition negative_mean_predictor {F : Type} `{Num F}
  : PropertyPricePredictor F :=
  stub_predictor
    (stub_models (of_Z (-1000000)) (of_Z (-1000000)) (of_Z (-1000000))
       [of_Z (-1000000); of_Z (-1000000)]).


(** * Properties *)

(** ** Binary64 literals *)

(** The quotients standing for the decimal literals of the source are the
    binary64 values of those literals. *)
Lemma float_literals :
  dec (F:=float) 5 10 = 0.5%float ∧ dec (F:=float) 3 10 = 0.3%float ∧
  dec (F:=float) 2 10 = 0.2%float ∧ dec (F:=float) 196 100 = 1.96%float.
Proof. vm_compute. by repeat split. Qed.

(** ** Inversion of the outcome monad *)

Lemma bind_Return {A B : Type} (m : outcome A) (k : A → outcome B) (b : B) :
  m ≫= k = Return b → ∃ a, m = Return a ∧ k a = Return b.
Proof. destruct m as [a|e]; [by exists a | done]. Qed.

Lemma py_getitem_Return {V : Type} (d : gmap string V) (k : string) (v : V) :
  py_getitem d k = Return v ↔ d !! k = Some v.
Proof.
  unfold py_getitem. destruct (d !! k); split; intros; by simplify_eq.
Qed.

Lemma py_get_Some {V : Type} (d : gmap string V) (k : string) (v default : V) :
  d !! k = Some v → py_get d k default = v.
Proof. unfold py_get. by intros ->. Qed.

Lemma py_get_None {V : Type} (d : gmap string V) (k : string) (default : V) :
  d !! k = None → py_get d k default = default.
Proof. unfold py_get. by intros ->. Qed.

Lemma for_each_Return_lookup {A B : Type} (f : A → outcome B) (l : list A)
    (ys : list B) (i : nat) (x : A) :
  for_each f l = Return ys → l !! i = Some x →
  ∃ y, ys !! i = Some y ∧ f x = Return y.
Proof.
  revert ys i. induction l as [|a l IH]; intros ys i Hfor Hi; [done|].
  simpl in Hfor.
  apply bind_Return in Hfor as (y & Hy & Hfor).
  apply bind_Return in Hfor as (ys' & Hys' & Hfor).
  simplify_eq. destruct i as [|i]; simplify_eq/=.
  - by exists y.
  - by apply IH.
Qed.

(** Once the frame has passed validation every per-tree call succeeds. *)
Lemma for_each_sk {F : Type} `{Num F} (X : list (pyval F)) (row : list F)
    (trees : list (list F → F)) :
  check_array X = Return row →
  for_each (λ tree, sk tree X) trees = Return ((λ tree, tree row) <$> trees).
Proof.
  intros Hrow. induction trees as [|t trees IH]; [done|].
  cbn [for_each]. rewrite IH. unfold sk. by rewrite Hrow.
Qed.

(** ** The steps of [prepare_input] *)

Section Steps.
Context {F : Type} `{Num F}.
Local Open Scope num_scope.
Implicit Types (self : PropertyPricePredictor F) (pd data : dict F).
Implicit Types (w : world).

Lemma prepare_input_steps self pd :
  prepare_input self pd =
    (data ← lift (map_input self pd);
     data ← lift (engineer_features self data);
     df ← try_except (lift (encode self data)) is_ValueError
            (λ e, _ ← logger_error "Encoding error" e; raise ValueError);
     lift (for_each (py_getitem df) (feature_names self))).
Proof. reflexivity. Qed.

(** [prepare_input] in one case analysis: the log grows only when the
    encoders reject a category. *)
Lemma prepare_input_run self pd w :
  prepare_input self pd w =
    match map_input self pd ≫= engineer_features self with
    | Raise e => (Raise e, w)
    | Return data =>
        match encode self data with
        | Return df => (for_each (py_getitem df) (feature_names self), w)
        | Raise e =>
            if is_ValueError e
            then (Raise ValueError, w ++ [LogError "Encoding error" e])
            else (Raise e, w)
        end
    end.
Proof.
  rewrite prepare_input_steps.
  unfold mbind at 1 2 3, M_bind, lift, try_except.
  destruct (map_input self pd) as [data|e]; [|done].
  cbn [mbind outcome_bind].
  destruct (engineer_features self data) as [data'|e]; [|done].
  destruct (encode self data') as [df|e]; [done|].
  destruct (is_ValueError e); [|done].
  unfold logger_error, raise, lift. done.
Qed.

Lemma engineer_features_Return self data data' :
  engineer_features self data = Return data' →
  ∃ bathroom Bedroom ratio total Location propertyType,
    data !! "bathroom" = Some bathroom ∧
    data !! "Bedroom" = Some Bedroom ∧
    py_truediv bathroom Bedroom = Return ratio ∧
    py_add (py_get data "House size" (VInt 0))
           (py_get data "Land size" (VInt 0)) = Return total ∧
    data !! "Location" = Some Location ∧
    data !! "propertyType" = Some propertyType ∧
    data' =
      <["property_premium" :=
          premium_of (premiums (stats_property_premium (stats self))
                               (le_property self)) propertyType]>
      (<["location_premium" :=
          premium_of (premiums (stats_location_premium (stats self))
                               (le_location self)) Location]>
      (<["total_area" := total]> (<["bath_bed_ratio" := ratio]> data))).
Proof.
  unfold engineer_features. intros Heng.
  apply bind_Return in Heng as (bathroom & Hbath & Heng).
  apply bind_Return in Heng as (Bedroom & Hbed & Heng).
  apply bind_Return in Heng as (ratio & Hratio & Heng).
  apply bind_Return in Heng as (total & Htotal & Heng).
  apply bind_Return in Heng as (Location & Hloc & Heng).
  apply bind_Return in Heng as (propertyType & Hptype & Heng).
  apply py_getitem_Return in Hbath, Hbed, Hloc, Hptype.
  unfold py_get in Htotal.
  rewrite !lookup_insert_ne in Htotal by done.
  rewrite !lookup_insert_ne in Hloc by done.
  rewrite !lookup_insert_ne in Hptype by done.
  exists bathroom, Bedroom, ratio, total, Location, propertyType.
  repeat split; try done. by injection Heng.
Qed.

Lemma median_value_Return self (field : string) (v : pyval F) :
  median_value self field = Return v →
  ∃ medians m, stats_median_values (stats self) = Some medians ∧
               medians !! field = Some m ∧ v = VFloat m.
Proof.
  unfold median_value. destruct (stats_median_values _) as [medians|]; [|done].
  intros (m & Hm%py_getitem_Return & [= <-])%bind_Return. by exists medians, m.
Qed.

Lemma map_input_Return self pd data :
  map_input self pd = Return data →
  ∃ propertyType Location Bedroom bathroom medians mh ml,
    pd !! "property_type" = Some propertyType ∧
    pd !! "location" = Some Location ∧
    pd !! "bedrooms" = Some Bedroom ∧
    pd !! "bathrooms" = Some bathroom ∧
    stats_median_values (stats self) = Some medians ∧
    medians !! "House size" = Some mh ∧
    medians !! "Land size" = Some ml ∧
    data !! "propertyType" = Some propertyType ∧
    data !! "Location" = Some Location ∧
    data !! "Bedroom" = Some Bedroom ∧
    data !! "bathroom" = Some bathroom ∧
    data !! "House size" = Some (py_get pd "house_size" (VFloat mh)) ∧
    data !! "Land size" = Some (py_get pd "land_size" (VFloat ml)).
Proof.
  unfold map_input. intros Hmap.
  apply bind_Return in Hmap as (propertyType & Hptype & Hmap).
  apply bind_Return in Hmap as (Location & Hloc & Hmap).
  apply bind_Return in Hmap as (Bedroom & Hbed & Hmap).
  apply bind_Return in Hmap as (bathroom & Hbath & Hmap).
  apply bind_Return in Hmap as (vh & Hvh & Hmap).
  apply bind_Return in Hmap as (vl & Hvl & Hmap).
  apply py_getitem_Return in Hptype, Hloc, Hbed, Hbath.
  apply median_value_Return in Hvh as (medians & mh & Hmed & Hmh & ->).
  apply median_value_Return in Hvl as (medians' & ml & Hmed' & Hml & ->).
  exists propertyType, Location, Bedroom, bathroom, medians, mh, ml.
  injection Hmap as <-. simplify_eq. repeat split; done.
Qed.
End Steps.

(** ** What a successful prediction returns *)

Section PredictionLemmas.
Context {F : Type} `{Num F}.
Local Open Scope num_scope.
Implicit Types (self : PropertyPricePredictor F) (pd : dict F) (w : world).

Lemma predict_with_confidence_Return self pd w res w' :
  predict_with_confidence self pd w = (Return res, w') →
  ∃ X row,
    prepare_input self pd w = (Return X, w') ∧
    check_array X = Return row ∧
    let rf_pred := rf_predict (rf (models self)) row in
    let gb_pred := gb_predict (models self) row in
    let price :=
      dec 5 10 * rf_pred + dec 3 10 * gb_pred
      + dec 2 10 * ridge_predict (models self)
                     (scaler_transform (models self) row) in
    let predictions := [rf_pred; gb_pred; price] in
    let cv := if of_Z 0 <? np_mean predictions
              then np_std predictions / np_mean predictions else of_Z 1 in
    let margin :=
      dec 196 100
      * np_std ((λ tree, tree row) <$> estimators_ (rf (models self))) in
    predicted_price res = price ∧
    confidence_score res = py_max (of_Z 0) (py_min (of_Z 1) (of_Z 1 - cv)) ∧
    price_range_min res = py_max (of_Z 0) (price - margin) ∧
    price_range_max res = price + margin ∧
    feature_importance res =
      odict_of_pairs (zip (feature_names self)
                          (feature_importances_ (rf (models self)))).
Proof.
  unfold predict_with_confidence, try_except.
  unfold mbind at 1. unfold M_bind.
  destruct (prepare_input self pd w) as [[X|e] w1] eqn:HX; [|done].
  destruct (check_array X) as [row|e] eqn:Hrow.
  - rewrite (for_each_sk _ _ _ Hrow).
    unfold lift, ensemble_predict, sk, stats_metrics_item. rewrite Hrow.
    cbn [mbind outcome_bind mret outcome_ret].
    destruct (stats_metrics (stats self)); [|done].
    intros [= <- <-]. by exists X, row.
  - unfold lift, ensemble_predict, sk. by rewrite Hrow.
Qed.

(** An exception of [prepare_input] is logged once more and raised again. *)
Lemma predict_with_confidence_prepare_Raise self pd w e w1 :
  prepare_input self pd w = (Raise e, w1) →
  predict_with_confidence self pd w
  = (Raise e, w1 ++ [LogError "Prediction error" e]).
Proof.
  intros HX. unfold predict_with_confidence, try_except.
  unfold mbind at 1. unfold M_bind. by rewrite HX.
Qed.
End PredictionLemmas.

(** ** Computations whose outcome does not depend on the log *)

Lemma logs_only_lift {A : Type} (o : outcome A) : logs_only (lift o).
Proof. exists o, []. intros w. by rewrite app_nil_r. Qed.

Lemma logs_only_logger_error (prefix : string) (e : exn) :
  logs_only (logger_error prefix e).
Proof. by exists (Return ()), [LogError prefix e]. Qed.

Lemma logs_only_bind {A B : Type} (m : M A) (k : A → M B) :
  logs_only m → (∀ a, logs_only (k a)) → logs_only (m ≫= k).
Proof.
  intros (o & l & Hm) Hk. destruct o as [a|e].
  - destruct (Hk a) as (o' & l' & Hka). exists o', (l ++ l').
    intros w. unfold mbind, M_bind. by rewrite Hm, Hka, app_assoc.
  - exists (Raise e), l. intros w. unfold mbind, M_bind. by rewrite Hm.
Qed.

Lemma logs_only_try_except {A : Type} (body : M A) (catches : exn → bool)
    (handler : exn → M A) :
  logs_only body → (∀ e, logs_only (handler e)) →
  logs_only (try_except body catches handler).
Proof.
  intros (o & l & Hbody) Hhandler. destruct o as [a|e].
  - exists (Return a), l. intros w. unfold try_except. by rewrite Hbody.
  - destruct (catches e) eqn:Hcatch.
    + destruct (Hhandler e) as (o' & l' & He). exists o', (l ++ l').
      intros w. unfold try_except. by rewrite Hbody, Hcatch, He, app_assoc.
    + exists (Raise e), l. intros w. unfold try_except.
      by rewrite Hbody, Hcatch.
Qed.

Create HintDb logs_only.
#[export] Hint Resolve logs_only_lift logs_only_logger_error : logs_only.

Lemma prepare_input_logs_only {F : Type} `{Num F}
    (self : PropertyPricePredictor F) (pd : dict F) :
  logs_only (prepare_input self pd).
Proof.
  unfold prepare_input.
  repeat first
    [ apply logs_only_bind | apply logs_only_try_except | intros ? ];
    unfold raise; auto with logs_only.
Qed.

Lemma predict_with_confidence_logs_only {F : Type} `{Num F}
    (self : PropertyPricePredictor F) (pd : dict F) :
  logs_only (predict_with_confidence self pd).
Proof.
  unfold predict_with_confidence.
  apply logs_only_try_except.
  - apply logs_only_bind; [apply prepare_input_logs_only|].
    intros X. apply logs_only_lift.
  - intros e. apply logs_only_bind; [apply logs_only_logger_error|].
    intros _. apply logs_only_lift.
Qed.

(** ** The weighted ensemble *)

(** C1 (as amended). For every frame [X] that passes validation as the row
    [row], [ensemble_predict] returns
    [0.5 * rf(row) + 0.3 * gb(row) + 0.2 * ridge(scaler(row))]: the forest
    and the boosted model read the raw row and only the linear model reads
    the scaled one. In binary64, whenever the three models answer 2.0e7,
    2.1e7 and 1.9e7, the predicted price of a successful prediction is
    exactly 2.01e7 (not 1.99e7). *)
Theorem ensemble_predict_weighted :
  (∀ (F : Type) (N : Num F) (self : PropertyPricePredictor F)
     (X : list (pyval F)) (row : list F),
     check_array X = Return row →
     ensemble_predict self X
     = Return (dec 5 10 * rf_predict (rf (models self)) row
               + dec 3 10 * gb_predict (models self) row
               + dec 2 10 * ridge_predict (models self)
                              (scaler_transform (models self) row))%num) ∧
  (∀ (self : PropertyPricePredictor float) (pd : dict float) (w w' : world)
     (res : PredictionResult float),
     (∀ row, rf_predict (rf (models self)) row = 2.0e7%float) →
     (∀ row, gb_predict (models self) row = 2.1e7%float) →
     (∀ row, ridge_predict (models self) row = 1.9e7%float) →
     predict_with_confidence self pd w = (Return res, w') →
     predicted_price res = 2.01e7%float).
Proof.
  split.
  - intros F N self X row Hrow. unfold ensemble_predict, sk.
    by rewrite Hrow.
  - intros self pd w w' res Hrf Hgb Hridge Hres.
    apply predict_with_confidence_Return in Hres
      as (X & row & _ & _ & -> & _).
    rewrite Hrf, Hgb, Hridge. by vm_compute.
Qed.

Lemma ensemble_predict_weighted_witness :
  ensemble_predict (F:=float) scenario_predictor
    [VInt 0; VInt 4; VInt 3; VInt 2; VFloat 150%float; VFloat 0%float]
  = Return 2.01e7%float ∧
  ∃ res w',
    predict_with_confidence (F:=float) scenario_predictor kilimani_apartment []
    = (Return res, w') ∧ predicted_price res = 2.01e7%float.
Proof.
  split.
  - assert (check_array (F:=float)
              [VInt 0; VInt 4; VInt 3; VInt 2; VFloat 150%float; VFloat 0%float]
            = Return [0; 4; 3; 2; 150; 0]%float) as Hrow by by vm_compute.
    rewrite (proj1 ensemble_predict_weighted float _ scenario_predictor _ _ Hrow).
    by vm_compute.
  - eexists _, _. split; [by vm_compute|].
    eapply (proj2 ensemble_predict_weighted scenario_predictor
              kilimani_apartment [] []); first [done | by vm_compute].
Defined.

(** The specification's scenario evaluates to 2.01e7: the sum
    [0.5*2.0e7 + 0.3*2.1e7 + 0.2*1.9e7] is 1.0e7 + 6.3e6 + 3.8e6, in
    binary64 as in exact arithmetic. *)
Lemma scenario_price_is_not_1_99e7 :
  (∃ res w',
     predict_with_confidence (F:=float) scenario_predictor kilimani_apartment []
     = (Return res, w') ∧
     predicted_price res = 2.01e7%float ∧
     predicted_price res ≠ 1.99e7%float) ∧
  ensemble_predict (F:=R) scenario_predictor
    [VInt 0; VInt 4; VInt 3; VInt 2; VFloat 150%R; VFloat 0%R]
  = Return 20100000%R ∧ 20100000%R ≠ 19900000%R.
Proof.
  split; [|split].
  - eexists _, _. split; [by vm_compute|]. split; [done|].
    cbn [predicted_price]. intros Heq.
    apply (f_equal (λ x, PrimFloat.eqb x 1.99e7)) in Heq.
    by vm_compute in Heq.
  - unfold ensemble_predict, sk, check_array. cbn. f_equal. lra.
  - lra.
Qed.

(** ** The statistics of the specification, over the reals *)

Section RealStatistics.
Local Open Scope R_scope.

Lemma foldl_Rplus (x : R) (l : list R) : foldl Rplus x l = x + foldr Rplus 0 l.
Proof.
  revert x. induction l as [|y l IH]; intros x; simpl; [lra|].
  rewrite IH. lra.
Qed.

Lemma np_sum_R (l : list R) : np_sum l = foldr Rplus 0 l.
Proof. destruct l as [|x l]; [done|]. simpl. apply foldl_Rplus. Qed.

Lemma np_mean_R (l : list R) : np_mean l = mean l.
Proof. unfold np_mean, mean. by rewrite np_sum_R, <- INR_IZR_INZ. Qed.

Lemma np_std_R (l : list R) : np_std l = population_std l.
Proof.
  unfold np_std, population_std. cbn [fsqrt R_Num]. f_equal.
  rewrite <- list_fmap_compose, np_mean_R, np_sum_R.
  unfold mean at 2. by rewrite length_fmap, <- INR_IZR_INZ.
Qed.

Lemma py_max_R (a b : R) : py_max a b = Rmax a b.
Proof.
  unfold py_max, Rmax. cbn [fltb R_Num].
  destruct (Rlt_dec a b), (Rle_dec a b); lra.
Qed.

Lemma py_min_R (a b : R) : py_min a b = Rmin a b.
Proof.
  unfold py_min, Rmin. cbn [fltb R_Num].
  destruct (Rlt_dec b a), (Rle_dec a b); lra.
Qed.

Lemma clamp_range (x : R) : 0 <= clamp x 0 1 <= 1.
Proof.
  unfold clamp. split; [apply Rmax_l|].
  apply Rmax_lub; [lra | apply Rmin_l].
Qed.

Lemma population_std_nonneg (l : list R) : 0 <= population_std l.
Proof. apply sqrt_pos. Qed.
End RealStatistics.

(** ** Confidence and interval *)

(** C2. Over the reals, the confidence score of every returned prediction
    is [clamp(1 - cv, 0, 1)], where [cv] is the coefficient of variation
    (population standard deviation over mean, 1 when the mean is not
    positive) of the three candidates: the forest's prediction, the boosted
    model's prediction and the final ensemble price. It lies in [0,1]. *)
Theorem confidence_score_clamped (self : PropertyPricePredictor R)
    (pd : dict R) (w w' : world) (res : PredictionResult R) :
  predict_with_confidence self pd w = (Return res, w') →
  ∃ X row,
    prepare_input self pd w = (Return X, w') ∧
    check_array X = Return row ∧
    let candidates :=
      [rf_predict (rf (models self)) row;
       gb_predict (models self) row;
       predicted_price res] in
    confidence_score res
    = clamp (1 - coefficient_of_variation candidates) 0 1 ∧
    (0 <= confidence_score res <= 1)%R.
Proof.
  intros Hres.
  apply predict_with_confidence_Return in Hres
    as (X & row & HX & Hrow & Hprice & Hconf & _).
  exists X, row. split; [done|]. split; [done|].
  cbn zeta in *. rewrite <- Hprice in Hconf.
  assert (confidence_score res
          = clamp (1 - coefficient_of_variation
                         [rf_predict (rf (models self)) row;
                          gb_predict (models self) row;
                          predicted_price res]) 0 1) as ->.
  { rewrite Hconf, py_max_R, py_min_R, np_mean_R, np_std_R.
    unfold clamp, coefficient_of_variation. cbn [fltb fdiv fsub of_Z R_Num].
    do 3 f_equal.
    destruct (Rlt_dec 0 _), (Rle_dec _ 0); try done; lra. }
  split; [done | apply clamp_range].
Qed.

Lemma confidence_score_clamped_witness :
  ∃ res w',
    predict_with_confidence (F:=R) scenario_predictor kilimani_apartment []
    = (Return res, w') ∧
    (0 <= confidence_score res <= 1)%R.
Proof.
  eexists _, _. split; [reflexivity|].
  edestruct (confidence_score_clamped scenario_predictor kilimani_apartment [])
    as (X & row & _ & _ & _ & Hrange); [reflexivity|].
  exact Hrange.
Defined.

(** C3 (as amended). Over the reals, every returned prediction has
    [price_range_min = max(0, predicted_price - margin)] and
    [price_range_max = predicted_price + margin], where [margin] is 1.96
    times the population standard deviation of the predictions of all the
    trees of the forest on this row. [predicted_price <= price_range_max]
    always holds, and [price_range_min <= predicted_price] holds when the
    predicted price is not negative. *)
Theorem price_range_interval (self : PropertyPricePredictor R)
    (pd : dict R) (w w' : world) (res : PredictionResult R) :
  predict_with_confidence self pd w = (Return res, w') →
  ∃ X row,
    prepare_input self pd w = (Return X, w') ∧
    check_array X = Return row ∧
    let tree_predictions :=
      (λ tree, tree row) <$> estimators_ (rf (models self)) in
    let margin := (1.96 * population_std tree_predictions)%R in
    price_range_min res = Rmax 0 (predicted_price res - margin) ∧
    price_range_max res = (predicted_price res + margin)%R ∧
    (predicted_price res <= price_range_max res)%R ∧
    (0 <= predicted_price res → price_range_min res <= predicted_price res)%R.
Proof.
  intros Hres.
  apply predict_with_confidence_Return in Hres
    as (X & row & HX & Hrow & Hprice & _ & Hmin & Hmax & _).
  exists X, row. split; [done|]. split; [done|].
  cbn zeta in *. rewrite <- Hprice in Hmin, Hmax.
  rewrite py_max_R, np_std_R in Hmin. rewrite np_std_R in Hmax.
  unfold dec in Hmin, Hmax. cbn [fmul fadd fsub fdiv of_Z R_Num] in Hmin, Hmax.
  set (sd := population_std _) in *.
  assert (0 <= sd)%R as Hsd by apply population_std_nonneg.
  replace (196 / 100)%R with 1.96%R in Hmin, Hmax by lra.
  rewrite Hmin, Hmax. repeat split; [lra|].
  intros Hpos. apply Rmax_lub; lra.
Qed.

Lemma price_range_interval_witness :
  ∃ res w',
    predict_with_confidence (F:=R) scenario_predictor kilimani_apartment []
    = (Return res, w') ∧
    (predicted_price res <= price_range_max res)%R.
Proof.
  eexists _, _. split; [reflexivity|].
  edestruct (price_range_interval scenario_predictor kilimani_apartment [])
    as (X & row & _ & _ & _ & _ & Hle & _); [reflexivity|].
  exact Hle.
Defined.

Lemma price_below_price_range_min :
  (∃ res w',
     predict_with_confidence (F:=float) negative_predictor kilimani_apartment []
     = (Return res, w') ∧
     predicted_price res = (-1200000)%float ∧
     price_range_min res = 0%float ∧
     PrimFloat.ltb (predicted_price res) (price_range_min res) = true) ∧
  (∃ res w',
     predict_with_confidence (F:=R) negative_predictor kilimani_apartment []
     = (Return res, w') ∧
     predicted_price res = (-1200000)%R ∧
     price_range_min res = 0%R ∧
     (predicted_price res < price_range_min res)%R).
Proof.
  split.
  - eexists _, _. split; [by vm_compute|]. by vm_compute.
  - eexists _, _. split; [reflexivity|].
    cbn [predicted_price price_range_min rf_predict gb_predict ridge_predict
         rf models negative_predictor stub_predictor stub_models].
    rewrite py_max_R, np_std_R.
    pose proof (population_std_nonneg
                  [of_Z (F:=R) 1000000; of_Z (F:=R) 1000000]) as Hsd.
    unfold dec. cbn [fmul fadd fsub fdiv of_Z R_Num] in *.
    rewrite Rmax_left by lra. repeat split; lra.
Qed.

(** ** The prepared frame *)

Section Frame.
Context {F : Type} `{Num F}.
Local Open Scope num_scope.
Implicit Types (self : PropertyPricePredictor F) (pd data : dict F).
Implicit Types (w : world) (X : list (pyval F)).

Lemma transform_unseen (le : LabelEncoder) (v : pyval F) :
  ¬ in_vocabulary le v → transform le v = Raise ValueError.
Proof.
  intros Hv. destruct v as [| |x|s]; try done. unfold transform.
  destruct (list_find _ _) as [[i c]|] eqn:Hfind; [|done].
  apply list_find_Some in Hfind as (Hi & -> & _).
  destruct Hv. exists s. split; [done|]. by eapply list_elem_of_lookup_2.
Qed.

Lemma transform_Raise (le : LabelEncoder) (v : pyval F) (e : exn) :
  transform le v = Raise e → e = ValueError.
Proof.
  destruct v as [| |x|s]; simpl; try by intros [= <-].
  destruct (list_find _ _) as [[i c]|]; [done | by intros [= <-]].
Qed.

Lemma engineered_inv self pd data' :
  engineered self pd data' →
  ∃ data, map_input self pd = Return data ∧
          engineer_features self data = Return data'.
Proof. apply bind_Return. Qed.

(** Feature engineering adds four keys and changes no other. *)
Lemma engineer_features_lookup self data data' (k : string) :
  engineer_features self data = Return data' →
  k ≠ "bath_bed_ratio" → k ≠ "total_area" → k ≠ "location_premium" →
  k ≠ "property_premium" →
  data' !! k = data !! k.
Proof.
  intros (? & ? & ? & ? & ? & ? & _ & _ & _ & _ & _ & _ & ->)
    %engineer_features_Return ? ? ? ?.
  by rewrite !lookup_insert_ne.
Qed.

Lemma engineered_sizes self pd data' :
  engineered self pd data' →
  ∃ medians mh ml total,
    stats_median_values (stats self) = Some medians ∧
    medians !! "House size" = Some mh ∧
    medians !! "Land size" = Some ml ∧
    data' !! "House size" = Some (py_get pd "house_size" (VFloat mh)) ∧
    data' !! "Land size" = Some (py_get pd "land_size" (VFloat ml)) ∧
    py_add (py_get pd "house_size" (VFloat mh))
           (py_get pd "land_size" (VFloat ml)) = Return total ∧
    data' !! "total_area" = Some total.
Proof.
  intros (data & Hmap & Heng)%engineered_inv.
  apply map_input_Return in Hmap
    as (? & ? & ? & ? & medians & mh & ml & _ & _ & _ & _ & Hmed & Hmh & Hml
        & _ & _ & _ & _ & Hhouse & Hland).
  pose proof (engineer_features_lookup _ _ _ "House size" Heng) as Hh.
  pose proof (engineer_features_lookup _ _ _ "Land size" Heng) as Hl.
  apply engineer_features_Return in Heng
    as (? & ? & ? & total & ? & ? & _ & _ & _ & Htotal & _ & _ & ->).
  rewrite (py_get_Some _ _ _ _ Hhouse), (py_get_Some _ _ _ _ Hland) in Htotal.
  exists medians, mh, ml, total.
  rewrite Hh, Hl by done. repeat split; try done.
  rewrite !lookup_insert_ne by done. apply lookup_insert_eq.
Qed.

Lemma encode_Return self data df :
  encode self data = Return df →
  ∃ c1 c2, df = <["Location" := c2]> (<["propertyType" := c1]> data).
Proof.
  unfold encode. intros Henc.
  apply bind_Return in Henc as (? & _ & Henc).
  apply bind_Return in Henc as (c1 & _ & Henc).
  apply bind_Return in Henc as (? & _ & Henc).
  apply bind_Return in Henc as (c2 & _ & Henc).
  exists c1, c2. by injection Henc.
Qed.

(** A successful [prepare_input] writes nothing to the log, and its frame
    holds the engineered record under every name but those of the two
    encoded columns. *)
Lemma prepare_input_Return self pd w X w' :
  prepare_input self pd w = (Return X, w') →
  w' = w ∧
  ∃ data, engineered self pd data ∧
    ∀ (name : string) (v : pyval F),
      name ≠ "propertyType" → name ≠ "Location" →
      data !! name = Some v → column (feature_names self) X name v.
Proof.
  rewrite prepare_input_run. unfold engineered.
  destruct (map_input self pd ≫= engineer_features self) as [data|e]; [|done].
  destruct (encode self data) as [df|e] eqn:Henc;
    [|by destruct (is_ValueError e)].
  intros [= HX <-]. split; [done|]. exists data. split; [done|].
  intros name v Hn1 Hn2 Hv i Hi.
  destruct (for_each_Return_lookup _ _ _ _ _ HX Hi) as (y & -> & Hy).
  apply py_getitem_Return in Hy.
  apply encode_Return in Henc as (c1 & c2 & ->).
  rewrite !lookup_insert_ne in Hy by done. congruence.
Qed.
End Frame.

(** ** Median substitution and the total area *)

(** C6. In the frame of a successful [prepare_input], when exactly one of
    [house_size] and [land_size] is missing from the request, the column of
    the missing size holds the stored training median of that field and the
    column of the other size holds the value of the request. *)
Theorem median_only_for_missing_size {F : Type} `{Num F}
    (self : PropertyPricePredictor F) (pd : dict F) (w w' : world)
    (X : list (pyval F)) :
  prepare_input self pd w = (Return X, w') →
  ∃ medians mh ml,
    stats_median_values (stats self) = Some medians ∧
    medians !! "House size" = Some mh ∧
    medians !! "Land size" = Some ml ∧
    (∀ land, pd !! "house_size" = None → pd !! "land_size" = Some land →
       column (feature_names self) X "House size" (VFloat mh) ∧
       column (feature_names self) X "Land size" land) ∧
    (∀ house, pd !! "house_size" = Some house → pd !! "land_size" = None →
       column (feature_names self) X "House size" house ∧
       column (feature_names self) X "Land size" (VFloat ml)).
Proof.
  intros (_ & data & Hdata & Hcol)%prepare_input_Return.
  destruct (engineered_sizes _ _ _ Hdata)
    as (medians & mh & ml & _ & Hmed & Hmh & Hml & Hhouse & Hland & _).
  exists medians, mh, ml. do 3 (split; [done|]). split.
  - intros land Hno Hgiven. split; apply Hcol; try done.
    + by rewrite Hhouse, (py_get_None _ _ _ Hno).
    + by rewrite Hland, (py_get_Some _ _ _ _ Hgiven).
  - intros house Hgiven Hno. split; apply Hcol; try done.
    + by rewrite Hhouse, (py_get_Some _ _ _ _ Hgiven).
    + by rewrite Hland, (py_get_None _ _ _ Hno).
Qed.

Lemma median_only_for_missing_size_witness :
  ∃ X,
    prepare_input (F:=float) scenario_predictor
      (request "Apartment" "Kilimani" 3 2 None (Some 80%float)) []
    = (Return X, []) ∧
    X !! 4%nat = Some (VFloat 150%float) ∧
    X !! 5%nat = Some (VFloat 80%float).
Proof.
  eexists. split; [reflexivity|].
  edestruct (median_only_for_missing_size (F:=float) scenario_predictor
               (request "Apartment" "Kilimani" 3 2 None (Some 80%float)) [] [])
    as (medians & mh & ml & Hmed & Hmh & Hml & Hhouse & _);
    [reflexivity|].
  destruct (Hhouse (VFloat 80%float)) as [Hh Hl]; [reflexivity..|].
  injection Hmed as <-. vm_compute in Hmh. injection Hmh as <-.
  split; [by apply Hh | by apply Hl].
Defined.

(** C7 (as amended). In the frame of a successful [prepare_input], the
    column [total_area] holds the sum of the two sizes as the engineered
    record has them: the value of the request, or the training median of the
    field when the request has no such key. *)
Theorem total_area_after_substitution {F : Type} `{Num F}
    (self : PropertyPricePredictor F) (pd : dict F) (w w' : world)
    (X : list (pyval F)) :
  prepare_input self pd w = (Return X, w') →
  ∃ medians mh ml total,
    stats_median_values (stats self) = Some medians ∧
    medians !! "House size" = Some mh ∧
    medians !! "Land size" = Some ml ∧
    py_add (py_get pd "house_size" (VFloat mh))
           (py_get pd "land_size" (VFloat ml)) = Return total ∧
    column (feature_names self) X "total_area" total.
Proof.
  intros (_ & data & Hdata & Hcol)%prepare_input_Return.
  destruct (engineered_sizes _ _ _ Hdata)
    as (medians & mh & ml & total & Hmed & Hmh & Hml & _ & _ & Hadd & Htotal).
  exists medians, mh, ml, total. repeat split; try done. by apply Hcol.
Qed.

Lemma total_area_after_substitution_witness :
  ∃ X total,
    prepare_input (F:=float) scenario_predictor
      (request "Apartment" "Kilimani" 3 2 None (Some 100%float)) []
    = (Return X, []) ∧
    py_add (VFloat 150%float) (VFloat 100%float) = Return total ∧
    X !! 7%nat = Some total.
Proof.
  eexists.
  edestruct (total_area_after_substitution (F:=float) scenario_predictor
               (request "Apartment" "Kilimani" 3 2 None (Some 100%float)) [] [])
    as (medians & mh & ml & total & Hmed & Hmh & Hml & Hadd & Hcol);
    [reflexivity|].
  exists total. split; [done|].
  injection Hmed as <-. vm_compute in Hmh, Hml.
  injection Hmh as <-. injection Hml as <-.
  split; [exact Hadd | by apply Hcol].
Defined.

(** With no [house_size], a land of 100 and a median house size of 150 the
    frame's [total_area] is 250, where the specification's sum (a missing
    size counting as 0) is 100. *)
Lemma total_area_counts_the_median :
  ∃ X,
    prepare_input (F:=float) scenario_predictor
      (request "Apartment" "Kilimani" 3 2 None (Some 100%float)) []
    = (Return X, []) ∧
    feature_names (F:=float) scenario_predictor !! 7%nat = Some "total_area" ∧
    X !! 7%nat = Some (VFloat 250%float) ∧
    spec_total_area (F:=float)
      (request "Apartment" "Kilimani" 3 2 None (Some 100%float))
    = Return (VFloat 100%float) ∧
    PrimFloat.eqb 250 100 = false.
Proof. eexists. split; [reflexivity|]. by vm_compute. Qed.

(** ** Rejected requests *)

Section Rejections.
Context {F : Type} `{Num F}.
Local Open Scope num_scope.
Implicit Types (self : PropertyPricePredictor F) (pd data : dict F).
Implicit Types (w : world).

Lemma engineered_categories self pd data :
  engineered self pd data →
  ∃ propertyType Location,
    pd !! "property_type" = Some propertyType ∧
    pd !! "location" = Some Location ∧
    data !! "propertyType" = Some propertyType ∧
    data !! "Location" = Some Location.
Proof.
  intros (data0 & Hmap & Heng)%engineered_inv.
  pose proof (engineer_features_lookup _ _ _ "propertyType" Heng) as Hp.
  pose proof (engineer_features_lookup _ _ _ "Location" Heng) as Hl.
  apply map_input_Return in Hmap
    as (propertyType & Location & ? & ? & ? & ? & ? & Hpt & Hloc & _ & _ & _
        & _ & _ & Hpt' & Hloc' & _).
  exists propertyType, Location. rewrite Hp, Hl by done. done.
Qed.

Lemma encode_unseen self data (propertyType Location : pyval F) :
  data !! "propertyType" = Some propertyType →
  data !! "Location" = Some Location →
  ¬ in_vocabulary (le_property self) propertyType
  ∨ ¬ in_vocabulary (le_location self) Location →
  encode self data = Raise ValueError.
Proof.
  intros Hpt%py_getitem_Return Hloc%py_getitem_Return Hunseen.
  unfold encode. rewrite Hpt. cbn [mbind outcome_bind].
  destruct (transform (le_property self) propertyType) as [c1|e] eqn:Hc1.
  - cbn [mbind outcome_bind]. rewrite Hloc. cbn [mbind outcome_bind].
    destruct Hunseen as [Hunseen|Hunseen].
    + by rewrite (transform_unseen _ _ Hunseen) in Hc1.
    + by rewrite (transform_unseen _ _ Hunseen).
  - by rewrite (transform_Raise _ _ _ Hc1).
Qed.

Lemma py_add_None (a b : pyval F) :
  a = VNone ∨ b = VNone → py_add a b = Raise TypeError.
Proof. intros [-> | ->]; [done | by destruct a]. Qed.

Lemma py_truediv_zero (a : pyval F) :
  is_number a = true → py_truediv a (VInt 0) = Raise ZeroDivisionError.
Proof. by destruct a. Qed.
End Rejections.

(** C4 (as amended). For a request that passes feature engineering and
    whose property type or location is no label of the trained vocabulary,
    [prepare_input] logs an encoding error and raises [ValueError] (Python's
    built-in class: the engine defines no error class of its own), and
    [predict_with_confidence] logs it again and raises it whatever the
    models of the bank are: no model is consulted. *)
Theorem unknown_category_raises_ValueError {F : Type} `{Num F}
    (self : PropertyPricePredictor F) (pd data : dict F) (w : world)
    (property_type location : pyval F) :
  engineered self pd data →
  pd !! "property_type" = Some property_type →
  pd !! "location" = Some location →
  ¬ in_vocabulary (le_property self) property_type
  ∨ ¬ in_vocabulary (le_location self) location →
  prepare_input self pd w
  = (Raise ValueError, w ++ [LogError "Encoding error" ValueError]) ∧
  ∀ m : Models F,
    predict_with_confidence (with_models m self) pd w
    = (Raise ValueError,
       w ++ [LogError "Encoding error" ValueError;
             LogError "Prediction error" ValueError]).
Proof.
  intros Hdata Hpt Hloc Hunseen.
  assert (∀ self', map_input self' pd ≫= engineer_features self' = Return data →
            le_property self' = le_property self →
            le_location self' = le_location self →
            prepare_input self' pd w
            = (Raise ValueError, w ++ [LogError "Encoding error" ValueError]))
    as Hprep.
  { intros self' Hdata' Hlp Hll. rewrite prepare_input_run, Hdata'.
    destruct (engineered_categories self' pd data Hdata')
      as (pt & loc & Hpt' & Hloc' & Hdpt & Hdloc).
    rewrite (encode_unseen self' data pt loc); [done..|].
    rewrite Hlp, Hll. by simplify_eq. }
  split; [by apply Hprep|].
  intros m.
  rewrite (predict_with_confidence_prepare_Raise _ _ _ _ _
             (Hprep (with_models m self) Hdata eq_refl eq_refl)).
  by rewrite <- app_assoc.
Qed.

Lemma unknown_category_raises_ValueError_witness :
  predict_with_confidence (F:=float)
    (with_models (stub_models 1%float 2%float 3%float []) scenario_predictor)
    (request "Apartment" "Atlantis" 3 2 (Some 150%float) None) []
  = (Raise ValueError,
     [LogError "Encoding error" ValueError;
      LogError "Prediction error" ValueError]).
Proof.
  eapply (λ H1 H2 H3 H4,
            proj2 (unknown_category_raises_ValueError (F:=float)
                     scenario_predictor
                     (request "Apartment" "Atlantis" 3 2 (Some 150%float) None)
                     _ [] (VStr "Apartment") (VStr "Atlantis") H1 H2 H3 H4)
                  (stub_models 1%float 2%float 3%float [])).
  - unfold engineered. reflexivity.
  - reflexivity.
  - reflexivity.
  - right. intros (s & [= <-] & Hs).
    by apply (bool_decide_pack _) in Hs.
Defined.

(** A location outside the vocabulary raises the built-in [ValueError]. *)
Lemma unknown_category_is_no_dedicated_error :
  predict_with_confidence (F:=float) scenario_predictor
    (request "Apartment" "Atlantis" 3 2 (Some 150%float) None) []
  = (Raise ValueError,
     [LogError "Encoding error" ValueError;
      LogError "Prediction error" ValueError]) ∧
  class_name ValueError ≠ "UnknownCategoryError".
Proof. split; [reflexivity | done]. Qed.

(** C5 (as amended). When a record with [Bedroom = 0] and a numeric
    [bathroom] reaches [engineer_features], the division for
    [bath_bed_ratio] raises Python's built-in [ZeroDivisionError] (the
    engine defines no error class of its own); [prepare_input] then returns
    no frame, so that no value of any kind reaches the feature vector, and
    [predict_with_confidence] logs the exception and raises it. *)
Theorem zero_bedrooms_raises_ZeroDivisionError {F : Type} `{Num F}
    (self : PropertyPricePredictor F) (data : dict F) (bathroom : pyval F) :
  data !! "Bedroom" = Some (VInt 0) →
  data !! "bathroom" = Some bathroom →
  is_number bathroom = true →
  engineer_features self data = Raise ZeroDivisionError ∧
  ∀ (pd : dict F) (w : world),
    map_input self pd = Return data →
    prepare_input self pd w = (Raise ZeroDivisionError, w) ∧
    predict_with_confidence self pd w
    = (Raise ZeroDivisionError,
       w ++ [LogError "Prediction error" ZeroDivisionError]).
Proof.
  intros Hbed%py_getitem_Return Hbath%py_getitem_Return Hnum.
  assert (engineer_features self data = Raise ZeroDivisionError) as Heng.
  { unfold engineer_features. rewrite Hbath, Hbed.
    cbn [mbind outcome_bind]. by rewrite py_truediv_zero. }
  split; [done|]. intros pd w Hmap.
  assert (prepare_input self pd w = (Raise ZeroDivisionError, w)) as Hprep.
  { rewrite prepare_input_run, Hmap. cbn [mbind outcome_bind].
    by rewrite Heng. }
  split; [done|]. by apply predict_with_confidence_prepare_Raise.
Qed.

Lemma zero_bedrooms_raises_ZeroDivisionError_witness :
  predict_with_confidence (F:=float) scenario_predictor
    (request "Apartment" "Kilimani" 0 2 (Some 150%float) (Some 0%float)) []
  = (Raise ZeroDivisionError, [LogError "Prediction error" ZeroDivisionError]).
Proof.
  pose (data := list_to_map [
          ("propertyType", VStr "Apartment"); ("Location", VStr "Kilimani");
          ("Bedroom", VInt 0); ("bathroom", VInt 2);
          ("House size", VFloat 150%float); ("Land size", VFloat 0%float) ]
        : dict float).
  refine (proj2 (proj2 (zero_bedrooms_raises_ZeroDivisionError (F:=float)
                          scenario_predictor data (VInt 2) _ _ _)
                       _ [] _));
    reflexivity.
Defined.

(** A request with no bedroom raises the built-in [ZeroDivisionError]. *)
Lemma zero_bedrooms_is_no_DomainError :
  predict_with_confidence (F:=float) scenario_predictor
    (request "Apartment" "Kilimani" 0 2 (Some 150%float) (Some 0%float)) []
  = (Raise ZeroDivisionError, [LogError "Prediction error" ZeroDivisionError])
  ∧ class_name ZeroDivisionError ≠ "DomainError".
Proof. split; [reflexivity | done]. Qed.

(** C10. When the validated data of the HTTP view lack [house_size] or
    [land_size], or hold [None] for it, the request the view builds has the
    key with the value [None]; [prepare_input] then puts that [None], not
    the training median, into the record, feature engineering raises, and
    [predict_with_confidence] returns no result: it logs the exception and
    raises it. The exception is [TypeError], from the sum for [total_area],
    whenever the ratio of the room counts can be computed. *)
Theorem null_size_raises {F : Type} `{Num F}
    (self : PropertyPricePredictor F) (validated_data pd : dict F)
    (w : world) :
  view_property_data validated_data = Return pd →
  py_get_none validated_data "house_size" = VNone
  ∨ py_get_none validated_data "land_size" = VNone →
  ∃ e : exn,
    predict_with_confidence self pd w
    = (Raise e, w ++ [LogError "Prediction error" e]) ∧
    ∀ data : dict F,
      map_input self pd = Return data →
      data !! "House size" = Some (py_get_none validated_data "house_size") ∧
      data !! "Land size" = Some (py_get_none validated_data "land_size") ∧
      engineer_features self data = Raise e ∧
      ∀ bathrooms bedrooms ratio,
        validated_data !! "bathrooms" = Some bathrooms →
        validated_data !! "bedrooms" = Some bedrooms →
        py_truediv bathrooms bedrooms = Return ratio →
        e = TypeError.
Proof.
  intros Hview Hnone. unfold view_property_data in Hview.
  apply bind_Return in Hview as (property_type & Hpt & Hview).
  apply bind_Return in Hview as (location & Hloc & Hview).
  apply bind_Return in Hview as (bedrooms & Hbed & Hview).
  apply bind_Return in Hview as (bathrooms & Hbath & Hview).
  apply py_getitem_Return in Hbed, Hbath.
  injection Hview as Hpd.
  assert (pd !! "house_size"
          = Some (py_get_none validated_data "house_size")) as Hh
    by by rewrite <- Hpd.
  assert (pd !! "land_size"
          = Some (py_get_none validated_data "land_size")) as Hl
    by by rewrite <- Hpd.
  assert (pd !! "bedrooms" = Some bedrooms) as Hpbed by by rewrite <- Hpd.
  assert (pd !! "bathrooms" = Some bathrooms) as Hpbath by by rewrite <- Hpd.
  clear Hpd.
  destruct (map_input self pd) as [data|e] eqn:Hmap.
  - pose proof Hmap as Hmap'. apply map_input_Return in Hmap'
      as (? & ? & bed & bath & ? & mh & ml & _ & _ & Hbed' & Hbath' & _ & _ & _
          & _ & _ & Hdbed & Hdbath & Hdh & Hdl).
    rewrite (py_get_Some _ _ _ _ Hh) in Hdh.
    rewrite (py_get_Some _ _ _ _ Hl) in Hdl.
    simplify_eq.
    assert (∃ e, engineer_features self data = Raise e ∧
                 ∀ ratio, py_truediv bathrooms bedrooms = Return ratio →
                          e = TypeError) as (e & Heng & He).
    { unfold engineer_features.
      rewrite (proj2 (py_getitem_Return _ _ _) Hdbath),
              (proj2 (py_getitem_Return _ _ _) Hdbed).
      cbn [mbind outcome_bind].
      destruct (py_truediv bathrooms bedrooms) as [ratio|e];
        [|by exists e].
      cbn [mbind outcome_bind]. exists TypeError.
      unfold py_get. rewrite !lookup_insert_ne by done.
      rewrite Hdh, Hdl, py_add_None by done. done. }
    exists e. split.
    + apply predict_with_confidence_prepare_Raise.
      rewrite prepare_input_run, Hmap. cbn [mbind outcome_bind].
      by rewrite Heng.
    + intros ? [= <-]. repeat split; try done.
      intros ? ? ratio ? ? Hratio. simplify_eq. by eapply He.
  - exists e. split; [|done].
    apply predict_with_confidence_prepare_Raise.
    by rewrite prepare_input_run, Hmap.
Qed.

Lemma null_size_raises_witness :
  let pd : dict float :=
    list_to_map [
      ("property_type", VStr "Apartment"); ("location", VStr "Kilimani");
      ("bedrooms", VInt 3); ("bathrooms", VInt 2);
      ("house_size", VFloat 150%float); ("land_size", VNone) ] in
  view_property_data (F:=float)
    (request "Apartment" "Kilimani" 3 2 (Some 150%float) None)
  = Return pd ∧
  predict_with_confidence scenario_predictor pd []
  = (Raise TypeError, [LogError "Prediction error" TypeError]).
Proof.
  intros pd.
  assert (view_property_data (F:=float)
            (request "Apartment" "Kilimani" 3 2 (Some 150%float) None)
          = Return pd) as Hview by reflexivity.
  split; [exact Hview|].
  destruct (null_size_raises (F:=float) scenario_predictor _ pd [] Hview)
    as (e & Hraise & He); [right; reflexivity|].
  assert (e = TypeError) as <-; [|exact Hraise].
  edestruct He as (_ & _ & _ & Htype); [reflexivity|].
  apply (Htype (VInt 2) (VInt 3) (VFloat (2 / 3)%float)); reflexivity.
Defined.

(** ** The ranking of the features *)

Section Ranking.
Local Open Scope R_scope.
Implicit Types (x y : string * R) (l items : list (string * R)).

Lemma filter_none {A : Type} (P : A → Prop) `{∀ a, Decision (P a)}
    (l : list A) :
  Forall (λ a, ¬ P a) l → filter P l = [].
Proof.
  induction 1 as [|a l Ha _ IH]; [done|]. by rewrite filter_cons_False.
Qed.

Lemma insert_by_value_Permutation x l : insert_by_value x l ≡ₚ x :: l.
Proof.
  induction l as [|y l IH]; [done|]. cbn [insert_by_value fltb R_Num].
  destruct (Rlt_dec x.2 y.2); [done|].
  rewrite IH. apply Permutation_swap.
Qed.

Lemma insert_by_value_ascending x l :
  ascending l → ascending (insert_by_value x l).
Proof.
  unfold ascending. induction l as [|y l IH]; intros Hl.
  - repeat constructor.
  - apply StronglySorted_inv in Hl as [Hl Hy].
    cbn [insert_by_value fltb R_Num]. destruct (Rlt_dec x.2 y.2) as [Hlt|Hge].
    + constructor; [by constructor|]. constructor; [lra|].
      eapply Forall_impl; [exact Hy|]. intros z Hz. simpl in *. lra.
    + constructor; [by apply IH|].
      rewrite insert_by_value_Permutation. constructor; [lra | done].
Qed.

(** The inserted item lands behind the items of its own value. *)
Lemma insert_by_value_filter x l (v : R) :
  ascending l →
  filter (λ z, z.2 = v) (insert_by_value x l)
  = filter (λ z, z.2 = v) l ++ filter (λ z, z.2 = v) [x].
Proof.
  unfold ascending. induction l as [|y l IH]; intros Hl; [done|].
  apply StronglySorted_inv in Hl as [Hl Hy].
  cbn [insert_by_value fltb R_Num]. destruct (Rlt_dec x.2 y.2) as [Hlt|Hge].
  - destruct (decide (x.2 = v)) as [Hx|Hx].
    + rewrite (filter_cons_True _ x) by done.
      rewrite (filter_singleton_True _ x []) by done.
      rewrite (filter_none _ (y :: l)); [done|].
      constructor; [lra|].
      eapply Forall_impl; [exact Hy|]. intros z Hz. simpl in *. lra.
    + rewrite (filter_cons_False _ x) by done.
      rewrite (filter_singleton_False _ x []) by done.
      by rewrite app_nil_r.
  - rewrite !(filter_cons _ y), IH by done.
    by destruct (decide (y.2 = v)).
Qed.

Lemma sorted_onto_spec items acc :
  ascending acc →
  let l := foldl (λ acc x, insert_by_value x acc) acc items in
  l ≡ₚ acc ++ items ∧ ascending l ∧
  ∀ v : R, filter (λ z, z.2 = v) l
           = filter (λ z, z.2 = v) acc ++ filter (λ z, z.2 = v) items.
Proof.
  revert acc. induction items as [|x items IH]; intros acc Hacc; cbn zeta.
  - rewrite app_nil_r. split; [done|]. split; [done|].
    intros v. by rewrite app_nil_r.
  - cbn [foldl].
    destruct (IH (insert_by_value x acc)) as (Hperm & Hasc & Hfilter);
      [by apply insert_by_value_ascending|].
    split; [|split; [done|]].
    + rewrite Hperm, insert_by_value_Permutation. simpl.
      apply Permutation_middle.
    + intros v. rewrite Hfilter, insert_by_value_filter by done.
      rewrite <- app_assoc. f_equal.
      by rewrite <- filter_app.
Qed.

Lemma StronglySorted_reverse {A : Type} (rel : relation A) (l : list A) :
  StronglySorted rel l → StronglySorted (flip rel) (reverse l).
Proof.
  induction 1 as [|a l Hl IH Ha]; [constructor|].
  rewrite reverse_cons. apply StronglySorted_app_2; [|done|repeat constructor].
  intros x1 x2 Hx1 Hx2. rewrite elem_of_reverse in Hx1.
  apply list_elem_of_singleton in Hx2 as ->. unfold flip.
  rewrite Forall_forall in Ha. by apply Ha.
Qed.

Lemma sorted_by_value_reverse_ranked items :
  ranked items (sorted_by_value_reverse items).
Proof.
  unfold sorted_by_value_reverse, sorted_by_value.
  destruct (sorted_onto_spec (reverse items) []) as (Hperm & Hasc & Hfilter);
    [constructor|].
  split; [|split].
  - by rewrite reverse_Permutation, Hperm, reverse_Permutation.
  - by apply StronglySorted_reverse in Hasc.
  - intros v. rewrite filter_reverse, Hfilter, filter_nil, app_nil_l.
    by rewrite filter_reverse, reverse_involutive.
Qed.
End Ranking.

(** ** The explanation *)

(** C9. Over the reals and whatever the rendering of floats, a returned
    explanation is, in this order and word for word: the sentence for the
    location, the sentence for the property type, the sentence for the house
    size (present only if the request has a [house_size] that is a number
    other than 0; it is left out when the key is missing and when its value
    is [None], 0 or the empty text), the sentence for the room counts, and
    the sentence "Key factors: " naming, separated by ", ", the first three
    features of the ranking of [feature_importance] by weight, descending,
    features of equal weight in the order of the dictionary. A value is
    rendered as [f"{v}"] renders it. *)
Theorem explain_prediction_sentences (str_float format_0f : R → string)
    (pd : dict R) (res : PredictionResult R) (explanations : list string) :
  explain_prediction str_float format_0f pd res = Return explanations →
  let render (v : pyval R) : string :=
    match v with
    | VNone => "None"
    | VInt n => pretty n
    | VFloat x => str_float x
    | VStr s => s
    end in
  ∃ location prop_type bedrooms bathrooms size_sentences ranking,
    pd !! "location" = Some location ∧
    pd !! "property_type" = Some prop_type ∧
    pd !! "bedrooms" = Some bedrooms ∧
    pd !! "bathrooms" = Some bathrooms ∧
    explanations
    = ["Location (" +:+ render location
         +:+ "): Premium area with high property values";
       "Property Type (" +:+ render prop_type
         +:+ "): Influences base price significantly"]
      ++ size_sentences
      ++ ["Rooms: " +:+ render bedrooms +:+ " bedrooms and "
            +:+ render bathrooms +:+ " bathrooms affect pricing";
          "Key factors: " +:+ String.concat ", " (take 3 ranking).*1] ∧
    ((∀ v, pd !! "house_size" = Some v →
           v = VNone ∨ v = VInt 0 ∨ v = VFloat 0%R ∨ v = VStr "") ∧
     size_sentences = []
     ∨ ∃ (house_size : pyval R) (x : R),
         pd !! "house_size" = Some house_size ∧
         (house_size = VFloat x ∨ ∃ n : Z, house_size = VInt n ∧ x = IZR n) ∧
         x ≠ 0%R ∧
         size_sentences
         = ["House Size: " +:+ format_0f x
              +:+ " mÂ² contributes to overall value"]) ∧
    ranked (feature_importance res) ranking.
Proof.
  intros Hexpl render. unfold explain_prediction in Hexpl.
  apply bind_Return in Hexpl as (location & Hloc & Hexpl).
  apply bind_Return in Hexpl as (prop_type & Hpt & Hexpl).
  apply bind_Return in Hexpl as (expl & Hsize & Hexpl).
  apply bind_Return in Hexpl as (bedrooms & Hbed & Hexpl).
  apply bind_Return in Hexpl as (bathrooms & Hbath & Hexpl).
  apply py_getitem_Return in Hloc, Hpt, Hbed, Hbath.
  injection Hexpl as <-.
  destruct (py_truthy (py_get_none pd "house_size")) eqn:Htruthy.
  - apply bind_Return in Hsize as (house_size & Hhouse & Hsize).
    apply bind_Return in Hsize as (size & Hfmt & Hsize).
    apply py_getitem_Return in Hhouse. injection Hsize as <-.
    unfold py_get_none in Htruthy.
    rewrite (py_get_Some _ _ _ _ Hhouse) in Htruthy.
    assert (∃ x : R, (house_size = VFloat x
                      ∨ ∃ n : Z, house_size = VInt n ∧ x = IZR n) ∧
                     x ≠ 0%R ∧ size = format_0f x) as (x & Hx & Hx0 & ->).
    { destruct house_size as [| n | x | s]; try done.
      - injection Hfmt as <-. exists (IZR n). split; [right; by exists n|].
        split; [|done]. cbn [py_truthy] in Htruthy.
        apply negb_true_iff, Z.eqb_neq in Htruthy. by apply not_0_IZR.
      - injection Hfmt as <-. exists x. split; [by left|]. split; [|done].
        cbn [py_truthy feqb of_Z R_Num] in Htruthy.
        by destruct (Req_dec_T x 0). }
    exists location, prop_type, bedrooms, bathrooms,
      ["House Size: " +:+ format_0f x
         +:+ " mÂ² contributes to overall value"],
      (sorted_by_value_reverse (feature_importance res)).
    do 4 (split; [done|]). split; [done|].
    split; [|apply sorted_by_value_reverse_ranked].
    right. exists house_size, x. split; [done|]. split; [|done].
    done.
  - injection Hsize as <-.
    exists location, prop_type, bedrooms, bathrooms, [],
      (sorted_by_value_reverse (feature_importance res)).
    do 4 (split; [done|]). split; [done|].
    split; [|apply sorted_by_value_reverse_ranked].
    left. split; [|done]. intros v Hv.
    unfold py_get_none in Htruthy. rewrite (py_get_Some _ _ _ _ Hv) in Htruthy.
    destruct v as [| n | x | s]; cbn [py_truthy] in Htruthy.
    + by left.
    + apply negb_false_iff, Z.eqb_eq in Htruthy as ->. right. by left.
    + cbn [feqb of_Z R_Num] in Htruthy.
      destruct (Req_dec_T x 0) as [-> |]; [|done]. right. right. by left.
    + apply negb_false_iff, String.eqb_eq in Htruthy as ->.
      right. right. by right.
Qed.

Lemma explain_prediction_sentences_witness :
  ∃ explanations ranking,
    explain_prediction (F:=R) (λ _, "2.5") (λ _, "150")
      (<["house_size" := VInt 150]>
         (request "Apartment" "Kilimani" 3 2 None None))
      tied_result
    = Return explanations ∧
    ranked (feature_importance tied_result) ranking ∧
    explanations
    = ["Location (Kilimani): Premium area with high property values";
       "Property Type (Apartment): Influences base price significantly";
       "House Size: 150 mÂ² contributes to overall value";
       "Rooms: 3 bedrooms and 2 bathrooms affect pricing";
       "Key factors: " +:+ String.concat ", " (take 3 ranking).*1].
Proof.
  eexists.
  edestruct (explain_prediction_sentences (λ _, "2.5") (λ _, "150")
               (<["house_size" := VInt 150]>
                  (request "Apartment" "Kilimani" 3 2 None None))
               tied_result)
    as (location & prop_type & bedrooms & bathrooms & size_sentences & ranking
        & Hloc & Hpt & Hbed & Hbath & Hexpl & Hsize & Hranked); [reflexivity|].
  exists ranking. split; [reflexivity|]. split; [exact Hranked|].
  injection Hloc as <-. injection Hpt as <-.
  injection Hbed as <-. injection Hbath as <-.
  destruct Hsize as [[Hfalsy ->] | (house_size & x & Hhouse & _ & _ & ->)].
  - by destruct (Hfalsy (VInt 150) eq_refl) as [? | [? | [? | ?]]].
  - exact Hexpl.
Defined.

(** ** Binary64 *)

Lemma float_ltb_leb (x y : float) :
  PrimFloat.ltb x y = true → PrimFloat.leb x y = true.
Proof.
  rewrite FloatAxioms.ltb_spec, FloatAxioms.leb_spec. unfold SFltb, SFleb.
  by destruct (SFcompare _ _) as [[]|].
Qed.

(** In binary64 the confidence score of every returned prediction is
    within [0,1], also when the candidates are infinite or not numbers:
    [min] and [max] keep their first argument, 1 or 0, unless the comparison
    with the second succeeds. *)
Lemma confidence_score_binary64_range (self : PropertyPricePredictor float)
    (pd : dict float) (w w' : world) (res : PredictionResult float) :
  predict_with_confidence self pd w = (Return res, w') →
  PrimFloat.leb 0 (confidence_score res) = true ∧
  PrimFloat.leb (confidence_score res) 1 = true.
Proof.
  intros (X & row & _ & _ & _ & -> & _)%predict_with_confidence_Return.
  cbn zeta.
  match goal with
  | |- context [(of_Z 1 - ?c)%num] => generalize c; intros cv
  end.
  unfold py_max, py_min. cbn [fltb fsub float_Num].
  change (of_Z (F:=float) 0) with 0%float.
  change (of_Z (F:=float) 1) with 1%float.
  destruct (PrimFloat.ltb (1 - cv) 1) eqn:Hlt1.
  - destruct (PrimFloat.ltb 0 (1 - cv)) eqn:Hlt0.
    + split; by apply float_ltb_leb.
    + done.
  - done.
Qed.

Lemma confidence_score_binary64_range_witness :
  ∃ res w',
    predict_with_confidence (F:=float) scenario_predictor kilimani_apartment []
    = (Return res, w') ∧
    PrimFloat.leb 0 (confidence_score res) = true ∧
    PrimFloat.leb (confidence_score res) 1 = true.
Proof.
  eexists _, _. split; [reflexivity|].
  eapply (confidence_score_binary64_range scenario_predictor
            kilimani_apartment [] []).
  reflexivity.
Defined.

(** The scenario of the specification, run in binary64. *)
Example scenario_prediction :
  ∃ res,
    predict_with_confidence (F:=float) scenario_predictor kilimani_apartment []
    = (Return res, []) ∧
    predicted_price res = 20100000%float ∧
    confidence_score res = 0.97792023312073317%float ∧
    price_range_min res = 18499666.701381657%float ∧
    price_range_max res = 21700333.298618343%float.
Proof. eexists. split; [reflexivity|]. by vm_compute. Qed.

(** Features of equal weight keep the order of the dictionary. *)
Example sorted_by_value_reverse_ties :
  (sorted_by_value_reverse (F:=float)
     [("Bedroom", 0.1); ("Location", 0.4); ("House size", 0.25);
      ("total_area", 0.25); ("bathroom", 0.1)]%float).*1
  = ["Location"; "House size"; "total_area"; "Bedroom"; "bathroom"].
Proof. by vm_compute. Qed.

(** * Further properties of the engine *)

Section EngineFacts.
Context {F : Type} `{Num F}.
Local Open Scope num_scope.
Implicit Types (self : PropertyPricePredictor F) (pd data : dict F).
Implicit Types (w : world) (X : list (pyval F)).

Lemma for_each_total {A B : Type} (f : A → outcome B) (l : list A) :
  Forall (λ x, ∃ y, f x = Return y) l → ∃ ys, for_each f l = Return ys.
Proof.
  induction 1 as [|x l [y Hy] _ [ys IH]]; [by exists []|].
  exists (y :: ys). cbn [for_each]. by rewrite Hy, IH.
Qed.

Lemma for_each_Forall2 {A B : Type} (f : A → outcome B) (l : list A)
    (ys : list B) :
  for_each f l = Return ys → Forall2 (λ x y, f x = Return y) l ys.
Proof.
  revert ys. induction l as [|x l IH]; intros ys Hfor.
  - injection Hfor as <-. constructor.
  - cbn [for_each] in Hfor.
    apply bind_Return in Hfor as (y & Hy & Hfor).
    apply bind_Return in Hfor as (ys' & Hys' & Hfor).
    injection Hfor as <-. constructor; [done | by apply IH].
Qed.

Lemma for_each_Forall {A B : Type} (f : A → outcome B) (P : A → Prop)
    (Q : B → Prop) (l : list A) (ys : list B) :
  for_each f l = Return ys → Forall P l →
  (∀ x y, P x → f x = Return y → Q y) → Forall Q ys.
Proof.
  intros Hfor%for_each_Forall2 Hl HPQ.
  induction Hfor as [|x y l ys Hxy _ IH]; [constructor|].
  apply Forall_cons in Hl as [Hx Hl]. constructor; eauto.
Qed.

(** The table of premiums has one entry for each label of the vocabulary:
    its premium in the statistics, or 0. *)
Lemma premiums_lookup (table : option (gmap string F)) (le : LabelEncoder)
    (c : string) :
  premiums table le !! c
  = if bool_decide (c ∈ classes_ le)
    then Some (match default ∅ table !! c with
               | Some p => VFloat p
               | None => VInt 0
               end)
    else None.
Proof.
  unfold premiums.
  assert (∀ (l : list string) (acc : dict F),
            foldl (λ d c', <[c' := match default ∅ table !! c' with
                                   | Some p => VFloat p
                                   | None => VInt 0
                                   end]> d) acc l !! c
            = if bool_decide (c ∈ l)
              then Some (match default ∅ table !! c with
                         | Some p => VFloat p
                         | None => VInt 0
                         end)
              else acc !! c) as Hfold.
  { induction l as [|x l IH]; intros acc; [done|].
    cbn [foldl]. rewrite IH.
    destruct (decide (c ∈ l)) as [Hin|Hnin].
    - rewrite !bool_decide_eq_true_2; [done | by right | done].
    - rewrite (bool_decide_eq_false_2 (c ∈ l)) by done.
      destruct (decide (c = x)) as [->|Hne].
      + rewrite bool_decide_eq_true_2 by left. apply lookup_insert_eq.
      + rewrite bool_decide_eq_false_2, lookup_insert_ne; [done..|].
        by intros [?|?]%elem_of_cons. }
  by rewrite Hfold, lookup_empty.
Qed.

Lemma premium_of_number (table : option (gmap string F)) (le : LabelEncoder)
    (key : pyval F) :
  is_number (premium_of (premiums table le) key) = true.
Proof.
  destruct key as [| n | x | s]; try done. unfold premium_of, py_get.
  rewrite premiums_lookup. destruct (bool_decide _); [|done].
  by destruct (default ∅ table !! s).
Qed.

Lemma py_add_number (a b : pyval F) :
  is_number a = true → is_number b = true →
  ∃ v, py_add a b = Return v ∧ is_number v = true.
Proof. destruct a, b; try done; intros _ _; eauto. Qed.

Lemma py_truediv_number (a b : pyval F) :
  is_number a = true → is_number b = true → py_truthy b = true →
  ∃ x, py_truediv a b = Return (VFloat x).
Proof.
  destruct a as [| m | x | s], b as [| n | y | t]; try done; intros _ _ Hb;
    cbn [py_truediv py_truthy] in *;
    apply negb_true_iff in Hb; rewrite Hb; eauto.
Qed.

Lemma transform_seen (le : LabelEncoder) (v : pyval F) :
  in_vocabulary le v →
  ∃ (s : string) (i : nat),
    v = VStr s ∧ transform le v = Return (VInt (Z.of_nat i)) ∧
    classes_ le !! i = Some s.
Proof.
  intros (s & -> & Hs). cbn [transform].
  destruct (list_find _ _) as [[i c]|] eqn:Hfind.
  - apply list_find_Some in Hfind as (Hi & -> & _). by exists s, i.
  - apply list_find_None in Hfind. rewrite Forall_forall in Hfind.
    by destruct (Hfind s Hs).
Qed.
End EngineFacts.

Section Success.
Context {F : Type} `{Num F}.
Local Open Scope num_scope.
Implicit Types (self : PropertyPricePredictor F) (pd data : dict F).
Implicit Types (w : world) (X : list (pyval F)).

Lemma engineer_features_total self data
    (bathroom Bedroom house land Location propertyType : pyval F) :
  data !! "bathroom" = Some bathroom → data !! "Bedroom" = Some Bedroom →
  data !! "House size" = Some house → data !! "Land size" = Some land →
  data !! "Location" = Some Location →
  data !! "propertyType" = Some propertyType →
  is_number bathroom = true → is_number Bedroom = true →
  py_truthy Bedroom = true →
  is_number house = true → is_number land = true →
  ∃ ratio total,
    py_truediv bathroom Bedroom = Return (VFloat ratio) ∧
    py_add house land = Return total ∧ is_number total = true ∧
    engineer_features self data
    = Return
        (<["property_premium" :=
             premium_of (premiums (stats_property_premium (stats self))
                                  (le_property self)) propertyType]>
         (<["location_premium" :=
             premium_of (premiums (stats_location_premium (stats self))
                                  (le_location self)) Location]>
         (<["total_area" := total]>
         (<["bath_bed_ratio" := VFloat ratio]> data)))).
Proof.
  intros Hbath Hbed Hhouse Hland Hloc Hpt Nbath Nbed Tbed Nhouse Nland.
  destruct (py_truediv_number _ _ Nbath Nbed Tbed) as [ratio Hratio].
  destruct (py_add_number _ _ Nhouse Nland) as (total & Htotal & Ntotal).
  exists ratio, total. do 3 (split; [done|]).
  unfold engineer_features.
  rewrite (proj2 (py_getitem_Return _ _ _) Hbath),
          (proj2 (py_getitem_Return _ _ _) Hbed).
  cbn [mbind outcome_bind]. rewrite Hratio. cbn [mbind outcome_bind].
  unfold py_get. rewrite !lookup_insert_ne by done.
  rewrite Hhouse, Hland, Htotal. cbn [mbind outcome_bind].
  unfold py_getitem. rewrite !lookup_insert_ne by done.
  rewrite Hloc. cbn [mbind outcome_bind].
  rewrite !lookup_insert_ne by done. by rewrite Hpt.
Qed.

Lemma map_input_total self pd (propertyType Location Bedroom bathroom : pyval F)
    (medians : gmap string F) (mh ml : F) :
  pd !! "property_type" = Some propertyType →
  pd !! "location" = Some Location →
  pd !! "bedrooms" = Some Bedroom →
  pd !! "bathrooms" = Some bathroom →
  stats_median_values (stats self) = Some medians →
  medians !! "House size" = Some mh → medians !! "Land size" = Some ml →
  map_input self pd
  = Return (list_to_map [
      ("propertyType", propertyType);
      ("Location", Location);
      ("Bedroom", Bedroom);
      ("bathroom", bathroom);
      ("House size", py_get pd "house_size" (VFloat mh));
      ("Land size", py_get pd "land_size" (VFloat ml)) ]).
Proof.
  intros Hpt Hloc Hbed Hbath Hmed Hmh Hml.
  unfold map_input, median_value, py_getitem.
  by rewrite Hpt, Hloc, Hbed, Hbath, Hmed, Hmh, Hml.
Qed.

Lemma plain_number_is_number (v : pyval F) :
  plain_number v → is_number v = true.
Proof. by destruct v. Qed.

Lemma py_get_number pd (k : string) (default : pyval F) :
  optional_number pd k → is_number default = true →
  is_number (py_get pd k default) = true.
Proof.
  intros Hk Hd. unfold py_get. destruct (pd !! k) as [v|] eqn:Hv; [|done].
  by apply plain_number_is_number, Hk.
Qed.

End Success.

Section SuccessTheorem.
Context {F : Type} `{Num F}.
Local Open Scope num_scope.
Implicit Types (self : PropertyPricePredictor F) (pd data : dict F).
Implicit Types (w : world) (X : list (pyval F)).

(** The encoded frame of a well-typed request: every column is a number. *)
Lemma encoded_frame_total self pd :
  well_formed self → well_typed self pd →
  ∃ data df,
    engineered self pd data ∧ encode self data = Return df ∧
    ∀ name, name ∈ feature_columns →
            ∃ v, df !! name = Some v ∧ is_number v = true.
Proof.
  intros ((medians & Hmed & [mh Hmh] & [ml Hml]) & _ & _)
         ((pt & Hpt & Vpt) & (loc & Hloc & Vloc) & (bed & Hbed & Nbed & Tbed)
          & (bath & Hbath & Nbath) & Nhouse & Nland).
  apply plain_number_is_number in Nbed, Nbath.
  pose proof (map_input_total self pd pt loc bed bath medians mh ml
                Hpt Hloc Hbed Hbath Hmed Hmh Hml) as Hmap.
  set (house := py_get pd "house_size" (VFloat mh)) in *.
  set (land := py_get pd "land_size" (VFloat ml)) in *.
  assert (is_number house = true) as Nh by by apply py_get_number.
  assert (is_number land = true) as Nl by by apply py_get_number.
  set (data0 := list_to_map _ : dict F) in Hmap.
  assert (data0 !! "propertyType" = Some pt) as Dpt by done.
  assert (data0 !! "Location" = Some loc) as Dloc by done.
  assert (data0 !! "Bedroom" = Some bed) as Dbed by done.
  assert (data0 !! "bathroom" = Some bath) as Dbath by done.
  assert (data0 !! "House size" = Some house) as Dhouse by done.
  assert (data0 !! "Land size" = Some land) as Dland by done.
  clearbody data0.
  destruct (engineer_features_total self data0 bath bed house land loc pt)
    as (ratio & total & Hratio & Htotal & Ntotal & Heng); try done.
  set (data := <["property_premium" := _]> _) in Heng.
  destruct (transform_seen _ _ Vpt) as (spt & c1 & -> & Hc1 & _).
  destruct (transform_seen _ _ Vloc) as (sloc & c2 & -> & Hc2 & _).
  exists data, (<["Location" := VInt (Z.of_nat c2)]>
                (<["propertyType" := VInt (Z.of_nat c1)]> data)).
  split; [|split].
  - unfold engineered. by rewrite Hmap.
  - unfold encode, py_getitem. subst data.
    rewrite !lookup_insert_ne by done. rewrite Dpt.
    cbn [mbind outcome_bind]. rewrite Hc1. cbn [mbind outcome_bind].
    rewrite ?lookup_insert_ne by done. rewrite Dloc.
    cbn [mbind outcome_bind]. by rewrite Hc2.
  - intros name Hname. unfold feature_columns in Hname.
    repeat (apply elem_of_cons in Hname as [->|Hname]);
      [..|by apply elem_of_nil in Hname]; subst data;
      repeat first [ rewrite lookup_insert_eq | rewrite lookup_insert_ne by done ];
      eauto using premium_of_number.
Qed.

Lemma prepare_input_total self pd w :
  well_formed self → well_typed self pd →
  ∃ X, prepare_input self pd w = (Return X, w) ∧
       length X = length (feature_names self) ∧
       Forall (λ v, is_number v = true) X.
Proof.
  intros Hwf Hwt.
  destruct (encoded_frame_total self pd Hwf Hwt)
    as (data & df & Hdata & Hdf & Hcols).
  destruct Hwf as (_ & _ & Hnames).
  destruct (for_each_total (py_getitem df) (feature_names self)) as [X HX].
  { apply Forall_forall. intros name Hname.
    destruct (Hcols name (Hnames name Hname)) as (v & Hv & _).
    exists v. by apply py_getitem_Return. }
  assert (Forall (λ v, is_number v = true) X) as HXnum.
  { eapply (for_each_Forall _ (λ name, name ∈ feature_columns)); [done| |].
    - apply Forall_forall. intros name Hname. by apply Hnames.
    - intros name v Hname Hv%py_getitem_Return.
      destruct (Hcols name Hname) as (v' & Hv' & Nv'). by simplify_eq. }
  exists X. split; [|split; [|done]].
  - rewrite prepare_input_run. unfold engineered in Hdata.
    by rewrite Hdata, Hdf, HX.
  - by apply for_each_Forall2, Forall2_length in HX.
Qed.
End SuccessTheorem.

(** The repository's own part of a prediction is total on good input.
    When the artefacts are well formed (both medians, the metrics, feature
    names that are columns) and the request is well typed (categories of
    the vocabularies, a number of bedrooms other than zero, a number of
    bathrooms, sizes absent or numbers; ints within the exact range of
    binary64), [prepare_input] returns a frame: one entry for each feature
    name, every entry a number, and nothing is logged. Whether the models
    accept that frame is not concluded. *)
Theorem well_typed_request_prepared {F : Type} `{Num F}
    (self : PropertyPricePredictor F) (pd : dict F) (w : world) :
  well_formed self → well_typed self pd →
  ∃ X, prepare_input self pd w = (Return X, w) ∧
       length X = length (feature_names self) ∧
       Forall (λ v, is_number v = true) X.
Proof.
  intros Hwf Hwt.
  destruct (prepare_input_total self pd w Hwf Hwt) as (X & HX & Hlen & Hnum).
  by exists X.
Qed.

Lemma well_typed_request_prepared_witness :
  ∃ X,
    prepare_input (F:=float) scenario_predictor kilimani_apartment []
    = (Return X, []) ∧
    length X = 10%nat ∧ Forall (λ v, is_number v = true) X.
Proof.
  apply (well_typed_request_prepared (F:=float) scenario_predictor
           kilimani_apartment []).
  - split; [|split].
    + eexists. split; [reflexivity|]. split; eexists; reflexivity.
    + eexists. reflexivity.
    + done.
  - repeat split.
    + eexists. split; [reflexivity|]. eexists. split; [done|].
      by apply (bool_decide_unpack _).
    + eexists. split; [reflexivity|]. eexists. split; [done|].
      by apply (bool_decide_unpack _).
    + eexists. split; [reflexivity|]. split; [|done]. cbn. lia.
    + eexists. split; [reflexivity|]. cbn. lia.
    + intros v [= <-]. done.
    + intros v [= <-]. done.
Defined.

(** ** The columns of the frame *)

Section Columns.
Context {F : Type} `{Num F}.
Local Open Scope num_scope.
Implicit Types (self : PropertyPricePredictor F) (pd data : dict F).
Implicit Types (w : world) (X : list (pyval F)).

Lemma transform_Return (le : LabelEncoder) (v code : pyval F) :
  transform le v = Return code →
  ∃ (s : string) (i : nat),
    v = VStr s ∧ code = VInt (Z.of_nat i) ∧ classes_ le !! i = Some s ∧
    ∀ j : nat, (j < i)%nat → classes_ le !! j ≠ Some s.
Proof.
  destruct v as [| n | x | s]; try done. cbn [transform].
  destruct (list_find _ _) as [[i c]|] eqn:Hfind; [|done].
  intros [= <-]. apply list_find_Some in Hfind as (Hi & -> & Hleast).
  exists s, i. repeat split; [done|]. intros j Hj Hs.
  by apply (Hleast j s).
Qed.

(** [prepare_input] returns the selection, by the feature names, of the
    engineered record in which the two categories are replaced by their
    codes. *)
Lemma prepare_input_frame self pd w X w' :
  prepare_input self pd w = (Return X, w') →
  ∃ data (propertyType Location code1 code2 : pyval F),
    w' = w ∧
    engineered self pd data ∧
    data !! "propertyType" = Some propertyType ∧
    data !! "Location" = Some Location ∧
    transform (le_property self) propertyType = Return code1 ∧
    transform (le_location self) Location = Return code2 ∧
    for_each (py_getitem (<["Location" := code2]>
                            (<["propertyType" := code1]> data)))
             (feature_names self) = Return X.
Proof.
  rewrite prepare_input_run. unfold engineered.
  destruct (map_input self pd ≫= engineer_features self) as [data|e]; [|done].
  destruct (encode self data) as [df|e] eqn:Henc;
    [|by destruct (is_ValueError e)].
  intros [= HX <-]. unfold encode in Henc.
  apply bind_Return in Henc as (propertyType & Hpt%py_getitem_Return & Henc).
  apply bind_Return in Henc as (code1 & Hc1 & Henc).
  apply bind_Return in Henc as (Location & Hloc%py_getitem_Return & Henc).
  apply bind_Return in Henc as (code2 & Hc2 & Henc).
  injection Henc as <-.
  by exists data, propertyType, Location, code1, code2.
Qed.

Lemma for_each_column (df : dict F) (names : list string) X (name : string)
    (v : pyval F) :
  for_each (py_getitem df) names = Return X → df !! name = Some v →
  column names X name v.
Proof.
  intros HX Hv i Hi.
  destruct (for_each_Return_lookup _ _ _ _ _ HX Hi) as (y & -> & Hy).
  apply py_getitem_Return in Hy. congruence.
Qed.
End Columns.

(** Encoding round trip: in a returned frame the columns [propertyType] and
    [Location] hold the positions of the request's categories in the
    vocabularies, so the vocabulary at the code is the category again; the
    code is the first position of that label. The frame has one entry for
    each feature name. *)
Theorem encoded_categories_decode {F : Type} `{Num F}
    (self : PropertyPricePredictor F) (pd : dict F) (w w' : world)
    (X : list (pyval F)) :
  prepare_input self pd w = (Return X, w') →
  length X = length (feature_names self) ∧
  ∃ (property_type location : string) (code1 code2 : nat),
    pd !! "property_type" = Some (VStr property_type) ∧
    pd !! "location" = Some (VStr location) ∧
    classes_ (le_property self) !! code1 = Some property_type ∧
    classes_ (le_location self) !! code2 = Some location ∧
    (∀ j : nat, (j < code1)%nat →
                classes_ (le_property self) !! j ≠ Some property_type) ∧
    (∀ j : nat, (j < code2)%nat →
                classes_ (le_location self) !! j ≠ Some location) ∧
    column (feature_names self) X "propertyType" (VInt (Z.of_nat code1)) ∧
    column (feature_names self) X "Location" (VInt (Z.of_nat code2)).
Proof.
  intros (data & pt & loc & c1 & c2 & _ & Hdata & Hpt & Hloc & Hc1 & Hc2 & HX)
    %prepare_input_frame.
  split.
  { apply for_each_Forall2, Forall2_length in HX. done. }
  destruct (engineered_categories _ _ _ Hdata)
    as (pt' & loc' & Hpt' & Hloc' & Hdpt & Hdloc).
  apply transform_Return in Hc1 as (spt & i1 & -> & -> & Hi1 & Hleast1).
  apply transform_Return in Hc2 as (sloc & i2 & -> & -> & Hi2 & Hleast2).
  exists spt, sloc, i1, i2. simplify_eq.
  do 6 (split; [done|]). split.
  - eapply for_each_column; [done|].
    rewrite lookup_insert_ne by done. apply lookup_insert_eq.
  - eapply for_each_column; [done|]. apply lookup_insert_eq.
Qed.

Lemma encoded_categories_decode_witness :
  ∃ X,
    prepare_input (F:=float) scenario_predictor kilimani_apartment []
    = (Return X, []) ∧
    X !! 0%nat = Some (VInt 0) ∧ X !! 1%nat = Some (VInt 4) ∧
    classes_ (le_location (F:=float) scenario_predictor) !! 4%nat
    = Some "Kilimani".
Proof.
  eexists. split; [reflexivity|].
  edestruct (encoded_categories_decode (F:=float) scenario_predictor
               kilimani_apartment [] [])
    as (_ & pt & loc & c1 & c2 & Hpt & Hloc & Hc1 & Hc2 & _ & _ & Hcol1 & Hcol2);
    [reflexivity|].
  done.
Defined.

Section ColumnFacts.
Context {F : Type} `{Num F}.
Local Open Scope num_scope.
Implicit Types (self : PropertyPricePredictor F) (pd data : dict F).
Implicit Types (w : world) (X : list (pyval F)).

Lemma premium_of_seen (table : option (gmap string F)) (le : LabelEncoder)
    (v code : pyval F) :
  transform le v = Return code →
  ∃ s, v = VStr s ∧
       premium_of (premiums table le) v
       = match default ∅ table !! s with
         | Some p => VFloat p
         | None => VInt 0
         end.
Proof.
  intros (s & i & -> & _ & Hi & _)%transform_Return. exists s.
  split; [done|]. cbn [premium_of]. unfold py_get.
  rewrite premiums_lookup, bool_decide_true; [done|].
  by eapply list_elem_of_lookup_2.
Qed.

Lemma engineered_rooms self pd data :
  engineered self pd data →
  ∃ Bedroom bathroom ratio,
    pd !! "bedrooms" = Some Bedroom ∧
    pd !! "bathrooms" = Some bathroom ∧
    py_truediv bathroom Bedroom = Return ratio ∧
    data !! "Bedroom" = Some Bedroom ∧
    data !! "bathroom" = Some bathroom ∧
    data !! "bath_bed_ratio" = Some ratio.
Proof.
  intros (data0 & Hmap & Heng)%engineered_inv.
  assert (data !! "Bedroom" = data0 !! "Bedroom") as Hb
    by by apply (engineer_features_lookup _ _ _ _ Heng).
  assert (data !! "bathroom" = data0 !! "bathroom") as Ha
    by by apply (engineer_features_lookup _ _ _ _ Heng).
  apply map_input_Return in Hmap
    as (? & ? & Bedroom & bathroom & ? & ? & ? & _ & _ & Hbed & Hbath & _ & _
        & _ & _ & _ & Hbed' & Hbath' & _).
  apply engineer_features_Return in Heng
    as (bathroom' & Bedroom' & ratio & ? & ? & ? & Hbath'' & Hbed'' & Hratio
        & _ & _ & _ & Hdata).
  exists Bedroom, bathroom, ratio. rewrite Hb, Ha.
  assert (bathroom' = bathroom) as -> by congruence.
  assert (Bedroom' = Bedroom) as -> by congruence.
  do 5 (split; [done|]). rewrite Hdata.
  rewrite !lookup_insert_ne by done. apply lookup_insert_eq.
Qed.

Lemma engineered_premiums self pd data (propertyType Location : pyval F) :
  engineered self pd data →
  data !! "propertyType" = Some propertyType →
  data !! "Location" = Some Location →
  data !! "location_premium"
  = Some (premium_of (premiums (stats_location_premium (stats self))
                               (le_location self)) Location) ∧
  data !! "property_premium"
  = Some (premium_of (premiums (stats_property_premium (stats self))
                               (le_property self)) propertyType).
Proof.
  intros (data0 & Hmap & Heng)%engineered_inv Hpt Hloc.
  pose proof (engineer_features_lookup _ _ _ "propertyType" Heng) as Hp.
  pose proof (engineer_features_lookup _ _ _ "Location" Heng) as Hl.
  rewrite Hp in Hpt by done. rewrite Hl in Hloc by done.
  apply engineer_features_Return in Heng
    as (? & ? & ? & ? & Location' & propertyType' & _ & _ & _ & _ & Hloc'
        & Hpt' & ->).
  simplify_eq. split.
  - rewrite lookup_insert_ne by done. apply lookup_insert_eq.
  - apply lookup_insert_eq.
Qed.
End ColumnFacts.

(** The premium columns of a returned frame hold the premiums that the
    statistics list for the request's own location and property type, and
    the integer 0 for a label without an entry (or when the statistics have
    no premium table at all). *)
Theorem premium_columns_of_request {F : Type} `{Num F}
    (self : PropertyPricePredictor F) (pd : dict F) (w w' : world)
    (X : list (pyval F)) :
  prepare_input self pd w = (Return X, w') →
  ∃ property_type location : string,
    pd !! "property_type" = Some (VStr property_type) ∧
    pd !! "location" = Some (VStr location) ∧
    column (feature_names self) X "location_premium"
      (match default ∅ (stats_location_premium (stats self)) !! location with
       | Some p => VFloat p
       | None => VInt 0
       end) ∧
    column (feature_names self) X "property_premium"
      (match default ∅ (stats_property_premium (stats self)) !! property_type
       with
       | Some p => VFloat p
       | None => VInt 0
       end).
Proof.
  intros (data & pt & loc & c1 & c2 & _ & Hdata & Hpt & Hloc & Hc1 & Hc2 & HX)
    %prepare_input_frame.
  destruct (engineered_categories _ _ _ Hdata)
    as (pt' & loc' & Hpt' & Hloc' & Hdpt & Hdloc).
  destruct (engineered_premiums _ _ _ _ _ Hdata Hpt Hloc) as [Hlp Hpp].
  destruct (premium_of_seen (stats_property_premium (stats self)) _ _ _ Hc1)
    as (spt & -> & Hppt).
  destruct (premium_of_seen (stats_location_premium (stats self)) _ _ _ Hc2)
    as (sloc & -> & Hploc).
  rewrite Hppt in Hpp. rewrite Hploc in Hlp.
  exists spt, sloc. simplify_eq. do 2 (split; [done|]). split.
  - eapply for_each_column; [done|]. by rewrite !lookup_insert_ne.
  - eapply for_each_column; [done|]. by rewrite !lookup_insert_ne.
Qed.

Lemma premium_columns_of_request_witness :
  ∃ X,
    prepare_input (F:=float) scenario_predictor kilimani_apartment []
    = (Return X, []) ∧
    X !! 8%nat = Some (VFloat 1500000%float) ∧
    X !! 9%nat = Some (VFloat 250000%float).
Proof.
  eexists. split; [reflexivity|].
  edestruct (premium_columns_of_request (F:=float) scenario_predictor
               kilimani_apartment [] [])
    as (pt & loc & Hpt & Hloc & Hcol1 & Hcol2); [reflexivity|].
  done.
Defined.

(** The room columns of a returned frame hold the request's [bedrooms] and
    [bathrooms] unchanged, and [bath_bed_ratio] holds their quotient,
    bathrooms over bedrooms. *)
Theorem room_columns_of_request {F : Type} `{Num F}
    (self : PropertyPricePredictor F) (pd : dict F) (w w' : world)
    (X : list (pyval F)) :
  prepare_input self pd w = (Return X, w') →
  ∃ bedrooms bathrooms ratio : pyval F,
    pd !! "bedrooms" = Some bedrooms ∧
    pd !! "bathrooms" = Some bathrooms ∧
    py_truediv bathrooms bedrooms = Return ratio ∧
    column (feature_names self) X "Bedroom" bedrooms ∧
    column (feature_names self) X "bathroom" bathrooms ∧
    column (feature_names self) X "bath_bed_ratio" ratio.
Proof.
  intros (_ & data & Hdata & Hcol)%prepare_input_Return.
  destruct (engineered_rooms _ _ _ Hdata)
    as (bed & bath & ratio & Hbed & Hbath & Hratio & Hdbed & Hdbath & Hdratio).
  exists bed, bath, ratio. do 3 (split; [done|]).
  repeat split; by apply Hcol.
Qed.

Lemma room_columns_of_request_witness :
  ∃ X,
    prepare_input (F:=float) scenario_predictor kilimani_apartment []
    = (Return X, []) ∧
    X !! 2%nat = Some (VInt 3) ∧ X !! 3%nat = Some (VInt 2) ∧
    X !! 6%nat = Some (VFloat (2 / 3)%float).
Proof.
  eexists. split; [reflexivity|].
  edestruct (room_columns_of_request (F:=float) scenario_predictor
               kilimani_apartment [] [])
    as (bed & bath & ratio & Hbed & Hbath & Hratio & Hc1 & Hc2 & Hc3);
    [reflexivity|].
  done.
Defined.

(** ** Which exception for which cause *)

Lemma bind_Raise {A B : Type} (m : outcome A) (k : A → outcome B) (e : exn) :
  m ≫= k = Raise e → m = Raise e ∨ ∃ a, m = Return a ∧ k a = Raise e.
Proof.
  destruct m as [a|e']; intros Hm; [right; by exists a | left; by injection Hm as ->].
Qed.

Lemma for_each_Raise {A B : Type} (f : A → outcome B) (l : list A) (e : exn) :
  for_each f l = Raise e → ∃ x, x ∈ l ∧ f x = Raise e.
Proof.
  induction l as [|a l IH]; [done|]. cbn [for_each].
  intros [Ha | (y & _ & [Hl | (ys & _ & ?)]%bind_Raise)]%bind_Raise; [| |done].
  - exists a. split; [apply list_elem_of_here | done].
  - destruct (IH Hl) as (x & Hx & Hfx). exists x.
    split; [by apply list_elem_of_further | done].
Qed.

Lemma py_getitem_Raise {V : Type} (d : gmap string V) (k : string) (e : exn) :
  py_getitem d k = Raise e → e = KeyError ∧ d !! k = None.
Proof. unfold py_getitem. destruct (d !! k); [done | by intros [= <-]]. Qed.

Section Exceptions.
Context {F : Type} `{Num F}.
Local Open Scope num_scope.
Implicit Types (self : PropertyPricePredictor F) (pd data : dict F).
Implicit Types (w : world) (X : list (pyval F)) (e : exn).

Lemma py_truediv_Raise (a b : pyval F) e :
  py_truediv a b = Raise e →
  e = ZeroDivisionError ∧ is_number a = true ∧ is_number b = true ∧
    py_truthy b = false
  ∨ e = TypeError ∧ (is_number a = false ∨ is_number b = false).
Proof.
  destruct a as [| m | x | s], b as [| n | y | t]; cbn [py_truediv py_truthy];
    try (intros [= <-]; right; split; [done|]; (by left) || (by right)).
  - destruct (n =? 0)%Z; [|done]. intros [= <-]. by left.
  - destruct (y =? of_Z 0); [|done]. intros [= <-]. by left.
  - destruct (n =? 0)%Z; [|done]. intros [= <-]. by left.
  - destruct (y =? of_Z 0); [|done]. intros [= <-]. by left.
Qed.

Lemma py_add_Raise (a b : pyval F) e :
  py_add a b = Raise e →
  e = TypeError ∧ (is_number a = false ∨ is_number b = false).
Proof.
  destruct a, b; cbn [py_add]; try done; intros [= <-];
    split; try done; (by left) || (by right).
Qed.

(** [+] also concatenates two strings. *)
Lemma py_add_Return (a b v : pyval F) :
  py_add a b = Return v →
  is_number a = true ∧ is_number b = true ∧ is_number v = true
  ∨ ∃ s t, a = VStr s ∧ b = VStr t ∧ v = VStr (s ++ t).
Proof.
  destruct a, b; cbn [py_add]; try done; intros [= <-]; eauto 10.
Qed.

Lemma median_value_Raise self (field : string) e :
  median_value self field = Raise e →
  e = KeyError ∧
  ∀ medians, stats_median_values (stats self) = Some medians →
             medians !! field = None.
Proof.
  unfold median_value. destruct (stats_median_values _) as [medians|].
  - intros [[-> Hm]%py_getitem_Raise | (m & _ & ?)]%bind_Raise; [|done].
    split; [done|]. by intros ? [= <-].
  - by intros [= <-].
Qed.

(** The mapping of the request raises [KeyError] only: for a missing
    required key, or for a missing median. *)
Lemma map_input_Raise self pd e :
  map_input self pd = Raise e →
  e = KeyError ∧
  ((∃ k : string,
      k ∈ ["property_type"; "location"; "bedrooms"; "bathrooms"] ∧
      pd !! k = None)
   ∨ ∀ medians, stats_median_values (stats self) = Some medians →
                medians !! "House size" = None ∨ medians !! "Land size" = None).
Proof.
  unfold map_input.
  intros [[-> Hk]%py_getitem_Raise | (pt & _ & Hmap)]%bind_Raise.
  { split; [done|]. left. exists "property_type". split; [set_solver | done]. }
  apply bind_Raise in Hmap as [[-> Hk]%py_getitem_Raise | (loc & _ & Hmap)].
  { split; [done|]. left. exists "location". split; [set_solver | done]. }
  apply bind_Raise in Hmap as [[-> Hk]%py_getitem_Raise | (bed & _ & Hmap)].
  { split; [done|]. left. exists "bedrooms". split; [set_solver | done]. }
  apply bind_Raise in Hmap as [[-> Hk]%py_getitem_Raise | (bath & _ & Hmap)].
  { split; [done|]. left. exists "bathrooms". split; [set_solver | done]. }
  apply bind_Raise in Hmap as [[-> Hm]%median_value_Raise | (mh & _ & Hmap)].
  { split; [done|]. right. intros medians Hmed. left. by apply Hm. }
  apply bind_Raise in Hmap as [[-> Hm]%median_value_Raise | (ml & _ & ?)];
    [|done].
  split; [done|]. right. intros medians Hmed. right. by apply Hm.
Qed.

(** Feature engineering on a mapped record raises from its two arithmetic
    operations only. *)
Lemma engineer_features_Raise self data e
    (bathroom Bedroom Location propertyType : pyval F) :
  data !! "bathroom" = Some bathroom → data !! "Bedroom" = Some Bedroom →
  data !! "Location" = Some Location →
  data !! "propertyType" = Some propertyType →
  engineer_features self data = Raise e →
  py_truediv bathroom Bedroom = Raise e
  ∨ py_add (py_get data "House size" (VInt 0))
           (py_get data "Land size" (VInt 0)) = Raise e.
Proof.
  intros Hbath Hbed Hloc Hpt. unfold engineer_features.
  rewrite (proj2 (py_getitem_Return _ _ _) Hbath),
          (proj2 (py_getitem_Return _ _ _) Hbed).
  cbn [mbind outcome_bind].
  intros [Hdiv | (ratio & _ & Heng)]%bind_Raise; [by left|].
  unfold py_get in Heng. rewrite !lookup_insert_ne in Heng by done.
  apply bind_Raise in Heng as [Hadd | (total & _ & Heng)]; [by right|].
  unfold py_getitem in Heng. rewrite !lookup_insert_ne in Heng by done.
  rewrite Hloc in Heng. cbn [mbind outcome_bind] in Heng.
  rewrite !lookup_insert_ne in Heng by done. by rewrite Hpt in Heng.
Qed.

Lemma encode_Raise self data e :
  encode self data = Raise e → e = KeyError ∨ e = ValueError.
Proof.
  unfold encode.
  intros [[-> _]%py_getitem_Raise | (pt & _ & Henc)]%bind_Raise; [by left|].
  apply bind_Raise in Henc as [->%transform_Raise | (c1 & _ & Henc)];
    [by right|].
  apply bind_Raise in Henc as [[-> _]%py_getitem_Raise | (loc & _ & Henc)];
    [by left|].
  apply bind_Raise in Henc as [->%transform_Raise | (c2 & _ & ?)];
    [by right | done].
Qed.

Lemma check_array_Raise X e :
  check_array X = Raise e →
  e = ValueError ∧ ∃ v, v ∈ X ∧ is_number v = false.
Proof.
  intros (v & Hv & Hraise)%for_each_Raise.
  destruct v; try done; injection Hraise as <-; eauto.
Qed.

(** The failures of [prepare_input], step by step. *)
Lemma prepare_input_Raise self pd w e w1 :
  prepare_input self pd w = (Raise e, w1) →
  map_input self pd = Raise e ∧ w1 = w
  ∨ (∃ data, map_input self pd = Return data ∧
             engineer_features self data = Raise e ∧ w1 = w)
  ∨ ∃ data, engineered self pd data ∧
      (encode self data = Raise ValueError ∧ e = ValueError ∧
         w1 = w ++ [LogError "Encoding error" ValueError]
       ∨ encode self data = Raise KeyError ∧ e = KeyError ∧ w1 = w
       ∨ ∃ df, encode self data = Return df ∧
               for_each (py_getitem df) (feature_names self) = Raise e ∧
               w1 = w).
Proof.
  rewrite prepare_input_run. unfold engineered.
  destruct (map_input self pd) as [data0|e0] eqn:Hmap;
    [|intros [= <- <-]; by left].
  cbn [mbind outcome_bind].
  destruct (engineer_features self data0) as [data|e0] eqn:Heng;
    [|intros [= <- <-]; right; left; by exists data0].
  intros Hrun. right. right. exists data. split; [done|].
  destruct (encode self data) as [df|e0] eqn:Henc.
  - injection Hrun as Hfor <-. right. right. by exists df.
  - destruct (encode_Raise _ _ _ Henc) as [-> | ->].
    + injection Hrun as <- <-. right. by left.
    + injection Hrun as <- <-. by left.
Qed.

(** The failures of [predict_with_confidence]: those of [prepare_input],
    a frame that the models' validation rejects, and missing metrics. *)
Lemma predict_with_confidence_Raise self pd w e w' :
  predict_with_confidence self pd w = (Raise e, w') →
  (∃ w1, prepare_input self pd w = (Raise e, w1) ∧
         w' = w1 ++ [LogError "Prediction error" e])
  ∨ ∃ X, prepare_input self pd w = (Return X, w) ∧
         w' = w ++ [LogError "Prediction error" e] ∧
         (check_array X = Raise e
          ∨ e = KeyError ∧ stats_metrics (stats self) = None).
Proof.
  destruct (prepare_input self pd w) as [[X|e0] w1] eqn:HX.
  - destruct (prepare_input_Return _ _ _ _ _ HX) as [-> _].
    unfold predict_with_confidence, try_except.
    unfold mbind at 1. unfold M_bind. rewrite HX.
    destruct (check_array X) as [row|e0] eqn:Hrow.
    + rewrite (for_each_sk _ _ _ Hrow).
      unfold lift, ensemble_predict, sk, stats_metrics_item. rewrite Hrow.
      cbn [mbind outcome_bind mret outcome_ret].
      destruct (stats_metrics (stats self)); [done|].
      intros [= <- <-]. right. exists X. eauto.
    + unfold lift, ensemble_predict, sk. rewrite Hrow.
      intros [= <- <-]. right. exists X. eauto.
  - rewrite (predict_with_confidence_prepare_Raise _ _ _ _ _ HX).
    intros [= <- <-]. left. by exists w1.
Qed.

(** An exception other than [KeyError] and [ValueError] comes from the
    arithmetic of feature engineering on the values of the request. *)
Lemma arithmetic_error_source self pd w e w' :
  predict_with_confidence self pd w = (Raise e, w') →
  e ≠ KeyError → e ≠ ValueError →
  ∃ (bedrooms bathrooms : pyval F) (mh ml : F),
    pd !! "bedrooms" = Some bedrooms ∧ pd !! "bathrooms" = Some bathrooms ∧
    (py_truediv bathrooms bedrooms = Raise e
     ∨ py_add (py_get pd "house_size" (VFloat mh))
              (py_get pd "land_size" (VFloat ml)) = Raise e).
Proof.
  intros [(w1 & Hprep & _) | (X & _ & _ & [[-> _]%check_array_Raise | [-> _]])]
    %predict_with_confidence_Raise Hkey Hvalue; [|done..].
  apply prepare_input_Raise in Hprep
    as [[[-> _]%map_input_Raise _] | [(data & Hmap & Heng & _) | Henc]];
    [done| |].
  - apply map_input_Return in Hmap
      as (pt & loc & bed & bath & medians & mh & ml & _ & _ & Hbed & Hbath & _
          & _ & _ & Hdpt & Hdloc & Hdbed & Hdbath & Hdh & Hdl).
    exists bed, bath, mh, ml. do 2 (split; [done|]).
    destruct (engineer_features_Raise _ _ _ _ _ _ _ Hdbath Hdbed Hdloc Hdpt
                Heng) as [Hdiv | Hadd]; [by left|].
    rewrite (py_get_Some _ _ _ _ Hdh), (py_get_Some _ _ _ _ Hdl) in Hadd.
    by right.
  - destruct Henc as (data & _ & [(_ & -> & _) | [(_ & -> & _) | Hfor]]);
      [done..|].
    destruct Hfor as (df & _ & (x & _ & [-> _]%py_getitem_Raise)%for_each_Raise
                      & _).
    done.
Qed.
End Exceptions.

(** [ZeroDivisionError] has one cause: whenever [predict_with_confidence]
    raises it, the request holds a number of bathrooms and a number of
    bedrooms that is zero. *)
Theorem ZeroDivisionError_only_for_zero_bedrooms {F : Type} `{Num F}
    (self : PropertyPricePredictor F) (pd : dict F) (w w' : world) :
  predict_with_confidence self pd w = (Raise ZeroDivisionError, w') →
  ∃ bedrooms bathrooms : pyval F,
    pd !! "bedrooms" = Some bedrooms ∧ pd !! "bathrooms" = Some bathrooms ∧
    is_number bathrooms = true ∧ is_number bedrooms = true ∧
    py_truthy bedrooms = false.
Proof.
  intros Hraise.
  destruct (arithmetic_error_source _ _ _ _ _ Hraise)
    as (bed & bath & mh & ml & Hbed & Hbath & [Hdiv | Hadd]); [done..| |].
  - exists bed, bath. do 2 (split; [done|]).
    by destruct (py_truediv_Raise _ _ _ Hdiv) as [(_ & ? & ? & ?) | [? _]].
  - by destruct (py_add_Raise _ _ _ Hadd).
Qed.

Lemma ZeroDivisionError_only_for_zero_bedrooms_witness :
  ∃ bedrooms bathrooms : pyval float,
    request "Apartment" "Kilimani" 0 2 None None !! "bedrooms"
    = Some bedrooms ∧
    request "Apartment" "Kilimani" 0 2 None None !! "bathrooms"
    = Some bathrooms ∧
    is_number bathrooms = true ∧ is_number bedrooms = true ∧
    py_truthy bedrooms = false.
Proof.
  apply (ZeroDivisionError_only_for_zero_bedrooms (F:=float)
           scenario_predictor _ []
           [LogError "Prediction error" ZeroDivisionError]).
  reflexivity.
Defined.

(** [TypeError] has one cause: whenever [predict_with_confidence] raises
    it, one of [bedrooms], [bathrooms], [house_size] and [land_size] is in
    the request with a value that is no number ([None] included). *)
Theorem TypeError_only_for_non_number {F : Type} `{Num F}
    (self : PropertyPricePredictor F) (pd : dict F) (w w' : world) :
  predict_with_confidence self pd w = (Raise TypeError, w') →
  ∃ (k : string) (v : pyval F),
    k ∈ ["bedrooms"; "bathrooms"; "house_size"; "land_size"] ∧
    pd !! k = Some v ∧ is_number v = false.
Proof.
  intros Hraise.
  destruct (arithmetic_error_source _ _ _ _ _ Hraise)
    as (bed & bath & mh & ml & Hbed & Hbath & [Hdiv | Hadd]); [done..| |].
  - destruct (py_truediv_Raise _ _ _ Hdiv) as [[? _] | [_ [Hn | Hn]]]; [done| |].
    + exists "bathrooms", bath. split; [set_solver | done].
    + exists "bedrooms", bed. split; [set_solver | done].
  - destruct (py_add_Raise _ _ _ Hadd) as [_ [Hn | Hn]]; unfold py_get in Hn.
    + destruct (pd !! "house_size") as [v|] eqn:Hv; [|done].
      exists "house_size", v. split; [set_solver | done].
    + destruct (pd !! "land_size") as [v|] eqn:Hv; [|done].
      exists "land_size", v. split; [set_solver | done].
Qed.

Lemma TypeError_only_for_non_number_witness :
  ∃ (k : string) (v : pyval float),
    k ∈ ["bedrooms"; "bathrooms"; "house_size"; "land_size"] ∧
    <["land_size" := VNone]> kilimani_apartment !! k = Some v ∧
    is_number v = false.
Proof.
  apply (TypeError_only_for_non_number (F:=float) scenario_predictor _ []
           [LogError "Prediction error" TypeError]).
  reflexivity.
Defined.

Section EncodedFrame.
Context {F : Type} `{Num F}.
Local Open Scope num_scope.
Implicit Types (self : PropertyPricePredictor F) (pd data : dict F).
Implicit Types (w : world) (X : list (pyval F)) (e : exn).

(** The encoded record has the ten feature columns. *)
Lemma encoded_frame_columns self pd data df :
  engineered self pd data → encode self data = Return df →
  ∀ name, name ∈ feature_columns → is_Some (df !! name).
Proof.
  intros Hdata Henc.
  destruct (engineered_inv _ _ _ Hdata) as (data0 & Hmap & Heng).
  unfold map_input in Hmap.
  apply bind_Return in Hmap as (pt & Hpt & Hmap).
  apply bind_Return in Hmap as (loc & Hloc & Hmap).
  apply bind_Return in Hmap as (bed & Hbed & Hmap).
  apply bind_Return in Hmap as (bath & Hbath & Hmap).
  apply bind_Return in Hmap as (vh & Hvh & Hmap).
  apply bind_Return in Hmap as (vl & Hvl & Hmap).
  apply median_value_Return in Hvh as (medians & mh & Hmed & Hmh & ->).
  apply median_value_Return in Hvl as (medians' & ml & Hmed' & Hml & ->).
  injection Hmap as Hdata0.
  assert (data0 !! "bathroom" = Some bath) as Dbath by by rewrite <- Hdata0.
  assert (data0 !! "Bedroom" = Some bed) as Dbed by by rewrite <- Hdata0.
  assert (data0 !! "House size" = Some (py_get pd "house_size" (VFloat mh)))
    as Dhouse by by rewrite <- Hdata0.
  assert (data0 !! "Land size" = Some (py_get pd "land_size" (VFloat ml)))
    as Dland by by rewrite <- Hdata0.
  apply engineer_features_Return in Heng
    as (bath' & bed' & ratio & total & loc' & pt' & Hbath' & Hbed' & Hratio
        & Htotal & _ & _ & Hdata').
  rewrite (py_get_Some _ _ _ _ Dhouse), (py_get_Some _ _ _ _ Dland) in Htotal.
  assert (bath' = bath) as -> by congruence.
  assert (bed' = bed) as -> by congruence.
  clear Dbath Dbed Dhouse Dland Hbath' Hbed'.
  unfold encode in Henc.
  apply bind_Return in Henc as (? & _ & Henc).
  apply bind_Return in Henc as (c1 & Hc1 & Henc).
  apply bind_Return in Henc as (? & _ & Henc).
  apply bind_Return in Henc as (c2 & Hc2 & Henc).
  apply transform_Return in Hc1 as (? & i1 & _ & -> & _).
  apply transform_Return in Hc2 as (? & i2 & _ & -> & _).
  injection Henc as <-. subst data data0.
  intros name Hname. unfold feature_columns in Hname.
  repeat (apply elem_of_cons in Hname as [->|Hname]);
    [..|by apply elem_of_nil in Hname]; by eexists.
Qed.

Lemma transform_Raise_unseen (le : LabelEncoder) (v : pyval F) e :
  transform le v = Raise e → ¬ in_vocabulary le v.
Proof.
  intros Hraise (s & i & _ & Hret & _)%transform_seen. congruence.
Qed.

Lemma encode_Raise_unseen self data e (propertyType Location : pyval F) :
  data !! "propertyType" = Some propertyType →
  data !! "Location" = Some Location →
  encode self data = Raise e →
  e = ValueError ∧
  (¬ in_vocabulary (le_property self) propertyType
   ∨ ¬ in_vocabulary (le_location self) Location).
Proof.
  intros Hpt%py_getitem_Return Hloc%py_getitem_Return. unfold encode.
  rewrite Hpt, Hloc. cbn [mbind outcome_bind].
  intros [Hc1 | (c1 & _ & [Hc2 | (c2 & _ & ?)]%bind_Raise)]%bind_Raise;
    [| |done].
  - split; [by eapply transform_Raise | left; by eapply transform_Raise_unseen].
  - split; [by eapply transform_Raise | right; by eapply transform_Raise_unseen].
Qed.
End EncodedFrame.

(** [prepare_input] raises [ValueError] for one cause only: whenever it
    does, the property type or the location of the request is no label of
    the trained vocabulary, and exactly one record "Encoding error" has been
    added to the log. Neither the arithmetic of feature engineering nor the
    selection of the columns raises this class. *)
Theorem ValueError_of_prepare_input_only_for_unseen_label {F : Type} `{Num F}
    (self : PropertyPricePredictor F) (pd : dict F) (w w' : world) :
  prepare_input self pd w = (Raise ValueError, w') →
  ((∃ t, pd !! "property_type" = Some t ∧
         ¬ in_vocabulary (le_property self) t)
   ∨ (∃ l, pd !! "location" = Some l ∧
           ¬ in_vocabulary (le_location self) l)) ∧
  w' = w ++ [LogError "Encoding error" ValueError].
Proof.
  intros Hprep.
  apply prepare_input_Raise in Hprep
    as [[[? _]%map_input_Raise _] | [(data & Hmap & Heng & _) | Henc]];
    [done| |].
  - apply map_input_Return in Hmap
      as (pt & loc & bed & bath & medians & mh & ml & _ & _ & _ & _ & _
          & _ & _ & Hdpt & Hdloc & Hdbed & Hdbath & _).
    destruct (engineer_features_Raise _ _ _ _ _ _ _ Hdbath Hdbed Hdloc Hdpt
                Heng) as [Hdiv | Hadd].
    + by destruct (py_truediv_Raise _ _ _ Hdiv) as [[? _] | [? _]].
    + by destruct (py_add_Raise _ _ _ Hadd).
  - destruct Henc as (data & Hdata & [(Henc & _ & ->) | [(_ & ? & _) | Hfor]]);
      [|done|].
    + destruct (engineered_categories _ _ _ Hdata)
        as (pt & loc & Hpt & Hloc & Hdpt & Hdloc).
      destruct (encode_Raise_unseen _ _ _ _ _ Hdpt Hdloc Henc)
        as [_ [Hun | Hun]]; (split; [|done]); [left | right]; eauto.
    + destruct Hfor as (df & _ & (x & _ & [? _]%py_getitem_Raise)
                        %for_each_Raise & _).
      done.
Qed.

Lemma ValueError_of_prepare_input_only_for_unseen_label_witness :
  let pd : dict float :=
    request "Apartment" "Atlantis" 3 2 (Some 150%float) None in
  ((∃ t, pd !! "property_type" = Some t ∧
         ¬ in_vocabulary (le_property (F:=float) scenario_predictor) t)
   ∨ (∃ l, pd !! "location" = Some l ∧
           ¬ in_vocabulary (le_location (F:=float) scenario_predictor) l)) ∧
  [LogError "Encoding error" ValueError]
  = [] ++ [LogError "Encoding error" ValueError].
Proof.
  intros pd.
  apply (ValueError_of_prepare_input_only_for_unseen_label (F:=float)
           scenario_predictor pd []
           [LogError "Encoding error" ValueError]).
  reflexivity.
Defined.

(** [KeyError] never blames the optional fields: whenever
    [predict_with_confidence] raises it, the request lacks one of
    [property_type], [location], [bedrooms] and [bathrooms], or the loaded
    artefacts are not well formed (a median or the metrics are missing, or
    a feature name is no column of the frame). *)
Theorem KeyError_only_for_missing_key_or_artefact {F : Type} `{Num F}
    (self : PropertyPricePredictor F) (pd : dict F) (w w' : world) :
  predict_with_confidence self pd w = (Raise KeyError, w') →
  (∃ k : string,
     k ∈ ["property_type"; "location"; "bedrooms"; "bathrooms"] ∧
     pd !! k = None)
  ∨ ¬ well_formed self.
Proof.
  intros [(w1 & Hprep & _) | (X & HX & _ & [Hcheck | [_ Hmetrics]])]
    %predict_with_confidence_Raise.
  - apply prepare_input_Raise in Hprep
      as [[[_ [Hk | Hm]]%map_input_Raise _] | [(data & Hmap & Heng & _) | Henc]].
    + by left.
    + right. intros ((medians & Hmed & [mh Hmh] & [ml Hml]) & _).
      destruct (Hm medians Hmed); congruence.
    + apply map_input_Return in Hmap
        as (pt & loc & bed & bath & medians & mh & ml & _ & _ & _ & _ & _
            & _ & _ & Hdpt & Hdloc & Hdbed & Hdbath & _).
      destruct (engineer_features_Raise _ _ _ _ _ _ _ Hdbath Hdbed Hdloc Hdpt
                  Heng) as [Hdiv | Hadd].
      * by destruct (py_truediv_Raise _ _ _ Hdiv) as [[? _] | [? _]].
      * by destruct (py_add_Raise _ _ _ Hadd).
    + destruct Henc as (data & Hdata & [(_ & ? & _) | [(Henc & _) | Hfor]]);
        [done| |].
      * destruct (engineered_categories _ _ _ Hdata)
          as (pt & loc & Hpt & Hloc & Hdpt & Hdloc).
        by destruct (encode_Raise_unseen _ _ _ _ _ Hdpt Hdloc Henc).
      * destruct Hfor as (df & Henc & (name & Hname & [_ Hnone]%py_getitem_Raise)
                          %for_each_Raise & _).
        right. intros (_ & _ & Hnames).
        destruct (encoded_frame_columns _ _ _ _ Hdata Henc name
                    (Hnames name Hname)) as [v Hv].
        congruence.
  - by apply check_array_Raise in Hcheck as [? _].
  - right. intros (_ & [m Hm] & _). congruence.
Qed.

Lemma KeyError_only_for_missing_key_or_artefact_witness :
  let pd : dict float := delete "bathrooms" kilimani_apartment in
  (∃ k : string,
     k ∈ ["property_type"; "location"; "bedrooms"; "bathrooms"] ∧
     pd !! k = None)
  ∨ ¬ well_formed (F:=float) scenario_predictor.
Proof.
  intros pd.
  apply (KeyError_only_for_missing_key_or_artefact (F:=float)
           scenario_predictor pd [] [LogError "Prediction error" KeyError]).
  reflexivity.
Defined.

(** Both medians are read before the request is looked at: when a median
    is missing from the statistics, a request that has the four required
    keys raises [KeyError] whatever its sizes are, also when it supplies
    both of them. *)
Theorem missing_median_raises_KeyError {F : Type} `{Num F}
    (self : PropertyPricePredictor F) (pd : dict F) (w : world) :
  is_Some (pd !! "property_type") → is_Some (pd !! "location") →
  is_Some (pd !! "bedrooms") → is_Some (pd !! "bathrooms") →
  (∀ medians, stats_median_values (stats self) = Some medians →
              medians !! "House size" = None ∨ medians !! "Land size" = None) →
  predict_with_confidence self pd w
  = (Raise KeyError, w ++ [LogError "Prediction error" KeyError]).
Proof.
  intros [pt Hpt] [loc Hloc] [bed Hbed] [bath Hbath] Hmedians.
  apply predict_with_confidence_prepare_Raise.
  rewrite prepare_input_run.
  assert (map_input self pd = Raise KeyError) as ->; [|done].
  unfold map_input, median_value, py_getitem.
  rewrite Hpt, Hloc, Hbed, Hbath. cbn [mbind outcome_bind].
  destruct (stats_median_values (stats self)) as [medians|]; [|done].
  destruct (Hmedians medians eq_refl) as [-> | Hml]; [done|].
  destruct (medians !! "House size"); [|done].
  cbn [mbind outcome_bind]. by rewrite Hml.
Qed.

Lemma missing_median_raises_KeyError_witness :
  is_Some (kilimani_apartment (F:=float) !! "house_size") ∧
  is_Some (kilimani_apartment (F:=float) !! "land_size") ∧
  predict_with_confidence (F:=float)
    (with_stats (without_medians (stats scenario_predictor))
                scenario_predictor)
    kilimani_apartment []
  = (Raise KeyError, [LogError "Prediction error" KeyError]).
Proof.
  split; [by eexists|]. split; [by eexists|].
  apply (missing_median_raises_KeyError (F:=float)
           (with_stats (without_medians (stats scenario_predictor))
                       scenario_predictor) kilimani_apartment []);
    try by eexists.
  intros medians [=].
Defined.

(** What a prediction logs: nothing when it returns; when it raises, one
    record "Prediction error" with the exception raised, preceded by one
    record "Encoding error" exactly when [prepare_input] has logged it (then
    the exception is [ValueError]). No other record is written, and none is
    removed. *)
Theorem prediction_log_records {F : Type} `{Num F}
    (self : PropertyPricePredictor F) (pd : dict F) (w : world) :
  ∃ (o : outcome (PredictionResult F)) (l : list log_record),
    predict_with_confidence self pd w = (o, w ++ l) ∧
    match o with
    | Return _ => l = []
    | Raise e =>
        l = [LogError "Prediction error" e]
        ∨ e = ValueError ∧
          l = [LogError "Encoding error" ValueError;
               LogError "Prediction error" ValueError]
    end.
Proof.
  destruct (predict_with_confidence self pd w) as [[res|e] w'] eqn:Hrun.
  - apply predict_with_confidence_Return in Hrun as (X & row & HX & _).
    apply prepare_input_Return in HX as [-> _].
    exists (Return res), []. by rewrite app_nil_r.
  - exists (Raise e).
    apply predict_with_confidence_Raise in Hrun
      as [(w1 & Hprep & ->) | (X & _ & -> & _)]; [|eexists; eauto].
    apply prepare_input_Raise in Hprep
      as [[_ ->] | [(data & _ & _ & ->) | (data & _ & Henc)]];
      [eexists; eauto..|].
    destruct Henc as [(_ & -> & ->) | [(_ & _ & ->) | (df & _ & _ & ->)]];
      [|eexists; eauto..].
    eexists. rewrite <- app_assoc. split; [done|]. by right.
Qed.

(** ** The result in binary64 *)

(** In binary64, whenever the mean of the three candidates (the forest's
    prediction, the boosted model's one and the ensemble price) is not
    greater than 0, and so also when it is NaN, the confidence score of
    the returned prediction is exactly 0: the coefficient of variation is
    then taken as 1, whatever the spread of the candidates. *)
Theorem confidence_zero_when_mean_not_positive
    (self : PropertyPricePredictor float) (pd : dict float) (w w' : world)
    (res : PredictionResult float) :
  predict_with_confidence self pd w = (Return res, w') →
  ∃ X row,
    prepare_input self pd w = (Return X, w') ∧
    check_array X = Return row ∧
    (PrimFloat.ltb 0
       (np_mean [rf_predict (rf (models self)) row;
                 gb_predict (models self) row;
                 predicted_price res]) = false →
     confidence_score res = 0%float).
Proof.
  intros (X & row & HX & Hrow & Hprice & Hconf & _)
    %predict_with_confidence_Return.
  exists X, row. do 2 (split; [done|]). cbn zeta in *.
  rewrite <- Hprice in Hconf. rewrite Hconf.
  cbn [fltb float_Num]. change (of_Z (F:=float) 0) with 0%float.
  by intros ->.
Qed.

Lemma confidence_zero_when_mean_not_positive_witness :
  ∃ res w',
    predict_with_confidence (F:=float) negative_mean_predictor
      kilimani_apartment []
    = (Return res, w') ∧
    predicted_price res = (-1000000)%float ∧
    confidence_score res = 0%float.
Proof.
  eexists _, _. split; [reflexivity|]. split; [reflexivity|].
  edestruct (confidence_zero_when_mean_not_positive negative_mean_predictor
               kilimani_apartment [])
    as (X & row & _ & _ & Hzero); [reflexivity|].
  apply Hzero. reflexivity.
Defined.

(** In binary64 the lower bound of the interval of every returned
    prediction is at least 0, and so is no NaN: [max(0, x)] keeps 0 unless
    [0 < x] holds. *)
Theorem price_range_min_binary64_nonneg (self : PropertyPricePredictor float)
    (pd : dict float) (w w' : world) (res : PredictionResult float) :
  predict_with_confidence self pd w = (Return res, w') →
  PrimFloat.leb 0 (price_range_min res) = true.
Proof.
  intros (X & row & _ & _ & _ & _ & -> & _)%predict_with_confidence_Return.
  cbn zeta. unfold py_max. cbn [fltb float_Num].
  change (of_Z (F:=float) 0) with 0%float.
  destruct (PrimFloat.ltb 0 _) eqn:Hlt; [by apply float_ltb_leb | done].
Qed.

Lemma price_range_min_binary64_nonneg_witness :
  ∃ res w',
    predict_with_confidence (F:=float) negative_predictor kilimani_apartment []
    = (Return res, w') ∧
    PrimFloat.leb 0 (price_range_min res) = true.
Proof.
  eexists _, _. split; [reflexivity|].
  eapply (price_range_min_binary64_nonneg negative_predictor
            kilimani_apartment [] []).
  reflexivity.
Defined.

(** ** The dictionary of feature importances *)

Section OrderedDict.
Context {V : Type}.
Implicit Types (d pairs : list (string * V)) (k : string) (v : V).

Lemma odict_set_fresh d k v : k ∉ d.*1 → odict_set d k v = d ++ [(k, v)].
Proof.
  induction d as [|[k' v'] d IH]; [done|]. cbn [odict_set fmap list_fmap fst].
  intros [Hne Hk]%not_elem_of_cons.
  destruct (String.eqb k' k) eqn:Heq.
  - apply String.eqb_eq in Heq. by destruct Hne.
  - cbn [app]. by rewrite IH.
Qed.

Lemma odict_set_keys d k v :
  k ∈ d.*1 → (odict_set d k v).*1 = d.*1.
Proof.
  induction d as [|[k' v'] d IH]; [by intros ?%elem_of_nil|].
  cbn [odict_set fmap list_fmap fst].
  destruct (String.eqb k' k) eqn:Heq.
  - apply String.eqb_eq in Heq as ->. done.
  - apply String.eqb_neq in Heq.
    intros [-> | Hk]%elem_of_cons; [done|].
    cbn [fmap list_fmap fst]. f_equal. by apply IH.
Qed.

Lemma odict_set_NoDup d k v : NoDup d.*1 → NoDup (odict_set d k v).*1.
Proof.
  intros Hd. destruct (decide (k ∈ d.*1)) as [Hk|Hk].
  - by rewrite odict_set_keys.
  - rewrite odict_set_fresh, fmap_app by done. apply NoDup_app.
    split; [done|]. split; [|apply NoDup_singleton].
    intros x Hx ->%list_elem_of_singleton. done.
Qed.

Lemma odict_set_elem_of d k v (x : string * V) :
  x ∈ odict_set d k v → x = (k, v) ∨ x ∈ d.
Proof.
  induction d as [|[k' v'] d IH]; cbn [odict_set].
  - intros ->%list_elem_of_singleton. by left.
  - destruct (String.eqb k' k).
    + intros [-> | Hx]%elem_of_cons; [by left|].
      right. by apply list_elem_of_further.
    + intros [-> | Hx]%elem_of_cons; [right; apply list_elem_of_here|].
      destruct (IH Hx) as [-> | Hd]; [by left|].
      right. by apply list_elem_of_further.
Qed.

Lemma foldl_odict_set_NoDup pairs d :
  NoDup d.*1 → NoDup (foldl (λ d kv, odict_set d kv.1 kv.2) d pairs).*1.
Proof.
  revert d. induction pairs as [|[k v] pairs IH]; intros d Hd; [done|].
  cbn [foldl]. by apply IH, odict_set_NoDup.
Qed.

Lemma foldl_odict_set_elem_of pairs d (x : string * V) :
  x ∈ foldl (λ d kv, odict_set d kv.1 kv.2) d pairs → x ∈ d ∨ x ∈ pairs.
Proof.
  revert d. induction pairs as [|[k v] pairs IH]; intros d; [by left|].
  cbn [foldl]. intros [[-> | Hd]%odict_set_elem_of | Hp]%IH.
  - right. apply list_elem_of_here.
  - by left.
  - right. by apply list_elem_of_further.
Qed.

Lemma foldl_odict_set_fresh pairs d :
  NoDup (d.*1 ++ pairs.*1) →
  foldl (λ d kv, odict_set d kv.1 kv.2) d pairs = d ++ pairs.
Proof.
  revert d. induction pairs as [|[k v] pairs IH]; intros d Hd.
  - by rewrite app_nil_r.
  - cbn [foldl fmap list_fmap fst snd] in *.
    apply NoDup_app in Hd as Hd'. destruct Hd' as (_ & Hdisj & _).
    rewrite odict_set_fresh.
    + rewrite IH; [by rewrite <- app_assoc|].
      by rewrite fmap_app, <- app_assoc.
    + intros Hk. apply (Hdisj k Hk), list_elem_of_here.
Qed.

(** A dictionary comprehension keeps one entry for each key. *)
Lemma odict_of_pairs_NoDup pairs : NoDup (odict_of_pairs pairs).*1.
Proof. apply foldl_odict_set_NoDup, NoDup_nil_2. Qed.

Lemma odict_of_pairs_elem_of pairs (x : string * V) :
  x ∈ odict_of_pairs pairs → x ∈ pairs.
Proof.
  by intros [?%elem_of_nil | ?]%foldl_odict_set_elem_of.
Qed.

Lemma odict_of_pairs_fresh pairs :
  NoDup pairs.*1 → odict_of_pairs pairs = pairs.
Proof. intros Hp. by apply (foldl_odict_set_fresh pairs []). Qed.

Lemma zip_fst_elem_of {A B : Type} (l : list A) (k : list B) (x : A) :
  x ∈ (zip l k).*1 → x ∈ l.
Proof.
  revert k. induction l as [|a l IH]; intros [|b k]; cbn;
    try by intros ?%elem_of_nil.
  intros [-> | Hx]%elem_of_cons; [apply list_elem_of_here|].
  apply list_elem_of_further. by eapply IH.
Qed.

Lemma zip_fst_NoDup {A B : Type} (l : list A) (k : list B) :
  NoDup l → NoDup (zip l k).*1.
Proof.
  intros Hl. revert k. induction Hl as [|a l Ha Hl IH]; intros [|b k]; cbn;
    try apply NoDup_nil_2.
  apply NoDup_cons. split; [|apply IH].
  intros Hin. by apply Ha, (zip_fst_elem_of l k).
Qed.
End OrderedDict.

(** The feature importances of a returned prediction name each feature at
    most once, every entry pairs a feature name with the forest's importance
    at the same position, and when the feature names are distinct the
    dictionary is the zip of the names with the importances, in the order of
    the names (cut at the shorter of the two lists). *)
Theorem feature_importance_zip {F : Type} `{Num F}
    (self : PropertyPricePredictor F) (pd : dict F) (w w' : world)
    (res : PredictionResult F) :
  predict_with_confidence self pd w = (Return res, w') →
  let pairs :=
    zip (feature_names self) (feature_importances_ (rf (models self))) in
  NoDup (feature_importance res).*1 ∧
  (∀ name x, (name, x) ∈ feature_importance res →
             ∃ i : nat, feature_names self !! i = Some name ∧
                        feature_importances_ (rf (models self)) !! i = Some x) ∧
  (NoDup (feature_names self) → feature_importance res = pairs).
Proof.
  intros (X & row & _ & _ & _ & _ & _ & _ & ->)%predict_with_confidence_Return.
  intros pairs. split; [apply odict_of_pairs_NoDup|]. split.
  - intros name x Hin%odict_of_pairs_elem_of.
    apply list_elem_of_lookup_1 in Hin as [i Hi]. exists i.
    by apply lookup_zip_with_Some in Hi as (? & ? & [= <- <-] & ? & ?).
  - intros Hnames. apply odict_of_pairs_fresh. by apply zip_fst_NoDup.
Qed.

Lemma feature_importance_zip_witness :
  ∃ res,
    predict_with_confidence (F:=float) scenario_predictor kilimani_apartment []
    = (Return res, []) ∧
    feature_importance res
    = zip (feature_names (F:=float) scenario_predictor)
          (feature_importances_ (rf (models (F:=float) scenario_predictor))).
Proof.
  eexists. split; [reflexivity|].
  apply (feature_importance_zip (F:=float) scenario_predictor
           kilimani_apartment [] []); [reflexivity|].
  apply (bool_decide_unpack _). reflexivity.
Defined.

(** ** Explaining a prediction *)

Section ExplainAfterPredict.
Context {F : Type} `{Num F}.
Variable str_float : F → string.
Variable format_0f : F → string.
Implicit Types (self : PropertyPricePredictor F) (pd : dict F).

Lemma py_format_0f_number (v : pyval F) :
  is_number v = true → ∃ s, py_format_0f format_0f v = Return s.
Proof. destruct v; try done; intros _; eauto. Qed.

(** [explain_prediction] returns once the request has its four required
    keys and a house size that is missing, falsy or a number. *)
Lemma explain_prediction_total pd (res : PredictionResult F) :
  is_Some (pd !! "location") → is_Some (pd !! "property_type") →
  is_Some (pd !! "bedrooms") → is_Some (pd !! "bathrooms") →
  (∀ v, pd !! "house_size" = Some v → py_truthy v = true →
        is_number v = true) →
  ∃ sentences,
    explain_prediction str_float format_0f pd res = Return sentences ∧
    length sentences
    = if py_truthy (py_get_none pd "house_size") then 5%nat else 4%nat.
Proof.
  intros [loc Hloc] [pt Hpt] [bed Hbed] [bath Hbath] Hhouse.
  unfold explain_prediction, py_getitem. rewrite Hloc, Hpt, Hbed, Hbath.
  cbn [mbind outcome_bind].
  unfold py_get_none, py_get.
  destruct (pd !! "house_size") as [v|] eqn:Hv; [|by eexists].
  destruct (py_truthy v) eqn:Htruthy; [|by eexists].
  cbn [mbind outcome_bind].
  destruct (py_format_0f_number v) as [s ->]; [by apply Hhouse|].
  by eexists.
Qed.
End ExplainAfterPredict.

(** Composition of the two calls of the view: after a returned prediction
    for a request whose house size is no string, [explain_prediction] on the
    same request raises nothing; it returns five sentences when the request
    has a truthy house size and four otherwise. *)
Theorem explain_prediction_after_predict {F : Type} `{Num F}
    (str_float format_0f : F → string)
    (self : PropertyPricePredictor F) (pd : dict F) (w w' : world)
    (res : PredictionResult F) :
  predict_with_confidence self pd w = (Return res, w') →
  (∀ s : string, pd !! "house_size" ≠ Some (VStr s)) →
  ∃ sentences,
    explain_prediction str_float format_0f pd res = Return sentences ∧
    length sentences
    = if py_truthy (py_get_none pd "house_size") then 5%nat else 4%nat.
Proof.
  intros (X & row & HX & Hrow & _)%predict_with_confidence_Return Hstr.
  apply prepare_input_Return in HX as (_ & data & Hdata & Hcol).
  destruct (engineered_categories _ _ _ Hdata)
    as (pt & loc & Hpt & Hloc & _).
  destruct (engineered_rooms _ _ _ Hdata)
    as (bed & bath & ratio & Hbed & Hbath & _).
  destruct (engineered_sizes _ _ _ Hdata)
    as (medians & mh & ml & total & _ & _ & _ & _ & _ & Hadd & _).
  apply explain_prediction_total; [by eexists..|].
  intros v Hv _. rewrite (py_get_Some _ _ _ _ Hv) in Hadd.
  apply py_add_Return in Hadd as [(? & _) | (s & t & -> & _)]; [done|].
  by destruct (Hstr s).
Qed.

Lemma explain_prediction_after_predict_witness :
  ∃ res,
    predict_with_confidence (F:=float) scenario_predictor kilimani_apartment []
    = (Return res, []) ∧
    ∃ sentences,
      explain_prediction (F:=float) (λ _, "150.0") (λ _, "150")
        kilimani_apartment res
      = Return sentences ∧
      length sentences = 5%nat.
Proof.
  eexists. split; [reflexivity|].
  edestruct (explain_prediction_after_predict (F:=float) (λ _, "150.0")
               (λ _, "150") scenario_predictor kilimani_apartment [] [])
    as (sentences & Hexpl & Hlen); [reflexivity| |].
  - by intros s [=].
  - exists sentences. split; [exact Hexpl | exact Hlen].
Defined.

(** * Properties of the views *)

(** ** [get_client_ip] *)

Lemma before_comma_comma_free (s : string) : comma_free (before_comma s) = true.
Proof.
  induction s as [|c s IH]; [done|]. cbn [before_comma].
  destruct (Ascii.eqb c comma) eqn:Hc; [done|].
  cbn [comma_free]. by rewrite Hc, IH.
Qed.

Lemma before_comma_split (s : string) :
  s = before_comma s ∨ ∃ rest, s = before_comma s +:+ String comma rest.
Proof.
  induction s as [|c s IH]; [by left|]. cbn [before_comma].
  destruct (Ascii.eqb c comma) eqn:Hc.
  - apply Ascii.eqb_eq in Hc as ->. right. by exists s.
  - destruct IH as [IH | [rest IH]].
    + left. by rewrite <- IH.
    + right. exists rest. exact (f_equal (String c) IH).
Qed.

Lemma append_String (c : Ascii.ascii) (s t : string) :
  String c s +:+ t = String c (s +:+ t).
Proof. reflexivity. Qed.

Lemma before_comma_first (ip rest : string) :
  comma_free ip = true → before_comma (ip +:+ String comma rest) = ip.
Proof.
  induction ip as [|c ip IH].
  - intros _. change ("" +:+ String comma rest) with (String comma rest).
    cbn [before_comma]. by rewrite Ascii.eqb_refl.
  - cbn [comma_free]. intros [Hc Hip]%andb_true_iff.
    apply negb_true_iff in Hc.
    rewrite append_String. cbn [before_comma]. by rewrite Hc, IH.
Qed.

(** The client address is the first entry of a non-empty
    [X-Forwarded-For] header: the text before its first comma, taken as it
    is (no blank is removed) and whatever [REMOTE_ADDR] holds; it is the
    whole header when that has no comma, and the empty text when the header
    starts with a comma. Without the header, or with an empty one, the
    address is [REMOTE_ADDR], which may be missing. *)
Theorem get_client_ip_first_forwarded (META : gmap string string) :
  (∀ header : string,
     META !! "HTTP_X_FORWARDED_FOR" = Some header → header ≠ "" →
     ∃ ip : string,
       get_client_ip META = Some ip ∧ comma_free ip = true ∧
       (header = ip ∨ ∃ rest, header = ip +:+ String comma rest)) ∧
  (∀ ip rest : string,
     comma_free ip = true →
     META !! "HTTP_X_FORWARDED_FOR" = Some (ip +:+ String comma rest) →
     get_client_ip META = Some ip) ∧
  (META !! "HTTP_X_FORWARDED_FOR" = None
   ∨ META !! "HTTP_X_FORWARDED_FOR" = Some "" →
   get_client_ip META = META !! "REMOTE_ADDR").
Proof.
  unfold get_client_ip. split; [|split].
  - intros header -> Hne.
    destruct (String.eqb header "") eqn:Heq;
      [by apply String.eqb_eq in Heq|].
    exists (before_comma header).
    split; [done|]. split; [apply before_comma_comma_free|].
    apply before_comma_split.
  - intros ip rest Hip ->.
    destruct (String.eqb _ "") eqn:Heq.
    + apply String.eqb_eq in Heq. by destruct ip.
    + by rewrite before_comma_first.
  - by intros [-> | ->].
Qed.

Lemma get_client_ip_first_forwarded_witness :
  get_client_ip {[ "HTTP_X_FORWARDED_FOR" := "203.0.113.7, 10.0.0.1";
                   "REMOTE_ADDR" := "10.0.0.1" ]}
  = Some "203.0.113.7" ∧
  get_client_ip {[ "REMOTE_ADDR" := "10.0.0.1" ]} = Some "10.0.0.1".
Proof.
  split.
  - apply (proj1 (proj2 (get_client_ip_first_forwarded _)) "203.0.113.7"
                 " 10.0.0.1"); reflexivity.
  - refine (eq_trans
              (proj2 (proj2 (get_client_ip_first_forwarded
                               {[ "REMOTE_ADDR" := "10.0.0.1" ]})) _) _);
      [left|]; reflexivity.
Defined.

(** ** [predict] *)

Section ViewFacts.
Context {F : Type} `{Num F}.
Context {Raw Errors Table : Type}.
Variable serializer : Raw → Errors + dict F.
Variable objects_create : PredictionRow F → Table → option (Z * Table).
Variable get_predictions : Raw → option (list Raw).
Variables str_float format_0f format_grouped_0f format_1f : F → string.
Variable predictor : PropertyPricePredictor F.
Implicit Types (request : HttpRequest Raw) (s : server Table).
Implicit Types (pd validated_data : dict F) (w : world).

Lemma view_property_data_Return validated_data pd :
  view_property_data validated_data = Return pd →
  ∃ property_type location bedrooms bathrooms,
    validated_data !! "property_type" = Some property_type ∧
    validated_data !! "location" = Some location ∧
    validated_data !! "bedrooms" = Some bedrooms ∧
    validated_data !! "bathrooms" = Some bathrooms ∧
    pd !! "property_type" = Some property_type ∧
    pd !! "location" = Some location ∧
    pd !! "bedrooms" = Some bedrooms ∧
    pd !! "bathrooms" = Some bathrooms ∧
    pd !! "house_size" = Some (py_get_none validated_data "house_size") ∧
    pd !! "land_size" = Some (py_get_none validated_data "land_size").
Proof.
  unfold view_property_data. intros Hview.
  apply bind_Return in Hview as (property_type & Hpt & Hview).
  apply bind_Return in Hview as (location & Hloc & Hview).
  apply bind_Return in Hview as (bedrooms & Hbed & Hview).
  apply bind_Return in Hview as (bathrooms & Hbath & Hview).
  apply py_getitem_Return in Hpt, Hloc, Hbed, Hbath.
  injection Hview as Hpd.
  exists property_type, location, bedrooms, bathrooms.
  do 4 (split; [done|]). by rewrite <- Hpd.
Qed.

(** [predict] in one case analysis. *)
Lemma predict_run request s :
  predict serializer objects_create str_float format_0f format_grouped_0f
    format_1f predictor request s
  = match serializer (data request) with
    | inl errors => (HTTP_400_BAD_REQUEST errors, s)
    | inr validated_data =>
        match view_property_data validated_data with
        | Raise e => predict_failed (EngineError e) (ml_log s) s
        | Return pd =>
            match predict_with_confidence predictor pd (ml_log s) with
            | (Raise e, w) => predict_failed (EngineError e) w s
            | (Return res, w) =>
                match explain_prediction str_float format_0f pd res with
                | Raise e => predict_failed (EngineError e) w s
                | Return explanations =>
                    match objects_create (view_row request pd res) (table s)
                    with
                    | None => predict_failed FrameworkError w s
                    | Some (id, table') =>
                        (HTTP_200_OK
                           {| body_prediction_id := id;
                              body_predicted_price := predicted_price res;
                              body_predicted_price_formatted :=
                                "KSh "
                                  +:+ format_grouped_0f (predicted_price res);
                              body_confidence_score := confidence_score res;
                              body_confidence_percentage :=
                                format_1f (confidence_score res * of_Z 100)%num
                                  +:+ "%";
                              body_price_range_min := price_range_min res;
                              body_price_range_max := price_range_max res;
                              body_price_range_min_formatted :=
                                "KSh "
                                  +:+ format_grouped_0f (price_range_min res);
                              body_price_range_max_formatted :=
                                "KSh "
                                  +:+ format_grouped_0f (price_range_max res);
                              body_explanations := explanations;
                              body_model_metrics := model_metrics res;
                              body_input_features := pd |},
                         {| ml_log := w; views_log := views_log s;
                            table := table' |})
                    end
                end
            end
        end
    end.
Proof.
  unfold predict. destruct (serializer (data request)) as [errors|vd]; [done|].
  unfold mbind at 1. unfold M_bind at 1. unfold lift at 1.
  destruct (view_property_data vd) as [pd|e] eqn:Hview; [|done].
  apply view_property_data_Return in Hview
    as (pt & loc & bed & bath & _ & _ & _ & _ & Hpt & Hloc & Hbed & Hbath & _).
  unfold mbind at 1. unfold M_bind at 1.
  destruct (predict_with_confidence predictor pd (ml_log s)) as [[res|e] w];
    [|done].
  unfold mbind at 1. unfold M_bind at 1. unfold lift at 1.
  destruct (explain_prediction str_float format_0f pd res) as [expl|e]; [|done].
  unfold mbind, M_bind, lift, mret, M_ret, py_getitem, view_row, py_get_none,
    py_get.
  by rewrite Hpt, Hloc, Hbed, Hbath.
Qed.
End ViewFacts.

Section ViewLemmas.
Context {F : Type} `{Num F}.
Context {Raw Errors : Type}.
Variable serializer : Raw → Errors + dict F.
Variable predictor : PropertyPricePredictor F.
Implicit Types (pd validated_data : dict F) (w : world).

(** A returned prediction leaves the log as it was. *)
Lemma predict_with_confidence_Return_log pd w (res : PredictionResult F) w' :
  predict_with_confidence predictor pd w = (Return res, w') → w' = w.
Proof.
  intros (X & row & HX & _)%predict_with_confidence_Return.
  by apply prepare_input_Return in HX as [-> _].
Qed.

(** A request that holds [None] for a size is not predicted. *)
Lemma null_size_not_predicted pd w (res : PredictionResult F) w' :
  pd !! "house_size" = Some VNone ∨ pd !! "land_size" = Some VNone →
  predict_with_confidence predictor pd w ≠ (Return res, w').
Proof.
  intros Hnone (X & row & HX & _)%predict_with_confidence_Return.
  apply prepare_input_Return in HX as (_ & data & Hdata & _).
  destruct (engineered_sizes _ _ _ Hdata)
    as (medians & mh & ml & total & _ & _ & _ & _ & _ & Hadd & _).
  rewrite py_add_None in Hadd; [done|].
  destruct Hnone as [Hh | Hl]; [left | right];
    by erewrite py_get_Some by done.
Qed.

(** After a returned prediction the request has its four required keys,
    and a house size that is no string is a number. *)
Lemma returned_prediction_request pd w (res : PredictionResult F) w' :
  predict_with_confidence predictor pd w = (Return res, w') →
  (∀ text : string, pd !! "house_size" ≠ Some (VStr text)) →
  is_Some (pd !! "location") ∧ is_Some (pd !! "property_type") ∧
  is_Some (pd !! "bedrooms") ∧ is_Some (pd !! "bathrooms") ∧
  ∀ v, pd !! "house_size" = Some v → is_number v = true.
Proof.
  intros (X & row & HX & _)%predict_with_confidence_Return Hstr.
  apply prepare_input_Return in HX as (_ & data & Hdata & _).
  destruct (engineered_categories _ _ _ Hdata)
    as (pt & loc & Hpt & Hloc & _).
  destruct (engineered_rooms _ _ _ Hdata)
    as (bed & bath & ratio & Hbed & Hbath & _).
  destruct (engineered_sizes _ _ _ Hdata)
    as (medians & mh & ml & total & _ & _ & _ & _ & _ & Hadd & _).
  do 4 (split; [by eexists|]).
  intros v Hv. rewrite (py_get_Some _ _ _ _ Hv) in Hadd.
  apply py_add_Return in Hadd as [(? & _) | (text & t & -> & _)]; [done|].
  by destruct (Hstr text).
Qed.

(** The outcome of a prediction is the same from every log. *)
Lemma predict_with_confidence_Raise_any pd w0 w1 e w :
  predict_with_confidence predictor pd w0 = (Raise e, w1) →
  ∃ w', predict_with_confidence predictor pd w = (Raise e, w').
Proof.
  destruct (predict_with_confidence_logs_only predictor pd) as (o & l & Hrun).
  rewrite !Hrun. intros [= -> _]. eauto.
Qed.

(** The loop of [batch_predict] returns the entries of all the valid items,
    in their order, after the entries it started with. *)
Lemma batch_loop_Return (items : list Raw) (results out : list (BatchResult F))
    w w' :
  batch_loop serializer predictor items results w = (Return out, w') →
  w' = w ∧
  ∃ new, out = results ++ new ∧
         Forall2 (batch_entry predictor w) (valid_items serializer items) new.
Proof.
  revert results. induction items as [|item items IH]; intros results.
  - intros [= <- <-]. split; [done|]. exists []. by rewrite app_nil_r.
  - cbn [batch_loop]. unfold valid_items. cbn [omap list_omap].
    destruct (serializer item) as [errors|vd]; [apply IH|].
    unfold mbind at 1. unfold M_bind at 1. unfold lift at 1.
    destruct (view_property_data vd) as [pd|e] eqn:Hview; [|done].
    unfold mbind at 1. unfold M_bind at 1.
    destruct (predict_with_confidence predictor pd w) as [[res|e] w1] eqn:Hrun;
      [|done].
    pose proof (predict_with_confidence_Return_log _ _ _ _ Hrun) as ->.
    intros (-> & new & -> & Hnew)%IH. split; [done|].
    eexists (_ :: new). rewrite <- app_assoc. split; [done|].
    constructor; [|done]. by exists res.
Qed.
End ViewLemmas.

(** The three answers of [predict] and what each leaves behind. A 400
    carries the errors of the serializer and changes nothing. A 200 answers
    a valid request whose prediction and explanation returned: exactly the
    row of this prediction was created, the body repeats the values of the
    result and the request, and no log has a new record. A 500 is "Prediction
    failed" with the exception as details: the table is as it was and the
    log of the views has one new record. No row is created for a request
    that is not answered with 200. *)
Theorem predict_view_outcomes {F : Type} `{Num F} {Raw Errors Table : Type}
    (serializer : Raw → Errors + dict F)
    (objects_create : PredictionRow F → Table → option (Z * Table))
    (str_float format_0f format_grouped_0f format_1f : F → string)
    (predictor : PropertyPricePredictor F)
    (request : HttpRequest Raw) (s : server Table) :
  let run :=
    predict serializer objects_create str_float format_0f format_grouped_0f
      format_1f predictor request s in
  match run.1 with
  | HTTP_400_BAD_REQUEST errors =>
      serializer (data request) = inl errors ∧ run.2 = s
  | HTTP_200_OK body =>
      ∃ validated_data res,
        serializer (data request) = inr validated_data ∧
        view_property_data validated_data
        = Return (body_input_features body) ∧
        predict_with_confidence predictor (body_input_features body) (ml_log s)
        = (Return res, ml_log s) ∧
        explain_prediction str_float format_0f (body_input_features body) res
        = Return (body_explanations body) ∧
        objects_create (view_row request (body_input_features body) res)
          (table s)
        = Some (body_prediction_id body, table run.2) ∧
        body_predicted_price body = predicted_price res ∧
        body_confidence_score body = confidence_score res ∧
        body_price_range_min body = price_range_min res ∧
        body_price_range_max body = price_range_max res ∧
        ml_log run.2 = ml_log s ∧ views_log run.2 = views_log s
  | HTTP_500_INTERNAL_SERVER_ERROR error details =>
      error = "Prediction failed" ∧ table run.2 = table s ∧
      ∃ e, details = Some e ∧
           views_log run.2
           = views_log s ++ [ViewLogError "Prediction error" e]
  end.
Proof.
  cbn zeta. rewrite predict_run.
  destruct (serializer (data request)) as [errors|vd] eqn:Hser; [done|].
  destruct (view_property_data vd) as [pd|e] eqn:Hview;
    [|cbn; eauto].
  destruct (predict_with_confidence predictor pd (ml_log s))
    as [[res|e] w] eqn:Hrun; [|cbn; eauto].
  pose proof (predict_with_confidence_Return_log _ _ _ _ _ Hrun) as ->.
  destruct (explain_prediction str_float format_0f pd res) as [expl|e] eqn:Hexpl;
    [|cbn; eauto].
  destruct (objects_create _ _) as [[id table']|] eqn:Hcreate; [|cbn; eauto].
  cbn. exists vd, res. repeat split; done.
Qed.

(** The optional sizes are mandatory at the view: a valid request whose
    validated data lack [house_size] or [land_size], or hold [None] for it,
    is answered with 500 "Prediction failed", and no row is created. *)
Theorem omitted_size_is_server_error {F : Type} `{Num F}
    {Raw Errors Table : Type}
    (serializer : Raw → Errors + dict F)
    (objects_create : PredictionRow F → Table → option (Z * Table))
    (str_float format_0f format_grouped_0f format_1f : F → string)
    (predictor : PropertyPricePredictor F)
    (request : HttpRequest Raw) (s : server Table)
    (validated_data : dict F) :
  serializer (data request) = inr validated_data →
  py_get_none validated_data "house_size" = VNone
  ∨ py_get_none validated_data "land_size" = VNone →
  ∃ (e : exn) (s' : server Table),
    predict serializer objects_create str_float format_0f format_grouped_0f
      format_1f predictor request s
    = (HTTP_500_INTERNAL_SERVER_ERROR "Prediction failed"
         (Some (EngineError e)), s') ∧
    table s' = table s ∧
    views_log s'
    = views_log s ++ [ViewLogError "Prediction error" (EngineError e)].
Proof.
  intros Hser Hnone. rewrite predict_run, Hser.
  destruct (view_property_data validated_data) as [pd|e] eqn:Hview;
    [|by eexists _, _].
  apply view_property_data_Return in Hview
    as (_ & _ & _ & _ & _ & _ & _ & _ & _ & _ & _ & _ & Hh & Hl).
  destruct (predict_with_confidence predictor pd (ml_log s))
    as [[res|e] w] eqn:Hrun; [|by eexists _, _].
  destruct (null_size_not_predicted predictor pd (ml_log s) res w); [|done].
  destruct Hnone as [Hn | Hn]; [left | right]; by rewrite <- Hn.
Qed.

Lemma omitted_size_is_server_error_witness :
  ∃ s',
    predict (F:=float) stub_serializer stub_create (λ _, "150.0") (λ _, "150")
      (λ _, "20,100,000") (λ _, "97.8") scenario_predictor
      {| data := request "Apartment" "Kilimani" 3 2 (Some 150%float) None;
         META := ∅; session_key := None |}
      {| ml_log := []; views_log := []; table := [] |}
    = (HTTP_500_INTERNAL_SERVER_ERROR "Prediction failed"
         (Some (EngineError TypeError)), s') ∧
    table s' = [].
Proof.
  edestruct (omitted_size_is_server_error (F:=float) stub_serializer
               stub_create (λ _, "150.0") (λ _, "150") (λ _, "20,100,000")
               (λ _, "97.8") scenario_predictor
               {| data := request "Apartment" "Kilimani" 3 2 (Some 150%float)
                            None;
                  META := ∅; session_key := None |}
               {| ml_log := []; views_log := []; table := [] |})
    as (e & s' & Hrun & Htable & _); [reflexivity | by right |].
  exists s'. split; [|exact Htable].
  rewrite Hrun. assert (e = TypeError) as ->; [|done].
  assert (predict (F:=float) stub_serializer stub_create (λ _, "150.0")
            (λ _, "150") (λ _, "20,100,000") (λ _, "97.8") scenario_predictor
            {| data := request "Apartment" "Kilimani" 3 2 (Some 150%float)
                         None;
               META := ∅; session_key := None |}
            {| ml_log := []; views_log := []; table := [] |}
          = (HTTP_500_INTERNAL_SERVER_ERROR "Prediction failed"
               (Some (EngineError TypeError)),
             {| ml_log := [LogError "Prediction error" TypeError];
                views_log := [ViewLogError "Prediction error"
                                (EngineError TypeError)];
                table := [] |})) as Hrun' by reflexivity.
  rewrite Hrun in Hrun'. by injection Hrun'.
Defined.

(** The view adds no failure of its own. When the serializer accepts the
    request, the engine returns a prediction for the request the view
    builds, the house size is no string and the table takes the row of this
    prediction, the answer is 200: the body holds the returned identifier,
    the request, the values of the result and an explanation of four or
    five sentences; the new table is the one the insertion gave and no log
    has a new record. *)
Theorem returned_prediction_is_answered {F : Type} `{Num F}
    {Raw Errors Table : Type}
    (serializer : Raw → Errors + dict F)
    (objects_create : PredictionRow F → Table → option (Z * Table))
    (str_float format_0f format_grouped_0f format_1f : F → string)
    (predictor : PropertyPricePredictor F)
    (request : HttpRequest Raw) (s : server Table)
    (validated_data pd : dict F) (res : PredictionResult F) (w' : world)
    (id : Z) (table' : Table) :
  serializer (data request) = inr validated_data →
  view_property_data validated_data = Return pd →
  predict_with_confidence predictor pd (ml_log s) = (Return res, w') →
  (∀ text : string, pd !! "house_size" ≠ Some (VStr text)) →
  objects_create (view_row request pd res) (table s) = Some (id, table') →
  ∃ body : PredictionBody F,
    predict serializer objects_create str_float format_0f format_grouped_0f
      format_1f predictor request s
    = (HTTP_200_OK body,
       {| ml_log := ml_log s; views_log := views_log s; table := table' |}) ∧
    body_prediction_id body = id ∧
    body_input_features body = pd ∧
    body_predicted_price body = predicted_price res ∧
    body_confidence_score body = confidence_score res ∧
    body_price_range_min body = price_range_min res ∧
    body_price_range_max body = price_range_max res ∧
    body_model_metrics body = model_metrics res ∧
    length (body_explanations body)
    = if py_truthy (py_get_none pd "house_size") then 5%nat else 4%nat.
Proof.
  intros Hser Hview Hrun Hstr Hcreate.
  rewrite predict_run, Hser, Hview, Hrun.
  pose proof (predict_with_confidence_Return_log _ _ _ _ _ Hrun) as ->.
  destruct (returned_prediction_request predictor pd _ _ _ Hrun Hstr)
    as (Hloc & Hpt & Hbed & Hbath & Hhouse).
  destruct (explain_prediction_total str_float format_0f pd res)
    as (sentences & -> & Hlen); [done..| |].
  { intros v Hv _. by apply Hhouse. }
  rewrite Hcreate. eexists. split; [reflexivity|]. by repeat split.
Qed.

Lemma returned_prediction_is_answered_witness :
  ∃ body s',
    predict (F:=float) stub_serializer stub_create (λ _, "150.0") (λ _, "150")
      (λ _, "20,100,000") (λ _, "97.8") scenario_predictor
      {| data := kilimani_apartment; META := ∅; session_key := None |}
      {| ml_log := []; views_log := []; table := [] |}
    = (HTTP_200_OK body, s') ∧
    body_prediction_id body = 1%Z ∧
    length (body_explanations body) = 5%nat ∧
    length (table s') = 1%nat ∧ ml_log s' = [] ∧ views_log s' = [].
Proof.
  edestruct (returned_prediction_is_answered (F:=float) stub_serializer
               stub_create (λ _, "150.0") (λ _, "150") (λ _, "20,100,000")
               (λ _, "97.8") scenario_predictor
               {| data := kilimani_apartment; META := ∅; session_key := None |}
               {| ml_log := []; views_log := []; table := [] |})
    as (body & Hrun & Hid & _ & _ & _ & _ & _ & _ & Hlen);
    [reflexivity | reflexivity | reflexivity | by intros text [=]
    | reflexivity |].
  eexists body, _. split; [exact Hrun|].
  split; [exact Hid|]. split; [exact Hlen|]. by repeat split.
Defined.

(** A batch that is answered with 200 holds one entry for each valid item
    of the request, in the order of the request: the request of the view
    for the item with the price and the confidence of its prediction. The
    items that are not valid are passed over in silence, and the server is
    left as it was: no prediction of a batch is stored. *)
Theorem batch_predict_results {F : Type} `{Num F} {Raw Errors Table : Type}
    (serializer : Raw → Errors + dict F)
    (get_predictions : Raw → option (list Raw))
    (predictor : PropertyPricePredictor F)
    (request : HttpRequest Raw) (s s' : server Table)
    (results : list (BatchResult F)) :
  batch_predict serializer get_predictions predictor request s
  = (HTTP_200_OK results, s') →
  s' = s ∧
  ∃ items,
    get_predictions (data request) = Some items ∧
    Forall2 (batch_entry predictor (ml_log s)) (valid_items serializer items)
      results.
Proof.
  unfold batch_predict.
  destruct (get_predictions (data request)) as [items|]; [|done].
  destruct (batch_loop _ _ _ _ _) as [[out|e] w] eqn:Hloop; [|done].
  intros [= <- <-].
  apply batch_loop_Return in Hloop as (-> & new & -> & Hnew).
  split; [by destruct s|]. by exists items.
Qed.

Lemma batch_predict_results_witness :
  ∃ results s',
    batch_predict (F:=float) (Table:=list (PredictionRow float))
      stub_serializer (λ _, Some [∅; kilimani_apartment; ∅])
      scenario_predictor
      {| data := ∅; META := ∅; session_key := None |}
      {| ml_log := []; views_log := []; table := [] |}
    = (HTTP_200_OK results, s') ∧
    length results = 1%nat ∧ table s' = [].
Proof.
  eexists _, _. split; [reflexivity|].
  edestruct (batch_predict_results (F:=float)
               (Table:=list (PredictionRow float))
               stub_serializer (λ _, Some [∅; kilimani_apartment; ∅])
               scenario_predictor
               {| data := ∅; META := ∅; session_key := None |}
               {| ml_log := []; views_log := []; table := [] |})
    as (Hs & items & Hitems & Hall); [reflexivity|].
  split; reflexivity.
Defined.

(** A batch is all or nothing: when the prediction of one valid item
    raises, the whole batch is answered with 500 "Batch prediction failed",
    without details and without the results of the other items; the table is
    as it was and the log of the views has one new record. *)
Theorem batch_predict_all_or_nothing {F : Type} `{Num F}
    {Raw Errors Table : Type}
    (serializer : Raw → Errors + dict F)
    (get_predictions : Raw → option (list Raw))
    (predictor : PropertyPricePredictor F)
    (request : HttpRequest Raw) (s : server Table)
    (items : list Raw) (item : Raw) (validated_data pd : dict F)
    (e : exn) (w w' : world) :
  get_predictions (data request) = Some items →
  item ∈ items →
  serializer item = inr validated_data →
  view_property_data validated_data = Return pd →
  predict_with_confidence predictor pd w = (Raise e, w') →
  ∃ (e' : exn) (s' : server Table),
    batch_predict serializer get_predictions predictor request s
    = (HTTP_500_INTERNAL_SERVER_ERROR "Batch prediction failed" None, s') ∧
    table s' = table s ∧
    views_log s'
    = views_log s ++ [ViewLogError "Batch prediction error" (EngineError e')].
Proof.
  intros Hitems Hitem Hser Hview Hraise. unfold batch_predict. rewrite Hitems.
  destruct (batch_loop _ _ _ _ _) as [[out|e'] w1] eqn:Hloop;
    [|by eexists _, _].
  apply batch_loop_Return in Hloop as (_ & new & _ & Hnew).
  assert (validated_data ∈ valid_items serializer items) as Hvalid.
  { unfold valid_items. apply list_elem_of_omap. exists item.
    by rewrite Hser. }
  apply list_elem_of_lookup_1 in Hvalid as [i Hi].
  destruct (Forall2_lookup_l _ _ _ _ _ Hnew Hi)
    as (r & _ & res & Hview' & Hrun & _).
  assert (batch_input r = pd) as Hpd by congruence. rewrite Hpd in Hrun.
  destruct (predict_with_confidence_Raise_any predictor pd w w' e (ml_log s)
              Hraise) as [w2 Hraise'].
  congruence.
Qed.

Lemma batch_predict_all_or_nothing_witness :
  ∃ s',
    batch_predict (F:=float) (Table:=list (PredictionRow float))
      stub_serializer
      (λ _, Some [kilimani_apartment;
                  request "Apartment" "Kilimani" 3 2 (Some 150%float) None])
      scenario_predictor
      {| data := ∅; META := ∅; session_key := None |}
      {| ml_log := []; views_log := []; table := [] |}
    = (HTTP_500_INTERNAL_SERVER_ERROR "Batch prediction failed" None, s') ∧
    table s' = [].
Proof.
  edestruct (batch_predict_all_or_nothing (F:=float)
               (Table:=list (PredictionRow float))
               stub_serializer
               (λ _, Some [kilimani_apartment;
                           request "Apartment" "Kilimani" 3 2 (Some 150%float)
                             None])
               scenario_predictor
               {| data := ∅; META := ∅; session_key := None |}
               {| ml_log := []; views_log := []; table := [] |}
               [kilimani_apartment;
                request "Apartment" "Kilimani" 3 2 (Some 150%float) None]
               (request "Apartment" "Kilimani" 3 2 (Some 150%float) None)
               (request "Apartment" "Kilimani" 3 2 (Some 150%float) None)
               (list_to_map [
                  ("property_type", VStr "Apartment");
                  ("location", VStr "Kilimani");
                  ("bedrooms", VInt 3); ("bathrooms", VInt 2);
                  ("house_size", VFloat 150%float); ("land_size", VNone) ])
               TypeError [] [LogError "Prediction error" TypeError])
    as (e' & s' & Hrun & Htable & _);
    [reflexivity | | reflexivity | reflexivity | reflexivity |].
  - apply list_elem_of_further, list_elem_of_here.
  - exists s'. by split.
Defined.
